(** * Seq2seq Transformer (Conv_s2s_pytorch/seq2seq): a shallow embedding

    The development follows the four source files
    - [seq2seq/models/transformer.py]
    - [seq2seq/models/modules/normalization.py]
    - [seq2seq/datasets/wmt.py]
    - [seq2seq/datasets/__init__.py]

    Python exceptions are values of [PyError]; a Python call that may raise
    returns a [result].  Tensors are a shape, a device flag and an indexing
    function; the tensor operations the sources call are defined in
    [Module torch] with the shape checks the framework performs.  Floating
    point numbers are an interface ([Float]): every theorem that does not
    mention the reals holds for any implementation of it. *)

From stdpp Require Import gmap strings list.
From Stdlib Require Import ZArith Reals Lra Lia.

(** ** Python exceptions *)

Inductive PyError : Type :=
| AssertionError
| ZeroDivisionError
| ValueError
| TypeError
| UnboundLocalError
| RuntimeError
| IndexError
| AttributeError
| IOError.

Inductive result (A : Type) : Type :=
| Ok (a : A)
| Raise (e : PyError).

Arguments Ok {A} a.
Arguments Raise {A} e.

Definition bind {A B : Type} (m : result A) (k : A -> result B) : result B :=
  match m with
  | Ok a => k a
  | Raise e => Raise e
  end.

Notation "x <- m ;; k" := (bind m (fun x => k))
  (at level 100, m at next level, right associativity).

Definition is_ok {A : Type} (m : result A) : bool :=
  match m with Ok _ => true | Raise _ => false end.

(** ** Floating point numbers as an interface

    [of_Z] is Python's [float(n)] on an integer; [feq0 x] is [x == 0.0] and
    [fle0 x] is [x <= 0.0].  The one law says that [float(n) - 1.] is zero
    exactly when [n] is 1, which holds for IEEE doubles and for the reals. *)

Class Float (F : Type) : Type := {
  of_Z : Z -> F;
  fadd : F -> F -> F;
  fsub : F -> F -> F;
  fmul : F -> F -> F;
  fdiv : F -> F -> F;
  fneg : F -> F;
  fexp : F -> F;
  flog : F -> F;
  fsin : F -> F;
  fcos : F -> F;
  fsqrt : F -> F;
  fpow : F -> nat -> F;
  fpowf : F -> F -> F;
  feq0 : F -> bool;
  fle0 : F -> bool;
  float_minus_one_eq0 :
    forall n : Z, feq0 (fsub (of_Z n) (of_Z 1)) = (n =? 1)%Z
}.

(** Python's [a / b] on floats raises on a zero divisor. *)
Definition truediv {F : Type} `{Float F} (a b : F) : result F :=
  if feq0 b then Raise ZeroDivisionError else Ok (fdiv a b).

Module math.

(** [math.log(x)]: a math domain error ([ValueError]) for [x <= 0]. *)
Definition log {F : Type} `{Float F} (x : F) : result F :=
  if fle0 x then Raise ValueError else Ok (flog x).

End math.

(** ** Tensors *)

Module torch.

Record Tensor (A : Type) : Type := mkTensor {
  size : list nat;
  is_cuda : bool;
  get : list nat -> A
}.

Arguments mkTensor {A} size is_cuda get.
Arguments size {A} t.
Arguments is_cuda {A} t.
Arguments get {A} t idx.

Definition numel (shape : list nat) : nat := fold_right Nat.mul 1 shape.

Fixpoint shape_eqb (s1 s2 : list nat) : bool :=
  match s1, s2 with
  | [], [] => true
  | a :: s1', b :: s2' => (a =? b) && shape_eqb s1' s2'
  | _, _ => false
  end.

(** Row-major offset of an index, and back. *)
Fixpoint ravel (shape idx : list nat) : nat :=
  match shape, idx with
  | _ :: ss, i :: idx' => i * numel ss + ravel ss idx'
  | _, _ => 0
  end.

Fixpoint unravel (shape : list nat) (k : nat) : list nat :=
  match shape with
  | [] => []
  | _ :: ss => (k / numel ss) :: unravel ss (k mod numel ss)
  end.

Section generic.
Context {A : Type}.

Definition map {B : Type} (f : A -> B) (t : Tensor A) : Tensor B :=
  mkTensor (size t) (is_cuda t) (fun idx => f (get t idx)).

(** [t.cuda()] *)
Definition cuda (t : Tensor A) : Tensor A :=
  mkTensor (size t) true (get t).

(** [t.unsqueeze(d)]: a new dimension of size one at position [d]. *)
Definition unsqueeze (t : Tensor A) (d : nat) : Tensor A :=
  mkTensor (take d (size t) ++ 1 :: drop d (size t)) (is_cuda t)
           (fun idx => get t (take d idx ++ drop (S d) idx)).

Fixpoint expandable (old new : list nat) : bool :=
  match old, new with
  | [], [] => true
  | o :: old', n :: new' => ((o =? n) || (o =? 1)) && expandable old' new'
  | _, _ => false
  end.

Fixpoint expand_index (old idx : list nat) : list nat :=
  match old, idx with
  | o :: old', i :: idx' => (if o =? 1 then 0 else i) :: expand_index old' idx'
  | _, _ => []
  end.

(** [t.expand(shape)]: dimensions of size one are repeated, new leading
    dimensions may be added, anything else is a [RuntimeError]. *)
Definition expand (t : Tensor A) (shape : list nat) : result (Tensor A) :=
  let pad := length shape - length (size t) in
  if (length (size t) <=? length shape) && expandable (size t) (drop pad shape)
  then Ok (mkTensor shape (is_cuda t)
                    (fun idx => get t (expand_index (size t) (drop pad idx))))
  else Raise RuntimeError.

Definition expand_as {B : Type} (t : Tensor A) (other : Tensor B) : result (Tensor A) :=
  expand t (size other).

(** Elementwise binary operations: both operands on one device and of one
    shape (the sources expand explicitly before every such call). *)
Definition pointwise {B C : Type} (f : A -> B -> C) (a : Tensor A) (b : Tensor B)
  : result (Tensor C) :=
  if shape_eqb (size a) (size b) && bool_decide (is_cuda a = is_cuda b)
  then Ok (mkTensor (size a) (is_cuda a) (fun idx => f (get a idx) (get b idx)))
  else Raise RuntimeError.

(** [torch.cat([a, b], d)] *)
Definition cat2 (a b : Tensor A) (d : nat) : result (Tensor A) :=
  if negb (d <? length (size a)) then Raise IndexError
  else if shape_eqb (<[d := 0]> (size a)) (<[d := 0]> (size b))
          && bool_decide (is_cuda a = is_cuda b)
  then Ok (mkTensor (<[d := nth d (size a) 0 + nth d (size b) 0]> (size a)) (is_cuda a)
             (fun idx => let i := nth d idx 0 in
                         if i <? nth d (size a) 0 then get a idx
                         else get b (<[d := i - nth d (size a) 0]> idx)))
  else Raise RuntimeError.

Fixpoint cat (ts : list (Tensor A)) (d : nat) : result (Tensor A) :=
  match ts with
  | [] => Raise RuntimeError
  | [t] => Ok t
  | t :: ts' => rest <- cat ts' d ;; cat2 t rest d
  end.

(** Shape of [t.view(dims)], where one entry may be [-1]. *)
Definition infer_size (dims : list Z) (n : nat) : result (list nat) :=
  if existsb (fun d => (d <? -1)%Z) dims then Raise RuntimeError
  else
    let known := List.map Z.to_nat (List.filter (fun d => negb (d =? -1)%Z) dims) in
    match length dims - length known with
    | 0 => if numel known =? n then Ok known else Raise RuntimeError
    | 1 => if (numel known =? 0) || negb (n mod numel known =? 0)
           then Raise RuntimeError
           else Ok (List.map (fun d => if (d =? -1)%Z then n / numel known
                                       else Z.to_nat d) dims)
    | _ => Raise RuntimeError
    end.

(** [t.view(dims)]: the same elements in row-major order under a new shape. *)
Definition view (t : Tensor A) (dims : list Z) : result (Tensor A) :=
  shape <- infer_size dims (numel (size t)) ;;
  Ok (mkTensor shape (is_cuda t)
               (fun idx => get t (unravel (size t) (ravel shape idx)))).

End generic.

(** [torch.arange(lo, hi)] *)
Definition arange (lo hi : nat) : Tensor Z :=
  mkTensor [hi - lo] false
           (fun idx => match idx with
                       | [i] => Z.of_nat (lo + i)
                       | _ => 0%Z
                       end).

(** [t.eq(v)] on an integer tensor. *)
Definition eq (t : Tensor Z) (v : Z) : Tensor bool :=
  map (fun x => (x =? v)%Z) t.

Section floating.
Context {F : Type} `{Float F}.

(** [t.float()] *)
Definition float (t : Tensor Z) : Tensor F := map of_Z t.

(** In-place operations return the updated tensor. *)
Definition mul_ (t : Tensor F) (c : F) : Tensor F := map (fun v => fmul v c) t.
Definition exp_ (t : Tensor F) : Tensor F := map fexp t.
Definition sin (t : Tensor F) : Tensor F := map fsin t.
Definition cos (t : Tensor F) : Tensor F := map fcos t.
Definition sqrt (t : Tensor F) : Tensor F := map fsqrt t.
Definition pow (t : Tensor F) (n : nat) : Tensor F := map (fun v => fpow v n) t.
Definition add_scalar (t : Tensor F) (c : F) : Tensor F := map (fun v => fadd v c) t.

Definition add (a b : Tensor F) : result (Tensor F) := pointwise fadd a b.
Definition sub (a b : Tensor F) : result (Tensor F) := pointwise fsub a b.
Definition mul (a b : Tensor F) : result (Tensor F) := pointwise fmul a b.
Definition div (a b : Tensor F) : result (Tensor F) := pointwise fdiv a b.

Definition sum_list (l : list F) : F := fold_left fadd l (of_Z 0).

(** [t.mean(d)]: the sum along dimension [d] divided by its size; the
    dimension is removed (the sources re-[view] the result, so keeping it
    with size one gives the same tensors). *)
Definition mean (t : Tensor F) (d : nat) : result (Tensor F) :=
  if negb (d <? length (size t)) then Raise IndexError
  else
    let n := nth d (size t) 0 in
    Ok (mkTensor (delete d (size t)) (is_cuda t)
          (fun idx =>
             fdiv (sum_list (List.map (fun k => get t (take d idx ++ k :: drop d idx))
                                      (seq 0 n)))
                  (of_Z (Z.of_nat n)))).

End floating.

End torch.

(** ** transformer.py: [positional_embedding] *)

Section positional.
Context {F : Type} `{Float F}.

Definition positional_embedding {A : Type} (x : torch.Tensor A)
  (min_timescale max_timescale : F) : result (torch.Tensor F) :=
  match torch.size x with
  | [batch; length; channels] =>
    if negb (channels mod 2 =? 0) then Raise AssertionError
    else
      let num_timescales := channels / 2 in
      ratio <- truediv max_timescale min_timescale ;;
      log_ratio <- math.log ratio ;;
      log_timescale_increment <-
        truediv log_ratio (fsub (of_Z (Z.of_nat num_timescales)) (of_Z 1)) ;;
      let position := torch.float (torch.arange 0 length) in
      let inv_timescales := torch.float (torch.arange 0 num_timescales) in
      let position := if torch.is_cuda x then torch.cuda position else position in
      let inv_timescales :=
        if torch.is_cuda x then torch.cuda inv_timescales else inv_timescales in
      let inv_timescales :=
        torch.mul_ (torch.exp_ (torch.mul_ inv_timescales (fneg log_timescale_increment)))
                   min_timescale in
      position2 <- torch.expand (torch.unsqueeze position 1) [length; num_timescales] ;;
      inv2 <- torch.expand (torch.unsqueeze inv_timescales 0) [length; num_timescales] ;;
      scaled_time <- torch.mul position2 inv2 ;;
      signal <- torch.cat [torch.sin scaled_time; torch.cos scaled_time] 1 ;;
      torch.expand (torch.unsqueeze signal 0) [batch; length; channels]
  | _ => Raise ValueError
  end.

(** The factor [inv_timescales[i]] as the body above computes it. *)
Definition inv_timescale (mn increment : F) (i : nat) : F :=
  fmul (fexp (fmul (of_Z (Z.of_nat i)) (fneg increment))) mn.

End positional.


(** ** Stateful computations that may raise *)

Module state.
Section monad.
Context {St : Type}.

Definition M (A : Type) : Type := St -> result (A * St).

Definition ret {A : Type} (a : A) : M A := fun s => Ok (a, s).

Definition bind {A B : Type} (m : M A) (k : A -> M B) : M B :=
  fun s => match m s with
           | Ok (a, s') => k a s'
           | Raise e => Raise e
           end.

Definition lift {A : Type} (r : result A) : M A :=
  fun s => match r with
           | Ok a => Ok (a, s)
           | Raise e => Raise e
           end.

Fixpoint replicateM {A : Type} (n : nat) (m : M A) : M (list A) :=
  match n with
  | 0 => ret []
  | S n' => bind m (fun a => bind (replicateM n' m) (fun l => ret (a :: l)))
  end.

End monad.
Arguments M St A : clear implicits.
End state.

Notation "x <~ m ;; k" := (state.bind m (fun x => k))
  (at level 100, m at next level, right associativity).

(** ** The framework's modules and parameters

    A parameter is a location in a store of tensors: two attributes that
    hold the same location are the same [nn.Parameter] object, and an update
    through either is seen through both. *)

Module nn.

Module Embedding.
Record t : Type := mk {
  num_embeddings : nat;
  embedding_dim : nat;
  padding_idx : Z;
  weight : nat
}.
Definition set_weight (w : nat) (self : t) : t :=
  mk (num_embeddings self) (embedding_dim self) (padding_idx self) w.
End Embedding.

Module Linear.
Record t : Type := mk {
  in_features : nat;
  out_features : nat;
  weight : nat;
  bias : nat
}.
End Linear.

Module Dropout.
Record t (F : Type) : Type := mk {
  p : F;
  inplace : bool
}.
Arguments mk {F} p inplace.
Arguments p {F} _.
Arguments inplace {F} _.
End Dropout.

Section store.
Context {F : Type}.

Record Store : Type := mkStore {
  params : gmap nat (torch.Tensor F);
  next_param : nat;
  rng : nat
}.

(** Computations of the framework read and update the store and may raise. *)
Definition M (A : Type) : Type := state.M Store A.

(** [nn.Parameter(t)]: a new parameter object. *)
Definition new_parameter (t : torch.Tensor F) : M nat :=
  fun s => Ok (next_param s,
               mkStore (<[next_param s := t]> (params s)) (S (next_param s)) (rng s)).

(** Reading a parameter. *)
Definition data (p : nat) : M (torch.Tensor F) :=
  fun s => match params s !! p with
           | Some t => Ok (t, s)
           | None => Raise RuntimeError
           end.

(** [p.data.fill_(v)] *)
Definition fill_ (p : nat) (v : F) : M unit :=
  fun s => match params s !! p with
           | Some t =>
             Ok (tt, mkStore (<[p := torch.mkTensor (torch.size t) (torch.is_cuda t)
                                                    (fun _ => v)]> (params s))
                             (next_param s) (rng s))
           | None => Raise RuntimeError
           end.

(** Assigning new contents to a parameter (an optimiser step). *)
Definition update (p : nat) (t : torch.Tensor F) (s : Store) : Store :=
  mkStore (<[p := t]> (params s)) (next_param s) (rng s).

Definition read (p : nat) (s : Store) : option (torch.Tensor F) := params s !! p.

(** Attribute access on a value that may be [None]. *)
Definition attr {A : Type} (o : option A) : M A :=
  match o with
  | Some a => state.ret a
  | None => state.lift (Raise AttributeError)
  end.

End store.

Arguments Store F : clear implicits.
Arguments M F A : clear implicits.

End nn.


(** Modelled from the spec: [models/modules/attention.py] is not among the
    sources.  The glossary describes multi-head attention only as a
    mechanism over parallel projection subspaces, so the module object is
    its constructor arguments, the two masks that [set_mask_q] and
    [set_mask_k] store, and an uninterpreted remainder [impl]. *)
Module MultiHeadAttention.
Record t (F P : Type) : Type := mk {
  input_size : nat;
  output_size : nat;
  num_heads : nat;
  dropout : F;
  causal : bool;
  weight_norm : bool;
  mask_q : option (torch.Tensor bool);
  mask_k : option (torch.Tensor bool);
  impl : P
}.
Arguments mk {F P}.
Arguments input_size {F P} _.
Arguments output_size {F P} _.
Arguments num_heads {F P} _.
Arguments dropout {F P} _.
Arguments causal {F P} _.
Arguments weight_norm {F P} _.
Arguments mask_q {F P} _.
Arguments mask_k {F P} _.
Arguments impl {F P} _.

Definition set_mask_q {F P : Type} (self : t F P) (mask : option (torch.Tensor bool)) : t F P :=
  mk (input_size self) (output_size self) (num_heads self) (dropout self)
     (causal self) (weight_norm self) mask (mask_k self) (impl self).

Definition set_mask_k {F P : Type} (self : t F P) (mask : option (torch.Tensor bool)) : t F P :=
  mk (input_size self) (output_size self) (num_heads self) (dropout self)
     (causal self) (weight_norm self) (mask_q self) mask (impl self).
End MultiHeadAttention.

(** What the sources use of the framework and of the modules that are not
    among them: the forward passes of [nn.Embedding], [nn.Linear],
    [nn.ReLU], [nn.Dropout], of [MultiHeadAttention] and of the
    [weight_norm] wrapper, and the contents of a freshly created tensor. *)
Class Framework (F : Type) : Type := {
  fresh_values : nat -> list nat -> list nat -> F;
  AttentionImpl : Type;
  attention_init : nat -> nat -> nat -> F -> bool -> bool -> nn.M F AttentionImpl;
  attention_forward :
    MultiHeadAttention.t F AttentionImpl ->
    torch.Tensor F -> torch.Tensor F -> torch.Tensor F ->
    nn.M F (torch.Tensor F * torch.Tensor F);
  WeightNorm : Type;
  wn : nn.Linear.t -> nn.M F WeightNorm;
  wn_forward : WeightNorm -> torch.Tensor F -> nn.M F (torch.Tensor F);
  embedding_forward : nn.Embedding.t -> torch.Tensor Z -> nn.M F (torch.Tensor F);
  linear_forward : nn.Linear.t -> torch.Tensor F -> nn.M F (torch.Tensor F);
  relu_forward : bool -> torch.Tensor F -> nn.M F (torch.Tensor F);
  dropout_forward : nn.Dropout.t F -> torch.Tensor F -> nn.M F (torch.Tensor F)
}.

(** [seq2seq/tools/config.py] is not among the sources: its symbols are
    parameters. *)
Class Config : Type := {
  PAD : Z;
  BOS : Z;
  EOS : Z
}.

Section constructors.
Context {F : Type} `{Float F} `{Framework F}.

(** [torch.Tensor(shape)] and the random initialisation of the framework's
    layers: contents that the sources do not determine. *)
Definition fresh_tensor (shape : list nat) : nn.M F (torch.Tensor F) :=
  fun s => Ok (torch.mkTensor shape false (fresh_values (nn.next_param s) shape), s).

(** [nn.Embedding(num_embeddings, embedding_dim, padding_idx)] *)
Definition Embedding_init (num_embeddings embedding_dim : nat) (padding_idx : Z)
  : nn.M F nn.Embedding.t :=
  t <~ fresh_tensor [num_embeddings; embedding_dim] ;;
  w <~ nn.new_parameter t ;;
  state.ret (nn.Embedding.mk num_embeddings embedding_dim padding_idx w).

(** [nn.Linear(in_features, out_features)] *)
Definition Linear_init (in_features out_features : nat) : nn.M F nn.Linear.t :=
  tw <~ fresh_tensor [out_features; in_features] ;;
  w <~ nn.new_parameter tw ;;
  tb <~ fresh_tensor [out_features] ;;
  b <~ nn.new_parameter tb ;;
  state.ret (nn.Linear.mk in_features out_features w b).

Definition MultiHeadAttention_init (input_size output_size num_heads : nat)
  (dropout : F) (causal weight_norm : bool)
  : nn.M F (MultiHeadAttention.t F AttentionImpl) :=
  i <~ attention_init input_size output_size num_heads dropout causal weight_norm ;;
  state.ret (MultiHeadAttention.mk input_size output_size num_heads dropout
                                causal weight_norm None None i).

End constructors.

(** ** normalization.py: [LayerNorm1d] *)

Module LayerNorm1d.

Record t (F : Type) : Type := mk {
  eps : F;
  num_features : nat;
  affine : bool;
  weight : option nat;
  bias : option nat
}.
Arguments mk {F}.
Arguments eps {F} _.
Arguments num_features {F} _.
Arguments affine {F} _.
Arguments weight {F} _.
Arguments bias {F} _.

Section methods.
Context {F : Type} `{Float F} `{Framework F}.

Definition reset_parameters (self : t F) : nn.M F unit :=
  if affine self then
    w <~ nn.attr (weight self) ;;
    _ <~ nn.fill_ w (of_Z 1) ;;
    b <~ nn.attr (bias self) ;;
    nn.fill_ b (of_Z 0)
  else state.ret tt.

Definition init (num_features : nat) (eps : F) (affine : bool) : nn.M F (t F) :=
  self <~ (if affine then
             tw <~ fresh_tensor [num_features] ;;
             w <~ nn.new_parameter tw ;;
             tb <~ fresh_tensor [num_features] ;;
             b <~ nn.new_parameter tb ;;
             state.ret (mk eps num_features affine (Some w) (Some b))
           else state.ret (mk eps num_features affine None None)) ;;
  _ <~ reset_parameters self ;;
  state.ret self.

(** The default [eps=1e-6]. *)
Definition default_eps : F := fdiv (of_Z 1) (of_Z 1000000).

Definition forward (self : t F) (inputs : torch.Tensor F) : nn.M F (torch.Tensor F) :=
  match torch.size inputs with
  | [b; t; _] =>
    m <~ state.lift (torch.mean inputs 2) ;;
    m <~ state.lift (torch.view m [Z.of_nat b; Z.of_nat t; 1%Z]) ;;
    mean <~ state.lift (torch.expand_as m inputs) ;;
    input_centered <~ state.lift (torch.sub inputs mean) ;;
    v <~ state.lift (torch.mean (torch.pow input_centered 2) 2) ;;
    let std := torch.sqrt (torch.add_scalar v (eps self)) in
    sv <~ state.lift (torch.view std [Z.of_nat b; Z.of_nat t; 1%Z]) ;;
    se <~ state.lift (torch.expand_as sv inputs) ;;
    output <~ state.lift (torch.div input_centered se) ;;
    if affine self then
      wp <~ nn.attr (weight self) ;;
      wt <~ nn.data wp ;;
      wv <~ state.lift (torch.view wt [1%Z; 1%Z; (-1)%Z]) ;;
      w <~ state.lift (torch.expand_as wv output) ;;
      bp <~ nn.attr (bias self) ;;
      bt <~ nn.data bp ;;
      bv <~ state.lift (torch.view bt [1%Z; 1%Z; (-1)%Z]) ;;
      b <~ state.lift (torch.expand_as bv output) ;;
      ow <~ state.lift (torch.mul output w) ;;
      state.lift (torch.add ow b)
    else state.ret output
  | _ => state.lift (Raise ValueError)
  end.

End methods.

End LayerNorm1d.

(** ** transformer.py: the blocks *)

(** [nn.Sequential] over the layers the sources put into it. *)
Module Sequential.
Section s.
Context {F : Type} `{Framework F}.

Inductive Layer : Type :=
| LinearLayer (l : nn.Linear.t)
| WeightNormLayer (w : WeightNorm)
| ReLULayer (inplace : bool)
| DropoutLayer (d : nn.Dropout.t F).

Definition t : Type := list Layer.

Definition Layer_forward (l : Layer) (x : torch.Tensor F) : nn.M F (torch.Tensor F) :=
  match l with
  | LinearLayer l => linear_forward l x
  | WeightNormLayer w => wn_forward w x
  | ReLULayer inplace => relu_forward inplace x
  | DropoutLayer d => dropout_forward d x
  end.

Fixpoint forward (self : t) (x : torch.Tensor F) : nn.M F (torch.Tensor F) :=
  match self with
  | [] => state.ret x
  | l :: rest => y <~ Layer_forward l x ;; forward rest y
  end.

(** [wn_func = wn if weight_norm else lambda x: x] *)
Definition wn_func (weight_norm : bool) (l : nn.Linear.t) : nn.M F Layer :=
  if weight_norm then w <~ wn l ;; state.ret (WeightNormLayer w)
  else state.ret (LinearLayer l).

End s.
Arguments Layer F {_}.
Arguments t F {_}.
End Sequential.

Section lnorm.
Context {F : Type} `{Float F} `{Framework F}.

(** [self.lnorm(x) if hasattr(self, 'lnorm') else x] *)
Definition apply_lnorm (lnorm : option (LayerNorm1d.t F)) (x : torch.Tensor F)
  : nn.M F (torch.Tensor F) :=
  match lnorm with
  | Some l => LayerNorm1d.forward l x
  | None => state.ret x
  end.

(** [self.dropout(x).add_(res)] *)
Definition dropout_add (d : nn.Dropout.t F) (x res : torch.Tensor F)
  : nn.M F (torch.Tensor F) :=
  y <~ dropout_forward d x ;;
  state.lift (torch.add y res).

End lnorm.

Module EncoderBlock.
Section s.
Context {F : Type} `{Float F} `{Framework F}.

Record t : Type := mk {
  lnorm1 : option (LayerNorm1d.t F);
  lnorm2 : option (LayerNorm1d.t F);
  dropout : nn.Dropout.t F;
  attention : MultiHeadAttention.t F AttentionImpl;
  fc : Sequential.t F
}.

Definition init (hidden_size num_heads inner_linear : nat) (weight_norm : bool)
  (dropout : F) : nn.M F t :=
  lnorms <~ (if negb weight_norm then
               l1 <~ LayerNorm1d.init hidden_size LayerNorm1d.default_eps true ;;
               l2 <~ LayerNorm1d.init hidden_size LayerNorm1d.default_eps true ;;
               state.ret (Some l1, Some l2)
             else state.ret (None, None)) ;;
  attention <~ MultiHeadAttention_init hidden_size hidden_size num_heads dropout
                                       false weight_norm ;;
  lin1 <~ Linear_init hidden_size inner_linear ;;
  fc1 <~ Sequential.wn_func weight_norm lin1 ;;
  lin2 <~ Linear_init inner_linear hidden_size ;;
  fc2 <~ Sequential.wn_func weight_norm lin2 ;;
  state.ret (mk (fst lnorms) (snd lnorms) (nn.Dropout.mk dropout false) attention
             [fc1; Sequential.ReLULayer true;
              Sequential.DropoutLayer (nn.Dropout.mk dropout false); fc2]).

Definition set_mask (self : t) (mask : option (torch.Tensor bool)) : t :=
  let attention := MultiHeadAttention.set_mask_q (attention self) mask in
  let attention := MultiHeadAttention.set_mask_k attention mask in
  mk (lnorm1 self) (lnorm2 self) (dropout self) attention (fc self).

Definition forward (self : t) (inputs : torch.Tensor F) : nn.M F (torch.Tensor F) :=
  let x := inputs in
  let res := x in
  r <~ attention_forward (attention self) x x x ;;
  let x := fst r in
  x <~ dropout_add (dropout self) x res ;;
  x <~ apply_lnorm (lnorm1 self) x ;;
  let res := x in
  x <~ Sequential.forward (fc self) x ;;
  x <~ dropout_add (dropout self) x res ;;
  x <~ apply_lnorm (lnorm2 self) x ;;
  state.ret x.

End s.
Arguments t F {_}.
End EncoderBlock.

Module DecoderBlock.
Section s.
Context {F : Type} `{Float F} `{Framework F}.

Record t : Type := mk {
  lnorm1 : option (LayerNorm1d.t F);
  lnorm2 : option (LayerNorm1d.t F);
  lnorm3 : option (LayerNorm1d.t F);
  dropout : nn.Dropout.t F;
  weight_norm : bool;
  attention : MultiHeadAttention.t F AttentionImpl;
  masked_attention : MultiHeadAttention.t F AttentionImpl;
  fc : Sequential.t F
}.

Definition init (hidden_size num_heads inner_linear : nat) (weight_norm : bool)
  (dropout : F) : nn.M F t :=
  lnorms <~ (if negb weight_norm then
               l1 <~ LayerNorm1d.init hidden_size LayerNorm1d.default_eps true ;;
               l2 <~ LayerNorm1d.init hidden_size LayerNorm1d.default_eps true ;;
               l3 <~ LayerNorm1d.init hidden_size LayerNorm1d.default_eps true ;;
               state.ret (Some l1, Some l2, Some l3)
             else state.ret (None, None, None)) ;;
  attention <~ MultiHeadAttention_init hidden_size hidden_size num_heads dropout
                                       false weight_norm ;;
  masked_attention <~ MultiHeadAttention_init hidden_size hidden_size num_heads dropout
                                              true weight_norm ;;
  lin1 <~ Linear_init hidden_size inner_linear ;;
  fc1 <~ Sequential.wn_func weight_norm lin1 ;;
  lin2 <~ Linear_init inner_linear hidden_size ;;
  fc2 <~ Sequential.wn_func weight_norm lin2 ;;
  state.ret (mk (fst (fst lnorms)) (snd (fst lnorms)) (snd lnorms)
             (nn.Dropout.mk dropout false) weight_norm attention masked_attention
             [fc1; Sequential.ReLULayer true;
              Sequential.DropoutLayer (nn.Dropout.mk dropout false); fc2]).

Definition set_mask (self : t) (mask context_mask : option (torch.Tensor bool)) : t :=
  let attention :=
    match context_mask with
    | Some _ => MultiHeadAttention.set_mask_k (attention self) context_mask
    | None => attention self
    end in
  let masked_attention := MultiHeadAttention.set_mask_q (masked_attention self) mask in
  let masked_attention := MultiHeadAttention.set_mask_k masked_attention mask in
  mk (lnorm1 self) (lnorm2 self) (lnorm3 self) (dropout self) (weight_norm self)
     attention masked_attention (fc self).

Definition forward (self : t) (inputs context : torch.Tensor F)
  : nn.M F (torch.Tensor F * torch.Tensor F) :=
  let x := inputs in
  let res := x in
  r <~ attention_forward (masked_attention self) x x x ;;
  let x := fst r in
  x <~ dropout_add (dropout self) x res ;;
  x <~ apply_lnorm (lnorm1 self) x ;;
  let res := x in
  r <~ attention_forward (attention self) x context context ;;
  let x := fst r in
  let attn_enc := snd r in
  x <~ dropout_add (dropout self) x res ;;
  x <~ apply_lnorm (lnorm2 self) x ;;
  let res := x in
  x <~ Sequential.forward (fc self) x ;;
  x <~ dropout_add (dropout self) x res ;;
  x <~ apply_lnorm (lnorm3 self) x ;;
  state.ret (x, attn_enc).

End s.
Arguments t F {_}.
End DecoderBlock.

(** ** transformer.py: encoder, decoder and [Transformer] *)

(** Python values that travel in the [encoder] and [decoder] dictionaries. *)
Inductive pyval (F : Type) : Type :=
| PyNone
| PyBool (b : bool)
| PyInt (z : Z)
| PyFloat (f : F).
Arguments PyNone {F}.
Arguments PyBool {F} b.
Arguments PyInt {F} z.
Arguments PyFloat {F} f.

Section pyvalues.
Context {F : Type} `{Float F}.

Definition truthy (v : pyval F) : bool :=
  match v with
  | PyNone => false
  | PyBool b => b
  | PyInt z => negb (z =? 0)%Z
  | PyFloat f => negb (feq0 f)
  end.

(** A size: a non-negative integer. *)
Definition as_nat (v : pyval F) : result nat :=
  match v with
  | PyInt z => if (0 <=? z)%Z then Ok (Z.to_nat z) else Raise RuntimeError
  | PyBool b => Ok (if b then 1 else 0)
  | _ => Raise TypeError
  end.

(** The number of iterations of [range(n)]: none for a negative [n]. *)
Definition range_length (v : pyval F) : result nat :=
  match v with
  | PyInt z => Ok (Z.to_nat z)
  | PyBool b => Ok (if b then 1 else 0)
  | _ => Raise TypeError
  end.

Definition as_optional_nat (v : pyval F) : result (option nat) :=
  match v with
  | PyNone => Ok None
  | _ => n <- as_nat v ;; Ok (Some n)
  end.

Definition as_float (v : pyval F) : result F :=
  match v with
  | PyFloat f => Ok f
  | PyInt z => Ok (of_Z z)
  | PyBool b => Ok (of_Z (if b then 1 else 0))
  | PyNone => Raise TypeError
  end.

Definition as_symbol (v : pyval F) : result (option Z) :=
  match v with
  | PyNone => Ok None
  | PyInt z => Ok (Some z)
  | PyBool b => Ok (Some (if b then 1 else 0)%Z)
  | PyFloat _ => Raise TypeError
  end.

(** [d.setdefault(k, v)] *)
Definition setdefault (k : string) (v : pyval F) (d : gmap string (pyval F))
  : gmap string (pyval F) :=
  match d !! k with
  | Some _ => d
  | None => <[k := v]> d
  end.

(** A call [f(d)] accepts only the parameter names of [f]. *)
Definition check_keys (allowed : list string) (d : gmap string (pyval F)) : result unit :=
  if bool_decide (dom d ⊆ list_to_set allowed) then Ok tt else Raise TypeError.

Definition required (k : string) (d : gmap string (pyval F)) : result (pyval F) :=
  match d !! k with
  | Some v => Ok v
  | None => Raise TypeError
  end.

Definition optional (k : string) (dflt : pyval F) (d : gmap string (pyval F)) : pyval F :=
  default dflt (d !! k).

(** [embedding_size or hidden_size] *)
Definition size_or (embedding_size : option nat) (hidden_size : nat) : nat :=
  match embedding_size with
  | Some (S n) => S n
  | _ => hidden_size
  end.

End pyvalues.

(** Modelled from the spec: [models/modules/state.py] is not among the
    sources; a [State] is the keyword arguments the encoder passes. *)
Module State.
Record t (F : Type) : Type := mk {
  outputs : torch.Tensor F;
  mask : option (torch.Tensor bool);
  batch_first : bool
}.
Arguments mk {F}.
Arguments outputs {F} _.
Arguments mask {F} _.
Arguments batch_first {F} _.
End State.

(** Modelled from the spec: the [state] argument of the decoder is also an
    object of [models/modules/state.py]; of it the decoder reads [context]
    (the encoder's [State]) and assigns [attention_score]. *)
Module DecoderState.
Record t (F : Type) : Type := mk {
  context : State.t F;
  attention_score : option (list (torch.Tensor F))
}.
Arguments mk {F}.
Arguments context {F} _.
Arguments attention_score {F} _.

Definition set_attention_score {F : Type} (self : t F)
  (scores : list (torch.Tensor F)) : t F :=
  mk (context self) (Some scores).
End DecoderState.

Module TransformerAttentionEncoder.
Section s.
Context {F : Type} `{Float F} `{Framework F} `{Config}.

Record t : Type := mk {
  hidden_size : nat;
  batch_first : bool;
  mask_symbol : option Z;
  embedder : nn.Embedding.t;
  scale_embedding : F;
  dropout : nn.Dropout.t F;
  blocks : list (EncoderBlock.t F)
}.

Definition init (vocab_size hidden_size : nat) (embedding_size : option nat)
  (num_layers num_heads inner_linear : nat) (mask_symbol : option Z)
  (weight_norm : bool) (dropout : F) : nn.M F t :=
  let embedding_size := size_or embedding_size hidden_size in
  embedder <~ Embedding_init vocab_size embedding_size PAD ;;
  let scale_embedding :=
    fpowf (of_Z (Z.of_nat hidden_size)) (fdiv (of_Z 1) (of_Z 2)) in
  blocks <~ state.replicateM num_layers
              (EncoderBlock.init hidden_size num_heads inner_linear weight_norm dropout) ;;
  state.ret (mk hidden_size true mask_symbol embedder scale_embedding
             (nn.Dropout.mk dropout true) blocks).

Definition keys : list string :=
  ["vocab_size"; "hidden_size"; "embedding_size"; "num_layers"; "num_heads";
   "inner_linear"; "mask_symbol"; "weight_norm"; "dropout"]%string.

(** [TransformerAttentionEncoder(kwargs)] with the defaults of [__init__]. *)
Definition call (kwargs : gmap string (pyval F)) : nn.M F t :=
  _ <~ state.lift (check_keys keys kwargs) ;;
  vocab_size <~ state.lift (v <- required "vocab_size" kwargs ;; as_nat v) ;;
  hidden_size <~ state.lift (as_nat (optional "hidden_size" (PyInt 512) kwargs)) ;;
  embedding_size <~ state.lift (as_optional_nat (optional "embedding_size" PyNone kwargs)) ;;
  num_layers <~ state.lift (range_length (optional "num_layers" (PyInt 6) kwargs)) ;;
  num_heads <~ state.lift (as_nat (optional "num_heads" (PyInt 8) kwargs)) ;;
  inner_linear <~ state.lift (as_nat (optional "inner_linear" (PyInt 1024) kwargs)) ;;
  mask_symbol <~ state.lift (as_symbol (optional "mask_symbol" (PyInt PAD) kwargs)) ;;
  dropout <~ state.lift (as_float (optional "dropout" (PyInt 0) kwargs)) ;;
  init vocab_size hidden_size embedding_size num_layers num_heads inner_linear
       mask_symbol (truthy (optional "weight_norm" (PyBool false) kwargs)) dropout.

Definition set_blocks (self : t) (bs : list (EncoderBlock.t F)) : t :=
  mk (hidden_size self) (batch_first self) (mask_symbol self) (embedder self)
     (scale_embedding self) (dropout self) bs.

Definition set_embedder (self : t) (e : nn.Embedding.t) : t :=
  mk (hidden_size self) (batch_first self) (mask_symbol self) e
     (scale_embedding self) (dropout self) (blocks self).

(** The loop [for block in self.blocks: block.set_mask(padding_mask); x = block(x)];
    the blocks are returned with their masks set. *)
Fixpoint run_blocks (padding_mask : option (torch.Tensor bool))
  (blocks : list (EncoderBlock.t F)) (x : torch.Tensor F)
  : nn.M F (torch.Tensor F * list (EncoderBlock.t F)) :=
  match blocks with
  | [] => state.ret (x, [])
  | block :: rest =>
    let block := EncoderBlock.set_mask block padding_mask in
    x <~ EncoderBlock.forward block x ;;
    r <~ run_blocks padding_mask rest x ;;
    state.ret (fst r, block :: snd r)
  end.

Definition forward (self : t) (inputs : torch.Tensor Z) : nn.M F (State.t F * t) :=
  let padding_mask :=
    match mask_symbol self with
    | Some m => Some (torch.eq inputs m)
    | None => None
    end in
  x <~ embedding_forward (embedder self) inputs ;;
  let x := torch.mul_ x (scale_embedding self) in
  pe <~ state.lift (positional_embedding x (of_Z 1) (of_Z 10000)) ;;
  x <~ state.lift (torch.add x pe) ;;
  x <~ dropout_forward (dropout self) x ;;
  r <~ run_blocks padding_mask (blocks self) x ;;
  state.ret (State.mk (fst r) padding_mask true, set_blocks self (snd r)).

End s.
Arguments t F {_}.
End TransformerAttentionEncoder.

Module TransformerAttentionDecoder.
Section s.
Context {F : Type} `{Float F} `{Framework F} `{Config}.

Record t : Type := mk {
  batch_first : bool;
  mask_symbol : option Z;
  embedder : nn.Embedding.t;
  scale_embedding : F;
  dropout : nn.Dropout.t F;
  blocks : list (DecoderBlock.t F);
  classifier : nn.Linear.t
}.

Definition init (vocab_size hidden_size : nat) (embedding_size : option nat)
  (num_layers num_heads : nat) (dropout : F) (inner_linear : nat)
  (mask_symbol : option Z) (tie_embedding weight_norm : bool) : nn.M F t :=
  let embedding_size := size_or embedding_size hidden_size in
  embedder <~ Embedding_init vocab_size embedding_size PAD ;;
  let scale_embedding :=
    fpowf (of_Z (Z.of_nat hidden_size)) (fdiv (of_Z 1) (of_Z 2)) in
  blocks <~ state.replicateM num_layers
              (DecoderBlock.init hidden_size num_heads inner_linear weight_norm dropout) ;;
  classifier <~ Linear_init hidden_size vocab_size ;;
  let embedder :=
    if tie_embedding
    then nn.Embedding.set_weight (nn.Linear.weight classifier) embedder
    else embedder in
  state.ret (mk true mask_symbol embedder scale_embedding
             (nn.Dropout.mk dropout true) blocks classifier).

Definition keys : list string :=
  ["vocab_size"; "hidden_size"; "embedding_size"; "num_layers"; "num_heads";
   "dropout"; "inner_linear"; "mask_symbol"; "tie_embedding"; "weight_norm"]%string.

(** [TransformerAttentionDecoder(kwargs)] with the defaults of [__init__]. *)
Definition call (kwargs : gmap string (pyval F)) : nn.M F t :=
  _ <~ state.lift (check_keys keys kwargs) ;;
  vocab_size <~ state.lift (v <- required "vocab_size" kwargs ;; as_nat v) ;;
  hidden_size <~ state.lift (as_nat (optional "hidden_size" (PyInt 512) kwargs)) ;;
  embedding_size <~ state.lift (as_optional_nat (optional "embedding_size" PyNone kwargs)) ;;
  num_layers <~ state.lift (range_length (optional "num_layers" (PyInt 6) kwargs)) ;;
  num_heads <~ state.lift (as_nat (optional "num_heads" (PyInt 8) kwargs)) ;;
  dropout <~ state.lift (as_float (optional "dropout" (PyInt 0) kwargs)) ;;
  inner_linear <~ state.lift (as_nat (optional "inner_linear" (PyInt 1024) kwargs)) ;;
  mask_symbol <~ state.lift (as_symbol (optional "mask_symbol" (PyInt PAD) kwargs)) ;;
  init vocab_size hidden_size embedding_size num_layers num_heads dropout inner_linear
       mask_symbol (truthy (optional "tie_embedding" (PyBool true) kwargs))
       (truthy (optional "weight_norm" (PyBool false) kwargs)).

Definition set_blocks (self : t) (bs : list (DecoderBlock.t F)) : t :=
  mk (batch_first self) (mask_symbol self) (embedder self) (scale_embedding self)
     (dropout self) bs (classifier self).

(** The loop over [self.blocks]: every block gets its masks set and is run
    on the encoder outputs; its attention scores are appended to
    [attention_scores] when [get_attention] holds and dropped otherwise. *)
Fixpoint run_blocks (padding_mask : option (torch.Tensor bool))
  (context : State.t F) (get_attention : bool)
  (blocks : list (DecoderBlock.t F)) (x : torch.Tensor F)
  (attention_scores : list (torch.Tensor F))
  : nn.M F (torch.Tensor F * list (torch.Tensor F) * list (DecoderBlock.t F)) :=
  match blocks with
  | [] => state.ret (x, attention_scores, [])
  | block :: rest =>
    let block := DecoderBlock.set_mask block padding_mask (State.mask context) in
    r <~ DecoderBlock.forward block x (State.outputs context) ;;
    let x := fst r in
    let attn_enc := snd r in
    let attention_scores :=
      if get_attention then attention_scores ++ [attn_enc] else attention_scores in
    r <~ run_blocks padding_mask context get_attention rest x attention_scores ;;
    state.ret (fst (fst r), snd (fst r), block :: snd r)
  end.

Definition forward (self : t) (inputs : torch.Tensor Z) (state : DecoderState.t F)
  (get_attention : bool) : nn.M F (torch.Tensor F * DecoderState.t F * t) :=
  let context := DecoderState.context state in
  let padding_mask :=
    match mask_symbol self with
    | Some m => Some (torch.eq inputs m)
    | None => None
    end in
  x <~ embedding_forward (embedder self) inputs ;;
  let x := torch.mul_ x (scale_embedding self) in
  pe <~ state.lift (positional_embedding x (of_Z 1) (of_Z 10000)) ;;
  x <~ state.lift (torch.add x pe) ;;
  x <~ dropout_forward (dropout self) x ;;
  r <~ run_blocks padding_mask context get_attention (blocks self) x [] ;;
  let attention_scores := snd (fst r) in
  x <~ linear_forward (classifier self) (fst (fst r)) ;;
  let state :=
    if get_attention then DecoderState.set_attention_score state attention_scores
    else state in
  state.ret (x, state, set_blocks self (snd r)).

End s.
Arguments t F {_}.
End TransformerAttentionDecoder.

Module Transformer.
Section s.
Context {F : Type} `{Float F} `{Framework F} `{Config}.

Record t : Type := mk {
  batch_first : bool;
  encoder : TransformerAttentionEncoder.t F;
  decoder : TransformerAttentionDecoder.t F
}.

Definition init (vocab_size hidden_size : nat) (embedding_size : option nat)
  (num_layers num_heads inner_linear : nat) (dropout : F) (tie_embedding : bool)
  (encoder decoder : option (gmap string (pyval F))) (weight_norm : bool)
  : nn.M F t :=
  let embedding_size := size_or embedding_size hidden_size in
  let encoder := default ∅ encoder in
  let decoder := default ∅ decoder in
  let encoder := setdefault "embedding_size" (PyInt (Z.of_nat embedding_size)) encoder in
  let encoder := setdefault "hidden_size" (PyInt (Z.of_nat hidden_size)) encoder in
  let encoder := setdefault "num_layers" (PyInt (Z.of_nat num_layers)) encoder in
  let encoder := setdefault "num_heads" (PyInt (Z.of_nat num_heads)) encoder in
  let encoder := setdefault "vocab_size" (PyInt (Z.of_nat vocab_size)) encoder in
  let encoder := setdefault "weight_norm" (PyBool weight_norm) encoder in
  let encoder := setdefault "dropout" (PyFloat dropout) encoder in
  let encoder := setdefault "inner_linear" (PyInt (Z.of_nat inner_linear)) encoder in
  let decoder := setdefault "embedding_size" (PyInt (Z.of_nat embedding_size)) decoder in
  let decoder := setdefault "hidden_size" (PyInt (Z.of_nat hidden_size)) decoder in
  let decoder := setdefault "num_layers" (PyInt (Z.of_nat num_layers)) decoder in
  let decoder := setdefault "num_heads" (PyInt (Z.of_nat num_heads)) decoder in
  let decoder := setdefault "tie_embedding" (PyBool tie_embedding) decoder in
  let decoder := setdefault "vocab_size" (PyInt (Z.of_nat vocab_size)) decoder in
  let decoder := setdefault "weight_norm" (PyBool weight_norm) decoder in
  let decoder := setdefault "dropout" (PyFloat dropout) decoder in
  let decoder := setdefault "inner_linear" (PyInt (Z.of_nat inner_linear)) decoder in
  enc <~ TransformerAttentionEncoder.call encoder ;;
  dec <~ TransformerAttentionDecoder.call decoder ;;
  let enc :=
    if tie_embedding
    then TransformerAttentionEncoder.set_embedder enc
           (nn.Embedding.set_weight
              (nn.Linear.weight (TransformerAttentionDecoder.classifier dec))
              (TransformerAttentionEncoder.embedder enc))
    else enc in
  state.ret (mk true enc dec).

End s.
Arguments t F {_}.
End Transformer.

(** ** datasets/wmt.py: [WMT16_de_en]

    [datasets/multi_language.py] is not among the sources: the parent class
    [MultiLanguageDataset] is an interface.  Its constructor and [load_data]
    act on the file system, which is the state [World]. *)

Module Options.
Record t (T C V : Type) : Type := mk {
  prefix : string;
  languages : list string;
  tokenization : string;
  num_symbols : Z;
  shared_vocab : bool;
  code_files : option C;
  vocab_files : option V;
  insert_start : list Z;
  insert_end : list Z;
  mark_language : bool;
  tokenizers : option T;
  load_data : bool
}.
Arguments mk {T C V}.
Arguments prefix {T C V} _.
Arguments languages {T C V} _.
Arguments tokenization {T C V} _.
Arguments num_symbols {T C V} _.
Arguments shared_vocab {T C V} _.
Arguments code_files {T C V} _.
Arguments vocab_files {T C V} _.
Arguments insert_start {T C V} _.
Arguments insert_end {T C V} _.
Arguments mark_language {T C V} _.
Arguments tokenizers {T C V} _.
Arguments load_data {T C V} _.

(** [options[key] = value] for the four keys the constructor assigns. *)
Definition set_tokenizers {T C V : Type} (v : option T) (o : t T C V) : t T C V :=
  mk (prefix o) (languages o) (tokenization o) (num_symbols o) (shared_vocab o)
     (code_files o) (vocab_files o) (insert_start o) (insert_end o)
     (mark_language o) v (load_data o).

Definition set_code_files {T C V : Type} (v : option C) (o : t T C V) : t T C V :=
  mk (prefix o) (languages o) (tokenization o) (num_symbols o) (shared_vocab o)
     v (vocab_files o) (insert_start o) (insert_end o)
     (mark_language o) (tokenizers o) (load_data o).

Definition set_vocab_files {T C V : Type} (v : option V) (o : t T C V) : t T C V :=
  mk (prefix o) (languages o) (tokenization o) (num_symbols o) (shared_vocab o)
     (code_files o) v (insert_start o) (insert_end o)
     (mark_language o) (tokenizers o) (load_data o).

Definition set_prefix {T C V : Type} (v : string) (o : t T C V) : t T C V :=
  mk v (languages o) (tokenization o) (num_symbols o) (shared_vocab o)
     (code_files o) (vocab_files o) (insert_start o) (insert_end o)
     (mark_language o) (tokenizers o) (load_data o).
End Options.

Class MultiLanguage : Type := {
  World : Type;
  Tokenizers : Type;
  CodeFiles : Type;
  VocabFiles : Type;
  MultiLanguageDataset : Type;
  (** [MultiLanguageDataset(options)] *)
  MultiLanguageDataset_init :
    Options.t Tokenizers CodeFiles VocabFiles -> state.M World MultiLanguageDataset;
  (** [getattr(data, name, None)] for the three attributes read here *)
  getattr_tokenizers : MultiLanguageDataset -> option Tokenizers;
  getattr_code_files : MultiLanguageDataset -> option CodeFiles;
  getattr_vocab_files : MultiLanguageDataset -> option VocabFiles;
  MultiLanguageDataset_load_data :
    MultiLanguageDataset -> state.M World MultiLanguageDataset
}.

Module WMT16_de_en.
Section s.
Context `{MultiLanguage}.

(** ["{root}/{name}{pretok}.clean".format(root=root, pretok=pretok)] *)
Definition clean_prefix (root name pretok : string) : string :=
  (root +:+ "/" +:+ name +:+ pretok +:+ ".clean")%string.

(** Reading a local variable that may not have been assigned. *)
Definition read_local {A : Type} (v : option A) : state.M World A :=
  match v with
  | Some a => state.ret a
  | None => state.lift (Raise UnboundLocalError)
  end.

Definition init (root split tokenization : string) (num_symbols : Z)
  (shared_vocab : bool) (code_files : option CodeFiles)
  (vocab_files : option VocabFiles) (insert_start insert_end : list Z)
  (mark_language : bool) (tokenizers : option Tokenizers)
  (moses_pretok load_data : bool) : state.M World MultiLanguageDataset :=
  let pretok := (if moses_pretok then ".tok" else "")%string in
  let train_prefix := clean_prefix root "train" pretok in
  let options :=
    Options.mk train_prefix ["en"; "de"]%string tokenization num_symbols
               shared_vocab code_files vocab_files insert_start insert_end
               mark_language tokenizers false in
  let train_options := options in
  options <~
    (if String.eqb split "train" then state.ret train_options
     else
       train_data <~ MultiLanguageDataset_init train_options ;;
       let options := Options.set_tokenizers (getattr_tokenizers train_data) options in
       let options := Options.set_code_files (getattr_code_files train_data) options in
       let options := Options.set_vocab_files (getattr_vocab_files train_data) options in
       let prefix :=
         if String.eqb split "dev"
         then Some (clean_prefix root "newstest2014" pretok)
         else if String.eqb split "test"
         then Some (clean_prefix root "newstest2016" pretok)
         else None in
       prefix <~ read_local prefix ;;
       state.ret (Options.set_prefix prefix options)) ;;
  self <~ MultiLanguageDataset_init options ;;
  if load_data then MultiLanguageDataset_load_data self else state.ret self.

End s.
End WMT16_de_en.

(** datasets/__init__.py only re-exports the dataset classes; of those,
    [WMT16_de_en] is the one whose source is given. *)
Definition datasets_all : list string :=
  ["LinedTextDataset"; "OpenSubtitles2016"; "MultiLanguageDataset";
   "WMT16_de_en"; "CocoCaptions"]%string.

(** ** Definitions used to state the properties *)

Section wmt_statements.
Context `{MultiLanguage}.

(** The last two statements of [__init__], common to every split. *)
Definition construct (load_data : bool)
  (options : Options.t Tokenizers CodeFiles VocabFiles)
  : state.M World MultiLanguageDataset :=
  self <~ MultiLanguageDataset_init options ;;
  if load_data then MultiLanguageDataset_load_data self else state.ret self.

(** The options of the dataset of a split other than ['train']: the given
    ones, with the three attributes of the training dataset and the file
    prefix of the split. *)
Definition split_options (name : string) (root tokenization : string)
  (num_symbols : Z) (shared_vocab : bool) (insert_start insert_end : list Z)
  (mark_language moses_pretok : bool) (train_data : MultiLanguageDataset)
  : Options.t Tokenizers CodeFiles VocabFiles :=
  Options.mk
    (root +:+ "/" +:+ name +:+ (if moses_pretok then ".tok" else "") +:+ ".clean")%string
    ["en"; "de"]%string tokenization num_symbols shared_vocab
    (getattr_code_files train_data) (getattr_vocab_files train_data)
    insert_start insert_end mark_language (getattr_tokenizers train_data) false.

End wmt_statements.

Section tying_statements.
Context {F : Type} `{Float F} `{Framework F} `{Config}.

(** The parameters behind the three attributes that tying concerns: the
    encoder's embedding weight, the decoder's embedding weight and the
    decoder's classifier weight. *)
Definition tied_weights (m : Transformer.t F) : nat * nat * nat :=
  (nn.Embedding.weight (TransformerAttentionEncoder.embedder (Transformer.encoder m)),
   nn.Embedding.weight (TransformerAttentionDecoder.embedder (Transformer.decoder m)),
   nn.Linear.weight (TransformerAttentionDecoder.classifier (Transformer.decoder m))).

Definition constructed_weights (r : result (Transformer.t F * nn.Store F))
  : option (nat * nat * nat) :=
  match r with
  | Ok (m, _) => Some (tied_weights m)
  | Raise _ => None
  end.

End tying_statements.

Section layernorm_statements.
Context {F : Type} `{Float F}.

(** The features of one (batch, time) position. *)
Definition features (x : torch.Tensor F) (i j f : nat) : list F :=
  List.map (fun k => torch.get x [i; j; k]) (seq 0 f).

(** The mean of a list: its sum divided by its length. *)
Definition mean_of (l : list F) : F :=
  fdiv (torch.sum_list l) (of_Z (Z.of_nat (length l))).

(** [(v - m) / sqrt(mean((x - m)^2) + eps)] for the features [row] of a
    position, [m] being their mean. *)
Definition normalized (eps : F) (row : list F) (v : F) : F :=
  let m := mean_of row in
  fdiv (fsub v m)
       (fsqrt (fadd (mean_of (List.map (fun u => fpow (fsub u m) 2) row)) eps)).

End layernorm_statements.



Section block_statements.
Context {F : Type} `{Float F} `{Framework F}.

(** A sub-layer: the layer itself, then dropout and the residual add, then
    the layer normalisation [lnorm] when there is one. *)
Definition sublayer {B : Type}
  (layer : torch.Tensor F -> nn.M F (torch.Tensor F * B))
  (dropout : nn.Dropout.t F) (lnorm : option (LayerNorm1d.t F))
  (x : torch.Tensor F) : nn.M F (torch.Tensor F * B) :=
  r <~ layer x ;;
  y <~ dropout_forward dropout (fst r) ;;
  y <~ state.lift (torch.add y x) ;;
  y <~ match lnorm with
       | Some l => LayerNorm1d.forward l y
       | None => state.ret y
       end ;;
  state.ret (y, snd r).

(** The feed-forward network: a first linear map, an in-place ReLU, a
    dropout and a second linear map. *)
Definition feed_forward_network
  (first second : torch.Tensor F -> nn.M F (torch.Tensor F))
  (dropout : nn.Dropout.t F) (x : torch.Tensor F) : nn.M F (torch.Tensor F) :=
  h <~ first x ;;
  h <~ relu_forward true h ;;
  h <~ dropout_forward dropout h ;;
  second h.

(** The decoder block as three sub-layers in sequence: self-attention over
    the inputs by [masked_attention], attention from the result to the
    encoder context by [attention], and the feed-forward network; the
    attention scores returned are those of the second. *)
Definition decoder_sublayers
  (masked_attention attention : MultiHeadAttention.t F AttentionImpl)
  (dropout : nn.Dropout.t F) (lnorm1 lnorm2 lnorm3 : option (LayerNorm1d.t F))
  (first second : torch.Tensor F -> nn.M F (torch.Tensor F))
  (inputs context : torch.Tensor F) : nn.M F (torch.Tensor F * torch.Tensor F) :=
  r1 <~ sublayer (fun x => attention_forward masked_attention x x x)
                 dropout lnorm1 inputs ;;
  r2 <~ sublayer (fun x => attention_forward attention x context context)
                 dropout lnorm2 (fst r1) ;;
  r3 <~ sublayer (fun x => y <~ feed_forward_network first second dropout x ;;
                           state.ret (y, tt))
                 dropout lnorm3 (fst r2) ;;
  state.ret (fst r3, snd r2).

End block_statements.

Section layernorm_more_statements.
Context {F : Type} `{Float F}.

(** A one-dimensional tensor on the CPU with the same value everywhere. *)
Definition full (n : nat) (v : F) : torch.Tensor F :=
  torch.mkTensor [n] false (fun _ => v).

(** The mean of the squared deviations of a position's features from
    their mean. *)
Definition variance_of (row : list F) : F :=
  mean_of (List.map (fun u => fpow (fsub u (mean_of row)) 2) row).

End layernorm_more_statements.

Section more_block_statements.
Context {F : Type} `{Float F} `{Framework F}.


(** The constructors of the modules that are not among the sources never
    take back a parameter identity: they leave the counter of created
    parameters where it was or advance it. *)
Definition allocating_framework : Prop :=
  (forall input_size output_size num_heads dropout causal weight_norm
          (s s' : nn.Store F) a,
     attention_init input_size output_size num_heads dropout causal weight_norm s
       = Ok (a, s') ->
     nn.next_param s <= nn.next_param s') /\
  (forall l (s s' : nn.Store F) w,
     wn l s = Ok (w, s') -> nn.next_param s <= nn.next_param s').

End more_block_statements.
(** ** The reals as an idealised implementation of [Float] *)

Definition R_feq0 (x : R) : bool := if Req_dec_T x 0 then true else false.
Definition R_fle0 (x : R) : bool := if Rle_dec x 0 then true else false.

Definition R_minus_one_eq0 (n : Z) : R_feq0 (IZR n - IZR 1) = (n =? 1)%Z.
Proof.
  unfold R_feq0. destruct (Req_dec_T (IZR n - IZR 1) 0) as [E|E];
    destruct (Z.eqb_spec n 1) as [E'|E']; try reflexivity.
  - exfalso. apply E'. apply eq_IZR. lra.
  - exfalso. apply E. subst n. lra.
Qed.

#[export] Instance R_Float : Float R := {|
  of_Z := IZR;
  fadd := Rplus;
  fsub := Rminus;
  fmul := Rmult;
  fdiv := Rdiv;
  fneg := Ropp;
  fexp := exp;
  flog := ln;
  fsin := Rtrigo_def.sin;
  fcos := Rtrigo_def.cos;
  fsqrt := R_sqrt.sqrt;
  fpow := pow;
  fpowf := Rpower;
  feq0 := R_feq0;
  fle0 := R_fle0;
  float_minus_one_eq0 := R_minus_one_eq0
|}.


(** ** An instance of the framework for examples

    Every layer is the identity, an embedding produces zeros of the right
    shape, and fresh tensors are zero. *)

#[export] Instance identity_Framework : Framework R := {|
  fresh_values := fun _ _ _ => 0%R;
  AttentionImpl := unit;
  attention_init := fun _ _ _ _ _ _ => state.ret tt;
  attention_forward := fun _ q _ _ => state.ret (q, q);
  WeightNorm := nn.Linear.t;
  wn := fun l => state.ret l;
  wn_forward := fun _ x => state.ret x;
  embedding_forward := fun e inputs =>
    state.ret (torch.mkTensor (torch.size inputs ++ [nn.Embedding.embedding_dim e])
                              (torch.is_cuda inputs) (fun _ => 0%R));
  linear_forward := fun _ x => state.ret x;
  relu_forward := fun _ x => state.ret x;
  dropout_forward := fun _ x => state.ret x
|}.

#[export] Instance example_Config : Config := {| PAD := 0; BOS := 1; EOS := 2 |}.

Definition empty_store : nn.Store R := nn.mkStore ∅ 0 0.

(** A dataset library for examples: a dataset is the options it was built
    from, and nothing touches the file system. *)
#[export] Instance example_MultiLanguage : MultiLanguage := {|
  World := unit;
  Tokenizers := unit;
  CodeFiles := unit;
  VocabFiles := unit;
  MultiLanguageDataset := Options.t unit unit unit;
  MultiLanguageDataset_init := fun o => state.ret o;
  getattr_tokenizers := fun d => Options.tokenizers d;
  getattr_code_files := fun d => Options.code_files d;
  getattr_vocab_files := fun d => Options.vocab_files d;
  MultiLanguageDataset_load_data := fun d => state.ret d
|}.

(** An encoder with one block (no layer normalisation, an empty
    feed-forward network) and a batch of one sentence of two tokens, the
    second of which is the padding symbol. *)
Definition example_block : EncoderBlock.t R :=
  EncoderBlock.mk None None (nn.Dropout.mk 0%R false)
    (MultiHeadAttention.mk 4 4 1 0%R false true None None tt) [].

Definition example_encoder : TransformerAttentionEncoder.t R :=
  TransformerAttentionEncoder.mk 4 true (Some 0%Z) (nn.Embedding.mk 10 4 0 0)
    2%R (nn.Dropout.mk 0%R true) [example_block].

Definition example_inputs : torch.Tensor Z :=
  torch.mkTensor [1; 2] false
    (fun idx => match idx with [_; 1] => 0%Z | _ => 5%Z end).

(** An encoder as [example_encoder] with embeddings of three channels. *)
Definition example_odd_encoder : TransformerAttentionEncoder.t R :=
  TransformerAttentionEncoder.mk 3 true (Some 0%Z) (nn.Embedding.mk 10 3 0 0)
    2%R (nn.Dropout.mk 0%R true) [example_block].

(** A decoder with one block (no layer normalisation, an empty
    feed-forward network) and a decoder state whose encoder context has no
    mask. *)
Definition example_decoder_block : DecoderBlock.t R :=
  DecoderBlock.mk None None None (nn.Dropout.mk 0%R false) true
    (MultiHeadAttention.mk 4 4 1 0%R false true None None tt)
    (MultiHeadAttention.mk 4 4 1 0%R true true None None tt) [].

Definition example_decoder : TransformerAttentionDecoder.t R :=
  TransformerAttentionDecoder.mk true (Some 0%Z) (nn.Embedding.mk 10 4 0 0)
    2%R (nn.Dropout.mk 0%R true) [example_decoder_block] (nn.Linear.mk 4 10 1 2).

Definition example_decoder_state : DecoderState.t R :=
  DecoderState.mk
    (State.mk (torch.mkTensor [1; 2; 4] false (fun _ => 0%R)) None true) None.

(** A mask over the two positions of the encoder's sentence that hides the
    second, and a decoder as [example_decoder] on whose block an earlier
    pass has set it as key mask of the attention over the context. *)
Definition example_context_mask : torch.Tensor bool :=
  torch.mkTensor [1; 2] false
    (fun idx => match idx with [_; 1] => true | _ => false end).

Definition example_masked_decoder : TransformerAttentionDecoder.t R :=
  TransformerAttentionDecoder.mk true (Some 0%Z) (nn.Embedding.mk 10 4 0 0)
    2%R (nn.Dropout.mk 0%R true)
    [DecoderBlock.set_mask example_decoder_block None (Some example_context_mask)]
    (nn.Linear.mk 4 10 1 2).

(* ================================================================== *)
(** * Theorems *)

(** ** The two monads *)

Lemma bind_Ok {A B : Type} (a : A) (k : A -> result B) : bind (Ok a) k = k a.
Proof. reflexivity. Qed.

Lemma bind_Ok_inv {A B : Type} (m : result A) (k : A -> result B) (b : B) :
  bind m k = Ok b -> exists a, m = Ok a /\ k a = Ok b.
Proof. destruct m as [a|e]; simpl; [eauto | discriminate]. Qed.

Section state_lemmas.
Context {St : Type}.

Lemma state_bind_inv {A B : Type} (m : state.M St A) (k : A -> state.M St B)
  (s : St) (r : B * St) :
  state.bind m k s = Ok r -> exists a s1, m s = Ok (a, s1) /\ k a s1 = Ok r.
Proof.
  unfold state.bind. destruct (m s) as [[a s1]|e]; [eauto | discriminate].
Qed.

Lemma state_bind_Ok {A B : Type} (m : state.M St A) (k : A -> state.M St B)
  (s s1 : St) (a : A) :
  m s = Ok (a, s1) -> state.bind m k s = k a s1.
Proof. intros Hm. unfold state.bind. rewrite Hm. reflexivity. Qed.

Lemma state_ret_inv {A : Type} (a b : A) (s s' : St) :
  state.ret a s = Ok (b, s') -> b = a /\ s' = s.
Proof. unfold state.ret. intros [= -> ->]. auto. Qed.

End state_lemmas.

(** Split a successful sequence of binds into its steps. *)
Ltac state_inv H :=
  let a := fresh "a" in
  let s := fresh "s" in
  let H1 := fresh "Hstep" in
  apply state_bind_inv in H; destruct H as (a & s & H1 & H).


(** ** Python floats over the reals *)

Lemma R_truediv_ok (a b : R) : b <> 0%R -> truediv a b = Ok (a / b)%R.
Proof.
  intros Hb. unfold truediv. simpl. unfold R_feq0.
  destruct (Req_dec_T b 0); [contradiction | reflexivity].
Qed.

Lemma R_log_ok (x : R) : (0 < x)%R -> math.log x = Ok (ln x).
Proof.
  intros Hx. unfold math.log. simpl. unfold R_fle0.
  destruct (Rle_dec x 0); [lra | reflexivity].
Qed.

(** ** positional_embedding *)

(** Normalise the shape checks of tensor operations on concrete ranks. *)
Ltac tensor_norm :=
  repeat (progress (simpl; rewrite ?Nat.sub_0_r, ?Nat.eqb_refl, ?orb_true_r)).

Section positional_facts.
Context {F : Type} `{Float F} {A : Type}.
Implicit Types (x : torch.Tensor A) (mn mx : F).

Lemma positional_embedding_odd x mn mx batch length channels :
  torch.size x = [batch; length; channels] ->
  channels mod 2 = 1 ->
  positional_embedding x mn mx = Raise AssertionError.
Proof.
  intros Hs Hodd. unfold positional_embedding. rewrite Hs, Hodd. reflexivity.
Qed.

Lemma positional_embedding_even x mn mx batch length channels ratio log_ratio :
  torch.size x = [batch; length; channels] ->
  channels mod 2 = 0 -> 4 <= channels ->
  truediv mx mn = Ok ratio ->
  math.log ratio = Ok log_ratio ->
  let n := channels / 2 in
  let increment := fdiv log_ratio (fsub (of_Z (Z.of_nat n)) (of_Z 1)) in
  exists t,
    positional_embedding x mn mx = Ok t /\
    torch.size t = [batch; length; channels] /\
    torch.is_cuda t = torch.is_cuda x /\
    forall b p i, b < batch -> p < length -> i < n ->
      torch.get t [b; p; i] =
        fsin (fmul (of_Z (Z.of_nat p)) (inv_timescale mn increment i)) /\
      torch.get t [b; p; n + i] =
        fcos (fmul (of_Z (Z.of_nat p)) (inv_timescale mn increment i)).
Proof.
  intros Hs Hev Hge Hr Hl n increment.
  assert (Hn : 2 <= n) by (subst n; apply Nat.div_le_lower_bound; lia).
  assert (Hc : n + n = channels).
  { subst n. pose proof (Nat.div_mod channels 2). lia. }
  unfold positional_embedding. rewrite Hs. cbv beta iota zeta.
  rewrite Hev. change (negb (0 =? 0)) with false. cbv iota.
  fold n. fold increment.
  rewrite Hr, bind_Ok, Hl, bind_Ok.
  unfold truediv at 1. rewrite float_minus_one_eq0.
  fold increment. clearbody increment. clearbody n.
  destruct (Z.eqb_spec (Z.of_nat n) 1) as [E|_]; [lia|]. rewrite bind_Ok.
  assert (Hn1 : (n =? 1) = false) by (apply Nat.eqb_neq; lia).
  assert (Hc1 : (channels =? 1) = false) by (apply Nat.eqb_neq; lia).
  destruct (torch.is_cuda x) eqn:Hcuda;
    unfold torch.expand, torch.mul, torch.pointwise;
    tensor_norm; unfold torch.cat2; tensor_norm; rewrite Hc; tensor_norm;
    (eexists; split; [reflexivity|]; split; [reflexivity|]; split; [reflexivity|]);
    intros b p i Hb Hp Hi; simpl; rewrite Hn1, Hc1;
    assert (Hp' : (if length =? 1 then 0 else if length =? 1 then 0 else p) = p)
      by (destruct (Nat.eqb_spec length 1); lia);
    rewrite Hp';
    assert (Hlt : (i <? n) = true) by (apply Nat.ltb_lt; lia);
    assert (Hge' : (n + i <? n) = false) by (apply Nat.ltb_ge; lia);
    rewrite Hlt, Hge';
    replace (n + i - n) with i by lia; split; reflexivity.
Qed.

Lemma positional_embedding_two x mn mx batch length ratio log_ratio :
  torch.size x = [batch; length; 2] ->
  truediv mx mn = Ok ratio ->
  math.log ratio = Ok log_ratio ->
  positional_embedding x mn mx = Raise ZeroDivisionError.
Proof.
  intros Hs Hr Hl. unfold positional_embedding. rewrite Hs. cbv beta iota zeta.
  change (negb (2 mod 2 =? 0)) with false. cbv iota.
  rewrite Hr, bind_Ok, Hl, bind_Ok.
  unfold truediv at 1. rewrite float_minus_one_eq0. reflexivity.
Qed.

Lemma positional_embedding_two_fails x mn mx batch length :
  torch.size x = [batch; length; 2] ->
  is_ok (positional_embedding x mn mx) = false.
Proof.
  intros Hs.
  destruct (truediv mx mn) as [ratio|e] eqn:Hr.
  - destruct (math.log ratio) as [lr|e] eqn:Hl.
    + erewrite positional_embedding_two; eauto.
    + unfold positional_embedding. rewrite Hs. cbv beta iota zeta.
      change (negb (2 mod 2 =? 0)) with false. cbv iota.
      rewrite Hr, bind_Ok, Hl. reflexivity.
  - unfold positional_embedding. rewrite Hs. cbv beta iota zeta.
    change (negb (2 mod 2 =? 0)) with false. cbv iota.
    rewrite Hr. reflexivity.
Qed.

Lemma positional_embedding_even_no_assert x mn mx batch length channels :
  torch.size x = [batch; length; channels] ->
  channels mod 2 = 0 -> 4 <= channels ->
  positional_embedding x mn mx <> Raise AssertionError.
Proof.
  intros Hs Hev Hge.
  destruct (truediv mx mn) as [ratio|e] eqn:Hr.
  - destruct (math.log ratio) as [lr|e] eqn:Hl.
    + destruct (positional_embedding_even x mn mx _ _ _ _ _ Hs Hev Hge Hr Hl)
        as (t & -> & _). discriminate.
    + unfold positional_embedding. rewrite Hs. cbv beta iota zeta.
      rewrite Hev. change (negb (0 =? 0)) with false. cbv iota.
      rewrite Hr, bind_Ok, Hl. unfold math.log in Hl.
      destruct (fle0 ratio); inversion Hl; subst. discriminate.
  - unfold positional_embedding. rewrite Hs. cbv beta iota zeta.
    rewrite Hev. change (negb (0 =? 0)) with false. cbv iota.
    rewrite Hr. unfold truediv in Hr.
    destruct (feq0 mn); inversion Hr; subst. discriminate.
Qed.

Lemma increment_division_safe (v : F) (channels : nat) :
  channels mod 2 = 0 -> 4 <= channels ->
  truediv v (fsub (of_Z (Z.of_nat (channels / 2))) (of_Z 1)) =
  Ok (fdiv v (fsub (of_Z (Z.of_nat (channels / 2))) (of_Z 1))).
Proof.
  intros Hev Hge. unfold truediv. rewrite float_minus_one_eq0.
  assert (2 <= channels / 2) by (apply Nat.div_le_lower_bound; lia).
  destruct (Z.eqb_spec (Z.of_nat (channels / 2)) 1); [lia | reflexivity].
Qed.

(** C8. [positional_embedding] fails its assertion on an odd channel count
    before computing anything; for an even channel count of at least 4 the
    assertion and the division by [channels/2 - 1] are safe (the call
    returns a tensor whenever the logarithm of the timescale ratio is
    defined); with 2 channels the call never returns and the increment
    computation divides by zero. *)
Theorem positional_embedding_channel_safety x mn mx batch length channels :
  torch.size x = [batch; length; channels] ->
  (channels mod 2 = 1 ->
     positional_embedding x mn mx = Raise AssertionError) /\
  (channels mod 2 = 0 -> 4 <= channels ->
     positional_embedding x mn mx <> Raise AssertionError /\
     (forall v, is_ok (truediv v (fsub (of_Z (Z.of_nat (channels / 2))) (of_Z 1)))
                = true) /\
     (forall ratio log_ratio,
        truediv mx mn = Ok ratio -> math.log ratio = Ok log_ratio ->
        exists t, positional_embedding x mn mx = Ok t /\
                  torch.size t = [batch; length; channels])) /\
  (channels = 2 ->
     is_ok (positional_embedding x mn mx) = false /\
     (forall ratio log_ratio,
        truediv mx mn = Ok ratio -> math.log ratio = Ok log_ratio ->
        positional_embedding x mn mx = Raise ZeroDivisionError)).
Proof.
  intros Hs. split; [|split].
  - intros Hodd. eapply positional_embedding_odd; eauto.
  - intros Hev Hge. split; [|split].
    + eapply positional_embedding_even_no_assert; eauto.
    + intros v. rewrite increment_division_safe by assumption. reflexivity.
    + intros ratio lr Hr Hl.
      destruct (positional_embedding_even x mn mx _ _ _ _ _ Hs Hev Hge Hr Hl)
        as (t & Ht & Hsz & _).
      exists t. split; assumption.
  - intros ->. split.
    + eapply positional_embedding_two_fails; eauto.
    + intros ratio lr Hr Hl. eapply positional_embedding_two; eauto.
Qed.

(** C10. The result of [positional_embedding] is determined by the shape
    and the device of its tensor argument and by the two timescales: the
    elements of the argument are never read. *)
Theorem positional_embedding_shape_only {B : Type}
  (x1 : torch.Tensor A) (x2 : torch.Tensor B) mn mx :
  torch.size x1 = torch.size x2 ->
  torch.is_cuda x1 = torch.is_cuda x2 ->
  positional_embedding x1 mn mx = positional_embedding x2 mn mx.
Proof.
  intros Hs Hc. unfold positional_embedding. rewrite Hs, Hc. reflexivity.
Qed.

End positional_facts.

Lemma positional_embedding_channel_safety_witness :
  positional_embedding (torch.mkTensor [1; 2; 3] false (fun _ => 0%R)) 1%R 10000%R
    = Raise AssertionError /\
  (exists t,
     positional_embedding (torch.mkTensor [1; 2; 4] false (fun _ => 0%R)) 1%R 10000%R
       = Ok t /\ torch.size t = [1; 2; 4]) /\
  positional_embedding (torch.mkTensor [1; 2; 2] false (fun _ => 0%R)) 1%R 10000%R
    = Raise ZeroDivisionError.
Proof.
  assert (Hr : truediv 10000%R 1%R = Ok (10000 / 1)%R) by (apply R_truediv_ok; lra).
  assert (Hl : math.log (10000 / 1)%R = Ok (ln (10000 / 1))) by (apply R_log_ok; lra).
  split; [|split].
  - apply (proj1 (positional_embedding_channel_safety
                    (torch.mkTensor [1; 2; 3] false (fun _ => 0%R)) 1%R 10000%R
                    1 2 3 eq_refl)).
    reflexivity.
  - apply (proj2 (proj2 (proj1 (proj2 (positional_embedding_channel_safety
                    (torch.mkTensor [1; 2; 4] false (fun _ => 0%R)) 1%R 10000%R
                    1 2 4 eq_refl)) eq_refl ltac:(lia))) _ _ Hr Hl).
  - apply (proj2 (proj2 (proj2 (positional_embedding_channel_safety
                    (torch.mkTensor [1; 2; 2] false (fun _ => 0%R)) 1%R 10000%R
                    1 2 2 eq_refl)) eq_refl) _ _ Hr Hl).
Defined.

Lemma positional_embedding_shape_only_witness :
  positional_embedding (torch.mkTensor [1; 2; 4] false (fun _ => 0%R)) 1%R 10000%R =
  positional_embedding (torch.mkTensor [1; 2; 4] false (fun _ => 7%Z)) 1%R 10000%R.
Proof.
  apply (positional_embedding_shape_only
           (torch.mkTensor [1; 2; 4] false (fun _ => 0%R))
           (torch.mkTensor [1; 2; 4] false (fun _ => 7%Z)) 1%R 10000%R);
    reflexivity.
Defined.

(** ** The sinusoidal scheme over the reals *)

Section sinusoid.
Local Open Scope R_scope.









End sinusoid.

(** ** LayerNorm1d *)

Section tensor_lemmas.
Context {A : Type}.
Implicit Types (t : torch.Tensor A).

Lemma shape_eqb_refl (s : list nat) : torch.shape_eqb s s = true.
Proof. induction s as [|a s IH]; simpl; [reflexivity|]. rewrite Nat.eqb_refl. exact IH. Qed.

Lemma pointwise_ok {B C : Type} (f : A -> B -> C) t (u : torch.Tensor B) :
  torch.size t = torch.size u -> torch.is_cuda t = torch.is_cuda u ->
  torch.pointwise f t u =
  Ok (torch.mkTensor (torch.size t) (torch.is_cuda t)
                     (fun idx => f (torch.get t idx) (torch.get u idx))).
Proof.
  intros Hs Hc. unfold torch.pointwise. rewrite Hs, shape_eqb_refl, Hc.
  rewrite bool_decide_eq_true_2 by reflexivity. reflexivity.
Qed.

Lemma infer_size_plain (dims : list Z) (n : nat) :
  Forall (fun d => (0 <= d)%Z) dims ->
  torch.numel (List.map Z.to_nat dims) = n ->
  torch.infer_size dims n = Ok (List.map Z.to_nat dims).
Proof.
  intros Hpos. unfold torch.infer_size.
  assert (He : existsb (fun d => (d <? -1)%Z) dims = false).
  { induction Hpos as [|d l Hd _ IH]; simpl; [reflexivity|].
    rewrite IH, orb_false_r. apply Z.ltb_ge. lia. }
  assert (Hf : List.filter (fun d => negb (d =? -1)%Z) dims = dims).
  { clear He. induction Hpos as [|d l Hd _ IH]; simpl; [reflexivity|].
    destruct (Z.eqb_spec d (-1)); [lia|]. simpl. rewrite IH. reflexivity. }
  intros Hn.
  rewrite He, Hf, length_map, Nat.sub_diag, Hn, Nat.eqb_refl. reflexivity.
Qed.

Lemma view_bt1 t (b n : nat) :
  torch.size t = [b; n] ->
  torch.view t [Z.of_nat b; Z.of_nat n; 1%Z] =
  Ok (torch.mkTensor [b; n; 1] (torch.is_cuda t)
        (fun idx => torch.get t (torch.unravel [b; n] (torch.ravel [b; n; 1] idx)))).
Proof.
  intros Hs. unfold torch.view. rewrite Hs.
  rewrite infer_size_plain.
  - simpl List.map. rewrite !Nat2Z.id. reflexivity.
  - repeat constructor; lia.
  - simpl. rewrite !Nat2Z.id. lia.
Qed.

Lemma view_11f t (f : nat) :
  torch.size t = [f] ->
  torch.view t [1%Z; 1%Z; (-1)%Z] =
  Ok (torch.mkTensor [1; 1; f] (torch.is_cuda t)
        (fun idx => torch.get t (torch.unravel [f] (torch.ravel [1; 1; f] idx)))).
Proof.
  intros Hs. unfold torch.view, torch.infer_size. rewrite Hs.
  change (torch.numel [f]) with (f * 1).
  cbn [existsb List.filter List.map Z.ltb Z.eqb Z.compare negb orb length
       Nat.sub Pos.compare Pos.compare_cont Z.to_nat Pos.to_nat Pos.iter_op].
  change (torch.numel [1; 1]) with 1.
  rewrite Nat.mul_1_r, Nat.mod_1_r, Nat.div_1_r. reflexivity.
Qed.

Lemma expand_same_rank t (shape : list nat) :
  length (torch.size t) = length shape ->
  torch.expandable (torch.size t) shape = true ->
  torch.expand t shape =
  Ok (torch.mkTensor shape (torch.is_cuda t)
        (fun idx => torch.get t (torch.expand_index (torch.size t) idx))).
Proof.
  intros Hl He. unfold torch.expand. rewrite Hl, Nat.sub_diag, Nat.leb_refl.
  change (drop 0 shape) with shape. rewrite He. reflexivity.
Qed.

End tensor_lemmas.

Lemma unravel_ravel_bt1 (b n i j : nat) :
  j < n -> torch.unravel [b; n] (torch.ravel [b; n; 1] [i; j; 0]) = [i; j].
Proof.
  intros Hj. unfold torch.unravel, torch.ravel.
  change (torch.numel [n; 1]) with (n * (1 * 1)).
  change (torch.numel [n]) with (n * 1).
  change (torch.numel [1]) with (1 * 1).
  change (torch.numel []) with 1.
  replace (i * (n * (1 * 1)) + (j * (1 * 1) + (0 * 1 + 0))) with (j + i * n) by lia.
  rewrite Nat.mul_1_r.
  rewrite Nat.div_add by lia. rewrite (Nat.div_small j n) by lia.
  rewrite Nat.Div0.mod_add. rewrite (Nat.mod_small j n) by lia.
  rewrite Nat.div_1_r. reflexivity.
Qed.

Lemma unravel_ravel_11f (f k : nat) :
  torch.unravel [f] (torch.ravel [1; 1; f] [0; 0; k]) = [k].
Proof.
  unfold torch.unravel, torch.ravel.
  change (torch.numel []) with 1.
  rewrite Nat.div_1_r. f_equal. lia.
Qed.

Lemma expand_index_in_range (i n : nat) : i < n -> (if n =? 1 then 0 else i) = i.
Proof. intros Hi. destruct (Nat.eqb_spec n 1); lia. Qed.

Section layernorm_facts.
Context {F : Type} `{Float F} `{Framework F}.

Lemma state_bind_lift_Ok {St A B : Type} (a : A) (k : A -> state.M St B) (s : St) :
  state.bind (state.lift (Ok a)) k s = k a s.
Proof. reflexivity. Qed.

Lemma mean_last (x : torch.Tensor F) (b t f : nat) :
  torch.size x = [b; t; f] ->
  torch.mean x 2 =
  Ok (torch.mkTensor [b; t] (torch.is_cuda x)
        (fun idx =>
           fdiv (torch.sum_list
                   (List.map (fun k => torch.get x (take 2 idx ++ k :: drop 2 idx))
                             (seq 0 f)))
                (of_Z (Z.of_nat f)))).
Proof. intros Hs. unfold torch.mean. rewrite Hs. reflexivity. Qed.

Lemma length_features (x : torch.Tensor F) (i j f : nat) :
  length (features x i j f) = f.
Proof. unfold features. rewrite length_map, length_seq. reflexivity. Qed.

(** The mean over the features, through [g], expanded back to the shape of
    the tensor: the value at every feature of a position is [g] of the mean
    of the features of that position. *)
Lemma row_mean_broadcast (y : torch.Tensor F) (g : F -> F) (b t f : nat) :
  torch.size y = [b; t; f] ->
  exists e,
    (m <- torch.mean y 2 ;;
     sv <- torch.view (torch.map g m) [Z.of_nat b; Z.of_nat t; 1%Z] ;;
     torch.expand sv [b; t; f]) = Ok e /\
    torch.size e = [b; t; f] /\
    torch.is_cuda e = torch.is_cuda y /\
    forall i j k, i < b -> j < t ->
      torch.get e [i; j; k] = g (mean_of (features y i j f)).
Proof.
  intros Hs.
  rewrite (mean_last y b t f Hs), bind_Ok.
  rewrite (view_bt1 _ b t) by reflexivity. rewrite bind_Ok.
  rewrite expand_same_rank; [|reflexivity|tensor_norm; reflexivity].
  eexists. split; [reflexivity|]. split; [reflexivity|]. split; [reflexivity|].
  intros i j k Hi Hj.
  cbn [torch.get torch.size torch.is_cuda torch.map torch.expand_index].
  change (1 =? 1) with true. cbv iota.
  rewrite (expand_index_in_range i b), (expand_index_in_range j t) by assumption.
  rewrite unravel_ravel_bt1 by assumption.
  unfold mean_of. rewrite length_features. reflexivity.
Qed.

(** The normalisation without the affine step. *)
Lemma normalize_steps (eps : F) (inputs : torch.Tensor F) (b t f : nat) :
  torch.size inputs = [b; t; f] ->
  exists output,
    (m <- torch.mean inputs 2 ;;
     m <- torch.view m [Z.of_nat b; Z.of_nat t; 1%Z] ;;
     mean <- torch.expand_as m inputs ;;
     input_centered <- torch.sub inputs mean ;;
     v <- torch.mean (torch.pow input_centered 2) 2 ;;
     sv <- torch.view (torch.sqrt (torch.add_scalar v eps))
                      [Z.of_nat b; Z.of_nat t; 1%Z] ;;
     se <- torch.expand_as sv inputs ;;
     torch.div input_centered se) = Ok output /\
    torch.size output = [b; t; f] /\
    torch.is_cuda output = torch.is_cuda inputs /\
    forall i j k, i < b -> j < t -> k < f ->
      torch.get output [i; j; k] =
      normalized eps (features inputs i j f) (torch.get inputs [i; j; k]).
Proof.
  intros Hs.
  destruct (row_mean_broadcast inputs (fun v => v) b t f Hs)
    as (mean & Hmean & Hms & Hmc & Hmv).
  apply bind_Ok_inv in Hmean as (m1 & Hm1 & Hmean).
  apply bind_Ok_inv in Hmean as (sv1 & Hsv1 & Hmean).
  rewrite Hm1, bind_Ok.
  change (torch.view m1) with (torch.view (torch.map (fun v : F => v) m1)).
  rewrite Hsv1, bind_Ok.
  unfold torch.expand_as. rewrite Hs, Hmean, bind_Ok.
  unfold torch.sub. rewrite pointwise_ok by congruence. rewrite bind_Ok.
  set (input_centered :=
         torch.mkTensor (torch.size inputs) (torch.is_cuda inputs)
           (fun idx => fsub (torch.get inputs idx) (torch.get mean idx))).
  destruct (row_mean_broadcast (torch.pow input_centered 2)
              (fun v => fsqrt (fadd v eps)) b t f Hs)
    as (se & Hse & Hses & Hsec & Hsev).
  apply bind_Ok_inv in Hse as (m2 & Hm2 & Hse).
  apply bind_Ok_inv in Hse as (sv2 & Hsv2 & Hse).
  rewrite Hm2, bind_Ok.
  change (torch.view (torch.sqrt (torch.add_scalar m2 eps)))
    with (torch.view (torch.map (fun v => fsqrt (fadd v eps)) m2)).
  rewrite Hsv2, bind_Ok, Hse, bind_Ok.
  assert (Hcs : torch.size input_centered = torch.size se)
    by (rewrite Hses; exact Hs).
  assert (Hcc : torch.is_cuda input_centered = torch.is_cuda se)
    by (rewrite Hsec; reflexivity).
  unfold torch.div. rewrite (pointwise_ok _ _ _ Hcs Hcc).
  eexists. split; [reflexivity|]. split; [exact Hs|]. split; [reflexivity|].
  intros i j k Hi Hj Hk.
  cbn [torch.get input_centered].
  rewrite Hmv, Hsev by assumption.
  unfold normalized. f_equal. f_equal. f_equal. f_equal.
  unfold features. rewrite List.map_map.
  apply List.map_ext_in. intros k0 Hk0. apply in_seq in Hk0.
  cbn [torch.get torch.pow torch.map input_centered].
  rewrite Hmv by assumption. reflexivity.
Qed.

(** [weight.view(1, 1, -1).expand_as(output)] *)
Lemma affine_broadcast (w : torch.Tensor F) (b t f : nat) :
  torch.size w = [f] ->
  exists e,
    (wv <- torch.view w [1%Z; 1%Z; (-1)%Z] ;; torch.expand wv [b; t; f]) = Ok e /\
    torch.size e = [b; t; f] /\
    torch.is_cuda e = torch.is_cuda w /\
    forall i j k, k < f -> torch.get e [i; j; k] = torch.get w [k].
Proof.
  intros Hs.
  rewrite (view_11f w f Hs), bind_Ok.
  rewrite expand_same_rank; [|reflexivity|tensor_norm; reflexivity].
  eexists. split; [reflexivity|]. split; [reflexivity|]. split; [reflexivity|].
  intros i j k Hk.
  cbn [torch.get torch.size torch.is_cuda torch.expand_index].
  change (1 =? 1) with true. cbv iota.
  rewrite (expand_index_in_range k f) by assumption.
  rewrite unravel_ravel_11f. reflexivity.
Qed.

Lemma data_read (p : nat) (t : torch.Tensor F) (s : nn.Store F) :
  nn.read p s = Some t -> nn.data p s = Ok (t, s).
Proof. unfold nn.read, nn.data. intros ->. reflexivity. Qed.

(** C2. On an input of shape [(b, t, f)] the forward pass of [LayerNorm1d]
    returns, at every position and feature, [(x - m) / sqrt(v + eps)] with
    [m] the mean of the features of the position and [v] the mean of the
    squared deviations from [m] (sums divided by [f]); with [affine] the
    value is then multiplied by the weight of the feature and the bias of
    the feature is added.  The store of parameters is left as it was. *)
Theorem LayerNorm1d_forward_formula (self : LayerNorm1d.t F)
  (inputs : torch.Tensor F) (s : nn.Store F) (b t f : nat) :
  torch.size inputs = [b; t; f] ->
  (LayerNorm1d.affine self = false ->
   exists out,
     LayerNorm1d.forward self inputs s = Ok (out, s) /\
     torch.size out = [b; t; f] /\
     forall i j k, i < b -> j < t -> k < f ->
       torch.get out [i; j; k] =
       normalized (LayerNorm1d.eps self) (features inputs i j f)
                  (torch.get inputs [i; j; k])) /\
  (LayerNorm1d.affine self = true ->
   forall wl bl weight bias,
     LayerNorm1d.weight self = Some wl -> LayerNorm1d.bias self = Some bl ->
     nn.read wl s = Some weight -> nn.read bl s = Some bias ->
     torch.size weight = [f] -> torch.size bias = [f] ->
     torch.is_cuda weight = torch.is_cuda inputs ->
     torch.is_cuda bias = torch.is_cuda inputs ->
     exists out,
       LayerNorm1d.forward self inputs s = Ok (out, s) /\
       torch.size out = [b; t; f] /\
       forall i j k, i < b -> j < t -> k < f ->
         torch.get out [i; j; k] =
         fadd (fmul (normalized (LayerNorm1d.eps self) (features inputs i j f)
                                (torch.get inputs [i; j; k]))
                    (torch.get weight [k]))
              (torch.get bias [k])).
Proof.
  intros Hs.
  destruct (normalize_steps (LayerNorm1d.eps self) inputs b t f Hs)
    as (output & Hout & Hos & Hoc & Hov).
  apply bind_Ok_inv in Hout as (m1 & E1 & Hout).
  apply bind_Ok_inv in Hout as (m2 & E2 & Hout).
  apply bind_Ok_inv in Hout as (m3 & E3 & Hout).
  apply bind_Ok_inv in Hout as (m4 & E4 & Hout).
  apply bind_Ok_inv in Hout as (m5 & E5 & Hout).
  apply bind_Ok_inv in Hout as (m6 & E6 & Hout).
  apply bind_Ok_inv in Hout as (m7 & E7 & Hout).
  assert (Hpre :
            LayerNorm1d.forward self inputs s =
            (if LayerNorm1d.affine self then
               (wp <~ nn.attr (LayerNorm1d.weight self) ;;
                wt <~ nn.data wp ;;
                wv <~ state.lift (torch.view wt [1%Z; 1%Z; (-1)%Z]) ;;
                w <~ state.lift (torch.expand_as wv output) ;;
                bp <~ nn.attr (LayerNorm1d.bias self) ;;
                bt <~ nn.data bp ;;
                bv <~ state.lift (torch.view bt [1%Z; 1%Z; (-1)%Z]) ;;
                b <~ state.lift (torch.expand_as bv output) ;;
                ow <~ state.lift (torch.mul output w) ;;
                state.lift (torch.add ow b))
             else state.ret output) s).
  { unfold LayerNorm1d.forward. rewrite Hs.
    rewrite E1, state_bind_lift_Ok, E2, state_bind_lift_Ok.
    rewrite E3, state_bind_lift_Ok, E4, state_bind_lift_Ok.
    rewrite E5, state_bind_lift_Ok, E6, state_bind_lift_Ok.
    rewrite E7, state_bind_lift_Ok, Hout, state_bind_lift_Ok.
    reflexivity. }
  split.
  - intros Haff. rewrite Hpre, Haff. exists output.
    split; [reflexivity|]. split; assumption.
  - intros Haff wl bl weight bias Hw Hb Hrw Hrb Hws Hbs Hwc Hbc.
    rewrite Hpre, Haff, Hw, Hb.
    destruct (affine_broadcast weight b t f Hws) as (w & Hwe & Hwes & Hwec & Hwev).
    destruct (affine_broadcast bias b t f Hbs) as (bb & Hbe & Hbes & Hbec & Hbev).
    apply bind_Ok_inv in Hwe as (wv & Hwv & Hwe).
    apply bind_Ok_inv in Hbe as (bv & Hbv & Hbe).
    unfold nn.attr.
    rewrite (state_bind_Ok _ _ s s wl eq_refl).
    rewrite (state_bind_Ok _ _ s s weight (data_read _ _ _ Hrw)).
    rewrite Hwv, state_bind_lift_Ok.
    unfold torch.expand_as. rewrite Hos, Hwe, state_bind_lift_Ok.
    rewrite (state_bind_Ok _ _ s s bl eq_refl).
    rewrite (state_bind_Ok _ _ s s bias (data_read _ _ _ Hrb)).
    rewrite Hbv, state_bind_lift_Ok, Hbe, state_bind_lift_Ok.
    unfold torch.mul, torch.add.
    rewrite pointwise_ok by congruence. rewrite state_bind_lift_Ok.
    rewrite pointwise_ok by (simpl; congruence).
    eexists. split; [reflexivity|]. split; [exact Hos|].
    intros i j k Hi Hj Hk. cbn [torch.get].
    rewrite Hov, Hwev, Hbev by assumption. reflexivity.
Qed.

End layernorm_facts.

Lemma LayerNorm1d_forward_formula_witness :
  let x := torch.mkTensor [1; 1; 2] false
             (fun idx => match idx with [_; _; k] => INR k | _ => 0%R end) in
  let w := torch.mkTensor [2] false (fun _ => 2%R) in
  let c := torch.mkTensor [2] false (fun _ => 1%R) in
  let s := nn.update 0 w (nn.update 1 c empty_store) in
  (exists out,
     LayerNorm1d.forward (LayerNorm1d.mk 1%R 2 false None None) x s = Ok (out, s) /\
     torch.get out [0; 0; 1] =
     normalized 1%R (features x 0 0 2) (torch.get x [0; 0; 1])) /\
  (exists out,
     LayerNorm1d.forward (LayerNorm1d.mk 1%R 2 true (Some 0) (Some 1)) x s
       = Ok (out, s) /\
     torch.get out [0; 0; 1] =
     Rplus (Rmult (normalized 1%R (features x 0 0 2) (torch.get x [0; 0; 1])) 2%R)
           1%R).
Proof.
  intros x w c s. split.
  - destruct (proj1 (LayerNorm1d_forward_formula
                       (LayerNorm1d.mk 1%R 2 false None None) x s 1 1 2 eq_refl)
                    eq_refl) as (out & Hf & _ & Hv).
    exists out. split; [exact Hf|]. apply Hv; lia.
  - assert (Hw : nn.read 0 s = Some w) by apply lookup_insert_eq.
    assert (Hc : nn.read 1 s = Some c).
    { unfold nn.read, s, nn.update. simpl.
      rewrite lookup_insert_ne by discriminate. apply lookup_insert_eq. }
    destruct (proj2 (LayerNorm1d_forward_formula
                       (LayerNorm1d.mk 1%R 2 true (Some 0) (Some 1)) x s 1 1 2
                       eq_refl)
                    eq_refl 0 1 w c eq_refl eq_refl Hw Hc eq_refl eq_refl
                    eq_refl eq_refl) as (out & Hf & _ & Hv).
    exists out. split; [exact Hf|]. apply Hv; lia.
Defined.

(** ** WMT16_de_en *)

Section wmt_facts.
Context `{MultiLanguage}.

(** C6. The split selects the corpus prefix: ['train'] builds the dataset
    over [{root}/train{pretok}.clean], ['dev'] over
    [{root}/newstest2014{pretok}.clean] and ['test'] over
    [{root}/newstest2016{pretok}.clean], with [pretok] being [.tok] exactly
    when [moses_pretok] holds; for ['dev'] and ['test'] a dataset is first
    built over the train prefix and its tokenizers, code files and
    vocabulary files are the ones the split's dataset is built with. *)
Theorem WMT16_split_prefix (root tokenization : string) (num_symbols : Z)
  (shared_vocab : bool) (code_files : option CodeFiles)
  (vocab_files : option VocabFiles) (insert_start insert_end : list Z)
  (mark_language : bool) (tokenizers : option Tokenizers)
  (moses_pretok load_data : bool) (w : World) :
  let init split :=
    WMT16_de_en.init root split tokenization num_symbols shared_vocab code_files
      vocab_files insert_start insert_end mark_language tokenizers moses_pretok
      load_data in
  let pretok := (if moses_pretok then ".tok" else "")%string in
  let train_options :=
    Options.mk (root +:+ "/train" +:+ pretok +:+ ".clean")%string
      ["en"; "de"]%string tokenization num_symbols shared_vocab code_files
      vocab_files insert_start insert_end mark_language tokenizers false in
  let other name :=
    train_data <~ MultiLanguageDataset_init train_options ;;
    construct load_data
      (split_options name root tokenization num_symbols shared_vocab
         insert_start insert_end mark_language moses_pretok train_data) in
  init "train"%string w = construct load_data train_options w /\
  init "dev"%string w = other "newstest2014"%string w /\
  init "test"%string w = other "newstest2016"%string w.
Proof.
  cbv zeta. split; [reflexivity|].
  split.
  - unfold WMT16_de_en.init, construct, split_options, state.bind. simpl.
    destruct (MultiLanguageDataset_init _ w) as [[d w']|e]; reflexivity.
  - unfold WMT16_de_en.init, construct, split_options, state.bind. simpl.
    destruct (MultiLanguageDataset_init _ w) as [[d w']|e]; reflexivity.
Qed.

(** C9. A split other than ['train'], ['dev'] and ['test'] never yields a
    dataset: the constructor raises, and once the training dataset has been
    built the error is the read of the unassigned [prefix]. *)
Theorem WMT16_unknown_split_raises (root split tokenization : string)
  (num_symbols : Z) (shared_vocab : bool) (code_files : option CodeFiles)
  (vocab_files : option VocabFiles) (insert_start insert_end : list Z)
  (mark_language : bool) (tokenizers : option Tokenizers)
  (moses_pretok load_data : bool) (w : World) :
  split <> "train"%string -> split <> "dev"%string -> split <> "test"%string ->
  let train_options :=
    Options.mk (WMT16_de_en.clean_prefix root "train"
                  (if moses_pretok then ".tok" else ""))%string
      ["en"; "de"]%string tokenization num_symbols shared_vocab code_files
      vocab_files insert_start insert_end mark_language tokenizers false in
  exists e,
    WMT16_de_en.init root split tokenization num_symbols shared_vocab code_files
      vocab_files insert_start insert_end mark_language tokenizers moses_pretok
      load_data w = Raise e /\
    (is_ok (MultiLanguageDataset_init train_options w) = true ->
     e = UnboundLocalError) /\
    (forall e', MultiLanguageDataset_init train_options w = Raise e' -> e = e').
Proof.
  intros Htrain Hdev Htest train_options.
  unfold WMT16_de_en.init.
  apply String.eqb_neq in Htrain, Hdev, Htest.
  rewrite Htrain, Hdev, Htest. fold train_options.
  unfold state.bind at 1. unfold state.bind at 1.
  destruct (MultiLanguageDataset_init train_options w) as [[d w']|e0].
  - exists UnboundLocalError. simpl.
    split; [reflexivity|]. split; [reflexivity|]. discriminate.
  - exists e0. simpl.
    split; [reflexivity|]. split; [discriminate|].
    intros e' [= ->]. reflexivity.
Qed.

End wmt_facts.

Lemma WMT16_unknown_split_raises_witness :
  exists e,
    @WMT16_de_en.init example_MultiLanguage "data" "valid" "bpe" 32000 true
      None None [1%Z] [2%Z] false None false true tt = Raise e /\ e = UnboundLocalError.
Proof.
  destruct (@WMT16_unknown_split_raises example_MultiLanguage "data" "valid" "bpe" 32000 true None None
              [1%Z] [2%Z] false None false true tt
              ltac:(discriminate) ltac:(discriminate) ltac:(discriminate))
    as (e & He & Hu & _).
  exists e. split; [exact He|]. apply Hu. reflexivity.
Defined.

(** ** The decoder block *)

(** Case analysis on every step of two stateful computations. *)
Ltac state_cases :=
  repeat match goal with
         | |- context [match ?e with Ok _ => _ | Raise _ => _ end] =>
           lazymatch e with
           | context [match _ with Ok _ => _ | Raise _ => _ end] => fail
           | _ => destruct e as [[? ?]|?]; simpl; try reflexivity
           end
         end.

Section block_facts.
Context {F : Type} `{Float F} `{Framework F}.

Lemma attention_init_fields input_size output_size num_heads (dropout : F)
  (causal weight_norm : bool) (s s' : nn.Store F)
  (a : MultiHeadAttention.t F AttentionImpl) :
  MultiHeadAttention_init input_size output_size num_heads dropout causal
    weight_norm s = Ok (a, s') ->
  MultiHeadAttention.causal a = causal /\
  MultiHeadAttention.mask_q a = None /\ MultiHeadAttention.mask_k a = None.
Proof.
  unfold MultiHeadAttention_init. intros Hi. state_inv Hi.
  apply state_ret_inv in Hi as [-> _]. auto.
Qed.

Lemma decoder_block_init_fields hidden_size num_heads inner_linear
  (weight_norm : bool) (dropout : F) (s s' : nn.Store F) (blk : DecoderBlock.t F) :
  DecoderBlock.init hidden_size num_heads inner_linear weight_norm dropout s
    = Ok (blk, s') ->
  MultiHeadAttention.causal (DecoderBlock.masked_attention blk) = true /\
  MultiHeadAttention.causal (DecoderBlock.attention blk) = false /\
  (weight_norm = false ->
     is_Some (DecoderBlock.lnorm1 blk) /\ is_Some (DecoderBlock.lnorm2 blk) /\
     is_Some (DecoderBlock.lnorm3 blk)) /\
  (weight_norm = true ->
     DecoderBlock.lnorm1 blk = None /\ DecoderBlock.lnorm2 blk = None /\
     DecoderBlock.lnorm3 blk = None).
Proof.
  unfold DecoderBlock.init. intros Hi.
  state_inv Hi. rename a into lnorms, Hstep into Hln.
  state_inv Hi. rename a into att, Hstep into Hatt.
  state_inv Hi. rename a into matt, Hstep into Hmatt.
  do 4 state_inv Hi.
  apply state_ret_inv in Hi as [-> _]. simpl.
  apply attention_init_fields in Hatt as (Hc1 & _).
  apply attention_init_fields in Hmatt as (Hc2 & _).
  split; [exact Hc2|]. split; [exact Hc1|]. split.
  - intros ->. simpl in Hln. do 3 state_inv Hln.
    apply state_ret_inv in Hln as [-> _]. simpl. eauto.
  - intros ->. simpl in Hln.
    apply state_ret_inv in Hln as [-> _]. simpl. auto.
Qed.

Lemma layernorm_init_fields (num_features : nat) (eps : F) (s s' : nn.Store F)
  (l : LayerNorm1d.t F) :
  LayerNorm1d.init num_features eps true s = Ok (l, s') ->
  LayerNorm1d.num_features l = num_features /\
  LayerNorm1d.eps l = eps /\ LayerNorm1d.affine l = true.
Proof.
  unfold LayerNorm1d.init. intros Hi.
  state_inv Hi. rename a into self, Hstep into Hself.
  state_inv Hi. apply state_ret_inv in Hi as [-> _].
  do 4 state_inv Hself. apply state_ret_inv in Hself as [-> _].
  simpl. auto.
Qed.

Lemma linear_init_sizes (in_features out_features : nat) (s s' : nn.Store F)
  (l : nn.Linear.t) :
  Linear_init in_features out_features s = Ok (l, s') ->
  nn.Linear.in_features l = in_features /\
  nn.Linear.out_features l = out_features.
Proof.
  unfold Linear_init, fresh_tensor, nn.new_parameter, state.bind, state.ret.
  intros [= <- <-]. simpl. auto.
Qed.

(** The layer normalisations and the feed-forward layers of a constructed
    block. *)
Lemma decoder_block_init_layers hidden_size num_heads inner_linear
  (weight_norm : bool) (dropout : F) (s s' : nn.Store F) (blk : DecoderBlock.t F) :
  DecoderBlock.init hidden_size num_heads inner_linear weight_norm dropout s
    = Ok (blk, s') ->
  DecoderBlock.dropout blk = nn.Dropout.mk dropout false /\
  (weight_norm = false ->
     exists ln1 ln2 ln3 l1 l2,
       DecoderBlock.lnorm1 blk = Some ln1 /\ DecoderBlock.lnorm2 blk = Some ln2 /\
       DecoderBlock.lnorm3 blk = Some ln3 /\
       Forall (fun ln => LayerNorm1d.num_features ln = hidden_size /\
                         LayerNorm1d.affine ln = true) [ln1; ln2; ln3] /\
       DecoderBlock.fc blk =
         [Sequential.LinearLayer l1; Sequential.ReLULayer true;
          Sequential.DropoutLayer (nn.Dropout.mk dropout false);
          Sequential.LinearLayer l2] /\
       nn.Linear.in_features l1 = hidden_size /\
       nn.Linear.out_features l1 = inner_linear /\
       nn.Linear.in_features l2 = inner_linear /\
       nn.Linear.out_features l2 = hidden_size) /\
  (weight_norm = true ->
     DecoderBlock.lnorm1 blk = None /\ DecoderBlock.lnorm2 blk = None /\
     DecoderBlock.lnorm3 blk = None /\
     exists w1 w2,
       DecoderBlock.fc blk =
         [Sequential.WeightNormLayer w1; Sequential.ReLULayer true;
          Sequential.DropoutLayer (nn.Dropout.mk dropout false);
          Sequential.WeightNormLayer w2]).
Proof.
  unfold DecoderBlock.init. intros Hi.
  state_inv Hi. rename a into lnorms, Hstep into Hln.
  state_inv Hi. rename a into att, Hstep into Hatt.
  state_inv Hi. rename a into matt, Hstep into Hmatt.
  state_inv Hi. rename a into lin1, Hstep into Hl1.
  state_inv Hi. rename a into fc1, Hstep into Hf1.
  state_inv Hi. rename a into lin2, Hstep into Hl2.
  state_inv Hi. rename a into fc2, Hstep into Hf2.
  apply state_ret_inv in Hi as [-> _]. simpl.
  apply linear_init_sizes in Hl1 as (Hi1 & Ho1).
  apply linear_init_sizes in Hl2 as (Hi2 & Ho2).
  split; [reflexivity|]. split.
  - intros ->. simpl in Hln, Hf1, Hf2.
    state_inv Hln. rename a into ln1, Hstep into Hn1.
    state_inv Hln. rename a into ln2, Hstep into Hn2.
    state_inv Hln. rename a into ln3, Hstep into Hn3.
    apply state_ret_inv in Hln as [-> _].
    apply state_ret_inv in Hf1 as [-> _].
    apply state_ret_inv in Hf2 as [-> _]. simpl.
    apply layernorm_init_fields in Hn1 as (Hf1 & _ & Ha1).
    apply layernorm_init_fields in Hn2 as (Hf2 & _ & Ha2).
    apply layernorm_init_fields in Hn3 as (Hf3 & _ & Ha3).
    exists ln1, ln2, ln3, lin1, lin2.
    repeat (split; [reflexivity|]).
    split; [repeat constructor; assumption|]. auto.
  - intros ->. simpl in Hln, Hf1, Hf2.
    apply state_ret_inv in Hln as [-> _].
    state_inv Hf1. apply state_ret_inv in Hf1 as [-> _].
    state_inv Hf2. apply state_ret_inv in Hf2 as [-> _]. simpl.
    repeat (split; [reflexivity|]). eauto.
Qed.

(** The forward pass of a block whose feed-forward network has the four
    layers of the constructor. *)
Lemma decoder_block_forward_sublayers (self : DecoderBlock.t F)
  (a b : Sequential.Layer F) (inputs context : torch.Tensor F) (s : nn.Store F) :
  DecoderBlock.fc self =
    [a; Sequential.ReLULayer true;
     Sequential.DropoutLayer (DecoderBlock.dropout self); b] ->
  DecoderBlock.forward self inputs context s =
  decoder_sublayers (DecoderBlock.masked_attention self) (DecoderBlock.attention self)
    (DecoderBlock.dropout self) (DecoderBlock.lnorm1 self) (DecoderBlock.lnorm2 self)
    (DecoderBlock.lnorm3 self) (Sequential.Layer_forward a)
    (Sequential.Layer_forward b) inputs context s.
Proof.
  intros Hfc.
  unfold DecoderBlock.forward, decoder_sublayers, sublayer, feed_forward_network,
    dropout_add, apply_lnorm.
  rewrite Hfc. cbn [Sequential.forward Sequential.Layer_forward].
  destruct (DecoderBlock.lnorm1 self) as [n1|];
    destruct (DecoderBlock.lnorm2 self) as [n2|];
    destruct (DecoderBlock.lnorm3 self) as [n3|];
    repeat match goal with
           | |- context [LayerNorm1d.forward ?l] =>
             generalize (LayerNorm1d.forward l); intro
           end;
    unfold state.bind, state.ret; simpl; state_cases.
Qed.

(** C4. A constructed [DecoderBlock] has a causal [masked_attention] and a
    non-causal [attention].  Its forward pass is the self-attention
    sub-layer over the inputs, then the attention sub-layer from the result
    to the encoder context, then the feed-forward sub-layer (linear, ReLU,
    dropout, linear), each being the layer followed by dropout and the
    residual add and, when [weight_norm] is false, by the forward pass of a
    layer normalisation over [hidden_size] features; with [weight_norm] no
    layer normalisation is applied and the linear layers are the wrapped
    ones. *)
Theorem decoder_block_masking_order hidden_size num_heads inner_linear
  (weight_norm : bool) (dropout : F) (s s' : nn.Store F) (blk : DecoderBlock.t F) :
  DecoderBlock.init hidden_size num_heads inner_linear weight_norm dropout s
    = Ok (blk, s') ->
  MultiHeadAttention.causal (DecoderBlock.masked_attention blk) = true /\
  MultiHeadAttention.causal (DecoderBlock.attention blk) = false /\
  (weight_norm = false ->
     exists ln1 ln2 ln3 l1 l2,
       DecoderBlock.lnorm1 blk = Some ln1 /\ DecoderBlock.lnorm2 blk = Some ln2 /\
       DecoderBlock.lnorm3 blk = Some ln3 /\
       Forall (fun ln => LayerNorm1d.num_features ln = hidden_size /\
                         LayerNorm1d.affine ln = true) [ln1; ln2; ln3] /\
       forall inputs context st,
         DecoderBlock.forward blk inputs context st =
         decoder_sublayers (DecoderBlock.masked_attention blk)
           (DecoderBlock.attention blk) (nn.Dropout.mk dropout false)
           (Some ln1) (Some ln2) (Some ln3)
           (linear_forward l1) (linear_forward l2) inputs context st) /\
  (weight_norm = true ->
     DecoderBlock.lnorm1 blk = None /\ DecoderBlock.lnorm2 blk = None /\
     DecoderBlock.lnorm3 blk = None /\
     exists w1 w2,
       forall inputs context st,
         DecoderBlock.forward blk inputs context st =
         decoder_sublayers (DecoderBlock.masked_attention blk)
           (DecoderBlock.attention blk) (nn.Dropout.mk dropout false)
           None None None (wn_forward w1) (wn_forward w2) inputs context st).
Proof.
  intros Hi.
  destruct (decoder_block_init_fields _ _ _ _ _ _ _ _ Hi) as (Hc1 & Hc2 & _).
  destruct (decoder_block_init_layers _ _ _ _ _ _ _ _ Hi) as (Hd & Hln & Hwn).
  split; [exact Hc1|]. split; [exact Hc2|]. split.
  - intros Hw.
    destruct (Hln Hw) as (ln1 & ln2 & ln3 & l1 & l2 & H1 & H2 & H3 & Hall & Hfc & _).
    exists ln1, ln2, ln3, l1, l2.
    repeat (split; [assumption|]).
    intros inputs context st.
    rewrite <- Hd in Hfc.
    rewrite (decoder_block_forward_sublayers blk _ _ inputs context st Hfc).
    rewrite H1, H2, H3, Hd. reflexivity.
  - intros Hw.
    destruct (Hwn Hw) as (H1 & H2 & H3 & w1 & w2 & Hfc).
    repeat (split; [assumption|]).
    exists w1, w2. intros inputs context st.
    rewrite <- Hd in Hfc.
    rewrite (decoder_block_forward_sublayers blk _ _ inputs context st Hfc).
    rewrite H1, H2, H3, Hd. reflexivity.
Qed.

End block_facts.

Lemma decoder_block_masking_order_witness :
  exists (blk : DecoderBlock.t R) (s' : nn.Store R) ln1 ln2 ln3 l1 l2,
    DecoderBlock.init 4 1 8 false 0%R empty_store = Ok (blk, s') /\
    MultiHeadAttention.causal (DecoderBlock.masked_attention blk) = true /\
    MultiHeadAttention.causal (DecoderBlock.attention blk) = false /\
    DecoderBlock.lnorm1 blk = Some ln1 /\
    LayerNorm1d.num_features ln1 = 4 /\
    DecoderBlock.forward blk
      (torch.mkTensor [1; 2; 4] false (fun _ => 1%R))
      (torch.mkTensor [1; 3; 4] false (fun _ => 2%R)) s' =
    decoder_sublayers (DecoderBlock.masked_attention blk)
      (DecoderBlock.attention blk) (nn.Dropout.mk 0%R false)
      (Some ln1) (Some ln2) (Some ln3) (linear_forward l1) (linear_forward l2)
      (torch.mkTensor [1; 2; 4] false (fun _ => 1%R))
      (torch.mkTensor [1; 3; 4] false (fun _ => 2%R)) s'.
Proof.
  assert (Hok : is_ok (DecoderBlock.init 4 1 8 false 0%R empty_store) = true)
    by (vm_compute; reflexivity).
  destruct (DecoderBlock.init 4 1 8 false 0%R empty_store) as [[blk s']|e] eqn:E;
    [|discriminate].
  destruct (decoder_block_masking_order _ _ _ _ _ _ _ _ E)
    as (H1 & H2 & H3 & _).
  destruct (H3 eq_refl)
    as (ln1 & ln2 & ln3 & l1 & l2 & Hl1 & _ & _ & Hall & Hfw).
  exists blk, s', ln1, ln2, ln3, l1, l2. split; [reflexivity|].
  split; [exact H1|]. split; [exact H2|]. split; [exact Hl1|].
  split; [exact (proj1 (Forall_inv Hall))|]. apply Hfw.
Defined.

(** ** The encoder's padding mask *)

Section encoder_facts.
Context {F : Type} `{Float F} `{Framework F} `{Config}.

Lemma run_blocks_masks (padding_mask : option (torch.Tensor bool))
  (blocks blocks' : list (EncoderBlock.t F)) (x y : torch.Tensor F)
  (s s' : nn.Store F) :
  TransformerAttentionEncoder.run_blocks padding_mask blocks x s
    = Ok ((y, blocks'), s') ->
  blocks' = List.map (fun b => EncoderBlock.set_mask b padding_mask) blocks.
Proof.
  revert blocks' x y s s'.
  induction blocks as [|b rest IH]; intros blocks' x y s s' Hrun; simpl in Hrun.
  - apply state_ret_inv in Hrun as [[= -> ->] _]. reflexivity.
  - state_inv Hrun. state_inv Hrun. destruct a0 as [y1 rest'].
    apply state_ret_inv in Hrun as [[= -> ->] _]. simpl.
    f_equal. eapply IH. eassumption.
Qed.

Lemma run_blocks_last (padding_mask : option (torch.Tensor bool))
  (blocks blocks' : list (EncoderBlock.t F)) (last : EncoderBlock.t F)
  (x y : torch.Tensor F) (s s' : nn.Store F) :
  TransformerAttentionEncoder.run_blocks padding_mask (blocks ++ [last]) x s
    = Ok ((y, blocks'), s') ->
  exists x1 s1,
    EncoderBlock.forward (EncoderBlock.set_mask last padding_mask) x1 s1
      = Ok (y, s').
Proof.
  revert blocks' x y s s'.
  induction blocks as [|b rest IH]; intros blocks' x y s s' Hrun; simpl in Hrun.
  - state_inv Hrun. state_inv Hrun.
    apply state_ret_inv in Hstep0 as [-> ->].
    apply state_ret_inv in Hrun as [[= -> ->] ->]. simpl. eauto.
  - state_inv Hrun. state_inv Hrun. destruct a0 as [y1 rest'].
    apply state_ret_inv in Hrun as [[= -> ->] ->]. simpl in *.
    eapply IH. eassumption.
Qed.

Lemma set_mask_attention (b : EncoderBlock.t F) (mask : option (torch.Tensor bool)) :
  MultiHeadAttention.mask_q (EncoderBlock.attention (EncoderBlock.set_mask b mask)) = mask /\
  MultiHeadAttention.mask_k (EncoderBlock.attention (EncoderBlock.set_mask b mask)) = mask.
Proof. split; reflexivity. Qed.

(** C5. A forward pass of the encoder that returns: the padding mask is
    the tensor of the positions where the input equals [mask_symbol], or
    [None] without a mask symbol; every block leaves the pass as
    [set_mask] made it, with that mask as the query mask and the key mask of
    its attention; the returned [State] carries the mask,
    [batch_first=True] and, as outputs, what the last block returned. *)
Theorem encoder_forward_padding_mask (self self' : TransformerAttentionEncoder.t F)
  (inputs : torch.Tensor Z) (st : State.t F) (s s' : nn.Store F) :
  TransformerAttentionEncoder.forward self inputs s = Ok ((st, self'), s') ->
  let padding_mask :=
    match TransformerAttentionEncoder.mask_symbol self with
    | Some m => Some (torch.eq inputs m)
    | None => None
    end in
  (forall m mask, TransformerAttentionEncoder.mask_symbol self = Some m ->
     padding_mask = Some mask ->
     torch.size mask = torch.size inputs /\
     forall idx, torch.get mask idx = (torch.get inputs idx =? m)%Z) /\
  (TransformerAttentionEncoder.mask_symbol self = None -> padding_mask = None) /\
  State.mask st = padding_mask /\
  State.batch_first st = true /\
  TransformerAttentionEncoder.blocks self' =
    List.map (fun b => EncoderBlock.set_mask b padding_mask)
             (TransformerAttentionEncoder.blocks self) /\
  Forall (fun b =>
            MultiHeadAttention.mask_q (EncoderBlock.attention b) = padding_mask /\
            MultiHeadAttention.mask_k (EncoderBlock.attention b) = padding_mask)
         (TransformerAttentionEncoder.blocks self') /\
  (forall blocks last,
     TransformerAttentionEncoder.blocks self = blocks ++ [last] ->
     exists x1 s1,
       EncoderBlock.forward (EncoderBlock.set_mask last padding_mask) x1 s1
         = Ok (State.outputs st, s')).
Proof.
  intros Hf padding_mask. unfold TransformerAttentionEncoder.forward in Hf.
  fold padding_mask in Hf.
  do 5 state_inv Hf. destruct a3 as [y blocks'].
  apply state_ret_inv in Hf as [[= -> ->] ->]. simpl.
  pose proof (run_blocks_masks _ _ _ _ _ _ _ Hstep3) as Hb. subst blocks'.
  split; [|split; [|split; [|split; [|split; [|split]]]]].
  - intros m mask Hm Hpm. unfold padding_mask in Hpm. rewrite Hm in Hpm.
    injection Hpm as <-. split; [reflexivity|]. intros idx. reflexivity.
  - intros Hm. unfold padding_mask. rewrite Hm. reflexivity.
  - reflexivity.
  - reflexivity.
  - reflexivity.
  - apply Forall_forall. intros b Hb. apply list_elem_of_In in Hb.
    apply in_map_iff in Hb as (b0 & <- & _). apply set_mask_attention.
  - intros blocks last Hbl. rewrite Hbl in Hstep3.
    eapply run_blocks_last. eassumption.
Qed.

End encoder_facts.

Lemma example_encoder_forward_returns :
  exists st self' s',
    TransformerAttentionEncoder.forward example_encoder example_inputs empty_store
      = Ok ((st, self'), s').
Proof.
  unfold TransformerAttentionEncoder.forward.
  rewrite (state_bind_Ok _ _ empty_store empty_store _ eq_refl).
  set (x := torch.mul_ _ _).
  destruct (positional_embedding_even x 1%R 10000%R 1 2 4 (10000 / 1)%R
              (ln (10000 / 1)) eq_refl eq_refl (le_n 4)
              (R_truediv_ok 10000%R 1%R ltac:(lra))
              (R_log_ok (10000 / 1)%R ltac:(lra)))
    as (pe & Hpe & Hsz & Hcuda & _).
  change (of_Z 1) with 1%R. change (of_Z 10000) with 10000%R.
  rewrite Hpe, state_bind_lift_Ok.
  unfold torch.add. rewrite pointwise_ok by (rewrite ?Hsz, ?Hcuda; reflexivity).
  rewrite state_bind_lift_Ok.
  eexists. eexists. eexists. reflexivity.
Qed.

Lemma encoder_forward_padding_mask_witness :
  exists st self' s',
    TransformerAttentionEncoder.forward example_encoder example_inputs empty_store
      = Ok ((st, self'), s') /\
    State.mask st = Some (torch.eq example_inputs 0) /\
    State.batch_first st = true /\
    Forall (fun b =>
              MultiHeadAttention.mask_q (EncoderBlock.attention b)
                = Some (torch.eq example_inputs 0) /\
              MultiHeadAttention.mask_k (EncoderBlock.attention b)
                = Some (torch.eq example_inputs 0))
           (TransformerAttentionEncoder.blocks self').
Proof.
  destruct example_encoder_forward_returns as (st & self' & s' & E).
  exists st, self', s'. split; [exact E|].
  destruct (encoder_forward_padding_mask _ _ _ _ _ _ E)
    as (_ & _ & Hm & Hb & _ & Hall & _).
  split; [exact Hm|]. split; [exact Hb|]. exact Hall.
Defined.

(** ** Weight tying *)

Section tying_facts.
Context {F : Type} `{Float F} `{Framework F} `{Config}.

Lemma setdefault_lookup_eq (k : string) (v : pyval F) (d : gmap string (pyval F)) :
  setdefault k v d !! k = Some (default v (d !! k)).
Proof.
  unfold setdefault. destruct (d !! k) as [x|] eqn:E; simpl.
  - exact E.
  - apply lookup_insert_eq.
Qed.

Lemma setdefault_lookup_ne (k k' : string) (v : pyval F) (d : gmap string (pyval F)) :
  k <> k' -> setdefault k v d !! k' = d !! k'.
Proof.
  intros Hne. unfold setdefault. destruct (d !! k); [reflexivity|].
  apply lookup_insert_ne. exact Hne.
Qed.

Lemma decoder_init_weights vocab_size hidden_size embedding_size num_layers
  num_heads dropout inner_linear mask_symbol (tie_embedding weight_norm : bool)
  (s s' : nn.Store F) (dec : TransformerAttentionDecoder.t F) :
  TransformerAttentionDecoder.init vocab_size hidden_size embedding_size num_layers
    num_heads dropout inner_linear mask_symbol tie_embedding weight_norm s
    = Ok (dec, s') ->
  tie_embedding = true ->
  nn.Embedding.weight (TransformerAttentionDecoder.embedder dec) =
  nn.Linear.weight (TransformerAttentionDecoder.classifier dec).
Proof.
  intros Hinit ->. unfold TransformerAttentionDecoder.init in Hinit.
  cbv zeta in Hinit.
  state_inv Hinit. state_inv Hinit. state_inv Hinit.
  apply state_ret_inv in Hinit as [-> _]. reflexivity.
Qed.

Lemma decoder_call_weights (kwargs : gmap string (pyval F))
  (s s' : nn.Store F) (dec : TransformerAttentionDecoder.t F) :
  TransformerAttentionDecoder.call kwargs s = Ok (dec, s') ->
  truthy (optional "tie_embedding" (PyBool true) kwargs) = true ->
  nn.Embedding.weight (TransformerAttentionDecoder.embedder dec) =
  nn.Linear.weight (TransformerAttentionDecoder.classifier dec).
Proof.
  intros Hcall Htie. unfold TransformerAttentionDecoder.call in Hcall.
  do 9 state_inv Hcall.
  eapply decoder_init_weights; eauto.
Qed.

Lemma transformer_init_weights vocab_size hidden_size embedding_size num_layers
  num_heads inner_linear dropout (encoder decoder : option (gmap string (pyval F)))
  (weight_norm : bool) (s s' : nn.Store F) (m : Transformer.t F) :
  Transformer.init vocab_size hidden_size embedding_size num_layers num_heads
    inner_linear dropout true encoder decoder weight_norm s = Ok (m, s') ->
  nn.Embedding.weight
    (TransformerAttentionEncoder.embedder (Transformer.encoder m)) =
  nn.Linear.weight
    (TransformerAttentionDecoder.classifier (Transformer.decoder m)) /\
  (truthy (default (PyBool true) (default ∅ decoder !! "tie_embedding")) = true ->
   nn.Embedding.weight
     (TransformerAttentionDecoder.embedder (Transformer.decoder m)) =
   nn.Linear.weight
     (TransformerAttentionDecoder.classifier (Transformer.decoder m))).
Proof.
  intros Hinit. unfold Transformer.init in Hinit. cbv zeta in Hinit.
  state_inv Hinit. state_inv Hinit.
  apply state_ret_inv in Hinit as [-> _]. simpl. split; [reflexivity|].
  intros Htie. eapply decoder_call_weights; [eassumption|].
  unfold optional.
  rewrite !setdefault_lookup_ne by discriminate.
  rewrite setdefault_lookup_eq.
  rewrite !setdefault_lookup_ne by discriminate.
  simpl. exact Htie.
Qed.

Lemma update_read_same (l1 l2 : nat) (t : torch.Tensor F) (st : nn.Store F) :
  l1 = l2 -> nn.read l2 (nn.update l1 t st) = Some t.
Proof. intros ->. unfold nn.read, nn.update. simpl. apply lookup_insert_eq. Qed.

(** C1 (as amended). A decoder constructed with [tie_embedding=True] has
    one parameter for its embedding weight and its classifier weight; a
    [Transformer] constructed with [tie_embedding=True] has the encoder's
    embedding weight on the decoder's classifier weight, and the decoder's
    embedding weight on it too unless the decoder options carry a false
    [tie_embedding] of their own; a new value assigned through one of the
    tied attributes is read through the others. *)
Theorem weight_tying_shares_parameter :
  (forall vocab_size hidden_size embedding_size num_layers num_heads dropout
          inner_linear mask_symbol weight_norm
          (s s' : nn.Store F) (dec : TransformerAttentionDecoder.t F),
     TransformerAttentionDecoder.init vocab_size hidden_size embedding_size
       num_layers num_heads dropout inner_linear mask_symbol true weight_norm s
       = Ok (dec, s') ->
     let embedding := nn.Embedding.weight (TransformerAttentionDecoder.embedder dec) in
     let classifier := nn.Linear.weight (TransformerAttentionDecoder.classifier dec) in
     embedding = classifier /\
     forall t (st : nn.Store F), nn.read classifier (nn.update embedding t st) = Some t) /\
  (forall vocab_size hidden_size embedding_size num_layers num_heads inner_linear
          dropout encoder decoder weight_norm
          (s s' : nn.Store F) (m : Transformer.t F),
     Transformer.init vocab_size hidden_size embedding_size num_layers num_heads
       inner_linear dropout true encoder decoder weight_norm s = Ok (m, s') ->
     let enc_embedding :=
       nn.Embedding.weight
         (TransformerAttentionEncoder.embedder (Transformer.encoder m)) in
     let dec_embedding :=
       nn.Embedding.weight
         (TransformerAttentionDecoder.embedder (Transformer.decoder m)) in
     let classifier :=
       nn.Linear.weight
         (TransformerAttentionDecoder.classifier (Transformer.decoder m)) in
     enc_embedding = classifier /\
     (forall t (st : nn.Store F),
        nn.read classifier (nn.update enc_embedding t st) = Some t) /\
     (truthy (default (PyBool true) (default ∅ decoder !! "tie_embedding")) = true ->
      dec_embedding = classifier /\
      forall t (st : nn.Store F),
        nn.read classifier (nn.update dec_embedding t st) = Some t /\
        nn.read enc_embedding (nn.update dec_embedding t st) = Some t)).
Proof.
  split.
  - intros * Hinit embedding classifier.
    assert (E : embedding = classifier)
      by (eapply decoder_init_weights; eauto).
    split; [exact E|]. intros t st. apply update_read_same. exact E.
  - intros * Hinit enc_embedding dec_embedding classifier.
    destruct (transformer_init_weights _ _ _ _ _ _ _ _ _ _ _ _ _ Hinit) as [E1 E2].
    split; [exact E1|]. split.
    + intros t st. apply update_read_same. exact E1.
    + intros Htie. specialize (E2 Htie). split; [exact E2|].
      intros t st. split; apply update_read_same.
      * exact E2.
      * unfold dec_embedding, enc_embedding. rewrite E2, E1. reflexivity.
Qed.

End tying_facts.


(** A [Transformer] with [tie_embedding=True] whose decoder options say
    [tie_embedding=False]: the encoder's embedding is tied to the classifier,
    the decoder's embedding is a parameter of its own, and an update of the
    classifier weight leaves it as it was. *)
Lemma weight_tying_decoder_override :
  exists (m : Transformer.t R) (s' : nn.Store R),
    Transformer.init 10 4 None 0 1 8 0%R true None
      (Some {[ "tie_embedding"%string := PyBool false ]}) false empty_store
      = Ok (m, s') /\
    let enc_embedding :=
      nn.Embedding.weight
        (TransformerAttentionEncoder.embedder (Transformer.encoder m)) in
    let dec_embedding :=
      nn.Embedding.weight
        (TransformerAttentionDecoder.embedder (Transformer.decoder m)) in
    let classifier :=
      nn.Linear.weight
        (TransformerAttentionDecoder.classifier (Transformer.decoder m)) in
    enc_embedding = classifier /\
    dec_embedding <> classifier /\
    forall t, nn.read dec_embedding (nn.update classifier t s')
              = nn.read dec_embedding s'.
Proof.
  assert (Hw : constructed_weights
                 (Transformer.init 10 4 None 0 1 8 0%R true None
                    (Some {[ "tie_embedding"%string := PyBool false ]}) false
                    empty_store) = Some (2, 1, 2))
    by (vm_compute; reflexivity).
  destruct (Transformer.init 10 4 None 0 1 8 0%R true None
              (Some {[ "tie_embedding"%string := PyBool false ]}) false
              empty_store) as [[m s']|e]; [|discriminate].
  exists m, s'. split; [reflexivity|].
  injection Hw as He Hd Hc. cbv zeta. rewrite He, Hd, Hc.
  split; [reflexivity|]. split; [discriminate|].
  intros t. unfold nn.read, nn.update. simpl.
  apply lookup_insert_ne. discriminate.
Qed.

(** The defaults: with no decoder options all three attributes hold one
    parameter. *)
Lemma weight_tying_witness :
  exists (m : Transformer.t R) (s' : nn.Store R),
    Transformer.init 10 4 None 0 1 8 0%R true None None false empty_store
      = Ok (m, s') /\
    nn.Embedding.weight
      (TransformerAttentionEncoder.embedder (Transformer.encoder m)) =
    nn.Linear.weight
      (TransformerAttentionDecoder.classifier (Transformer.decoder m)) /\
    nn.Embedding.weight
      (TransformerAttentionDecoder.embedder (Transformer.decoder m)) =
    nn.Linear.weight
      (TransformerAttentionDecoder.classifier (Transformer.decoder m)).
Proof.
  assert (Hw : is_ok (Transformer.init 10 4 None 0 1 8 0%R true None None false
                        empty_store) = true)
    by (vm_compute; reflexivity).
  destruct (Transformer.init 10 4 None 0 1 8 0%R true None None false
              empty_store) as [[m s']|e] eqn:E; [|discriminate].
  exists m, s'. split; [reflexivity|].
  destruct (proj2 weight_tying_shares_parameter _ _ _ _ _ _ _ _ _ _ _ _ _ E)
    as (H1 & _ & H3).
  split; [exact H1|].
  apply H3. vm_compute. reflexivity.
Defined.

(* ================================================================== *)
(** * Further properties *)

(** ** LayerNorm1d: construction, purity and errors *)

Section state_lemmas_more.
Context {St : Type}.

Lemma state_lift_inv {A : Type} (r : result A) (a : A) (s s' : St) :
  state.lift r s = Ok (a, s') -> r = Ok a /\ s' = s.
Proof. unfold state.lift. destruct r; [intros [= -> ->]; auto | discriminate]. Qed.

End state_lemmas_more.

Section layernorm_more.
Context {F : Type} `{Float F} `{Framework F}.

Lemma data_inv (p : nat) (t : torch.Tensor F) (s s' : nn.Store F) :
  nn.data p s = Ok (t, s') -> nn.read p s = Some t /\ s' = s.
Proof.
  unfold nn.data, nn.read. destruct (nn.params s !! p); [|discriminate].
  intros [= -> ->]. auto.
Qed.

Lemma attr_inv {A : Type} (o : option A) (a : A) (s s' : nn.Store F) :
  nn.attr o s = Ok (a, s') -> o = Some a /\ s' = s.
Proof.
  destruct o; simpl; [|discriminate]. unfold state.ret. intros [= -> ->]. auto.
Qed.

Lemma LayerNorm1d_init_store (num_features : nat) (eps : F) (s : nn.Store F) :
  (exists self s',
     LayerNorm1d.init num_features eps true s = Ok (self, s') /\
     LayerNorm1d.eps self = eps /\
     LayerNorm1d.num_features self = num_features /\
     LayerNorm1d.affine self = true /\
     LayerNorm1d.weight self = Some (nn.next_param s) /\
     LayerNorm1d.bias self = Some (S (nn.next_param s)) /\
     nn.read (nn.next_param s) s' = Some (full num_features (of_Z 1)) /\
     nn.read (S (nn.next_param s)) s' = Some (full num_features (of_Z 0)) /\
     nn.next_param s' = S (S (nn.next_param s)) /\
     forall p, p <> nn.next_param s -> p <> S (nn.next_param s) ->
               nn.read p s' = nn.read p s) /\
  LayerNorm1d.init num_features eps false s =
    Ok (LayerNorm1d.mk eps num_features false None None, s).
Proof.
  split; [|reflexivity].
  destruct s as [params next rng].
  unfold LayerNorm1d.init, LayerNorm1d.reset_parameters, fresh_tensor,
    nn.new_parameter, nn.fill_, nn.attr, state.bind, state.ret. simpl.
  rewrite lookup_insert_ne by lia. rewrite lookup_insert_eq. simpl.
  rewrite lookup_insert_ne by lia. rewrite lookup_insert_eq. simpl.
  eexists. eexists. split; [reflexivity|]. simpl.
  repeat (split; [reflexivity|]).
  unfold nn.read. simpl. split; [|split; [|split]].
  - rewrite lookup_insert_ne by lia. apply lookup_insert_eq.
  - apply lookup_insert_eq.
  - reflexivity.
  - intros p Hp1 Hp2. rewrite !lookup_insert_ne by congruence. reflexivity.
Qed.

(** X1. [LayerNorm1d(num_features, eps, affine=True)] always succeeds: it
    creates two new parameters, the weight filled with ones and the bias
    with zeros, both of shape [(num_features,)], and leaves every other
    parameter as it was; with [affine=False] it creates none. *)
Theorem LayerNorm1d_init_parameters (num_features : nat) (eps : F) (s : nn.Store F) :
  (exists self s',
     LayerNorm1d.init num_features eps true s = Ok (self, s') /\
     LayerNorm1d.eps self = eps /\
     LayerNorm1d.num_features self = num_features /\
     LayerNorm1d.affine self = true /\
     LayerNorm1d.weight self = Some (nn.next_param s) /\
     LayerNorm1d.bias self = Some (S (nn.next_param s)) /\
     nn.read (nn.next_param s) s' = Some (full num_features (of_Z 1)) /\
     nn.read (S (nn.next_param s)) s' = Some (full num_features (of_Z 0)) /\
     nn.next_param s' = S (S (nn.next_param s)) /\
     forall p, p <> nn.next_param s -> p <> S (nn.next_param s) ->
               nn.read p s' = nn.read p s) /\
  LayerNorm1d.init num_features eps false s =
    Ok (LayerNorm1d.mk eps num_features false None None, s).
Proof. apply LayerNorm1d_init_store. Qed.

(** X2. The forward pass of [LayerNorm1d] only reads: whenever it returns,
    the store of parameters is the one it was given. *)
Theorem LayerNorm1d_forward_reads_only (self : LayerNorm1d.t F)
  (inputs out : torch.Tensor F) (s s' : nn.Store F) :
  LayerNorm1d.forward self inputs s = Ok (out, s') -> s' = s.
Proof.
  unfold LayerNorm1d.forward.
  destruct (torch.size inputs) as [|b [|t [|f [|? ?]]]];
    try (intros Hf; apply state_lift_inv in Hf as [? _]; discriminate).
  intros Hf.
  repeat (state_inv Hf;
          match goal with
          | Hs : state.lift _ _ = Ok _ |- _ => apply state_lift_inv in Hs as [_ ->]
          end).
  destruct (LayerNorm1d.affine self).
  - state_inv Hf. apply attr_inv in Hstep as [_ ->].
    state_inv Hf. apply data_inv in Hstep as [_ ->].
    state_inv Hf. apply state_lift_inv in Hstep as [_ ->].
    state_inv Hf. apply state_lift_inv in Hstep as [_ ->].
    state_inv Hf. apply attr_inv in Hstep as [_ ->].
    state_inv Hf. apply data_inv in Hstep as [_ ->].
    state_inv Hf. apply state_lift_inv in Hstep as [_ ->].
    state_inv Hf. apply state_lift_inv in Hstep as [_ ->].
    state_inv Hf. apply state_lift_inv in Hstep as [_ ->].
    apply state_lift_inv in Hf as [_ ->]. reflexivity.
  - apply state_ret_inv in Hf as [_ ->]. reflexivity.
Qed.

(** The values of the forward pass, for the properties below. *)
Lemma LayerNorm1d_forward_values (self : LayerNorm1d.t F)
  (inputs : torch.Tensor F) (s : nn.Store F) (b t f : nat) :
  torch.size inputs = [b; t; f] ->
  (LayerNorm1d.affine self = false ->
   exists out,
     LayerNorm1d.forward self inputs s = Ok (out, s) /\
     torch.size out = [b; t; f] /\
     forall i j k, i < b -> j < t -> k < f ->
       torch.get out [i; j; k] =
       normalized (LayerNorm1d.eps self) (features inputs i j f)
                  (torch.get inputs [i; j; k])) /\
  (LayerNorm1d.affine self = true ->
   forall wl bl weight bias,
     LayerNorm1d.weight self = Some wl -> LayerNorm1d.bias self = Some bl ->
     nn.read wl s = Some weight -> nn.read bl s = Some bias ->
     torch.size weight = [f] -> torch.size bias = [f] ->
     torch.is_cuda weight = torch.is_cuda inputs ->
     torch.is_cuda bias = torch.is_cuda inputs ->
     exists out,
       LayerNorm1d.forward self inputs s = Ok (out, s) /\
       torch.size out = [b; t; f] /\
       forall i j k, i < b -> j < t -> k < f ->
         torch.get out [i; j; k] =
         fadd (fmul (normalized (LayerNorm1d.eps self) (features inputs i j f)
                                (torch.get inputs [i; j; k]))
                    (torch.get weight [k]))
              (torch.get bias [k])).
Proof.
  intros Hs.
  destruct (normalize_steps (LayerNorm1d.eps self) inputs b t f Hs)
    as (output & Hout & Hos & Hoc & Hov).
  apply bind_Ok_inv in Hout as (m1 & E1 & Hout).
  apply bind_Ok_inv in Hout as (m2 & E2 & Hout).
  apply bind_Ok_inv in Hout as (m3 & E3 & Hout).
  apply bind_Ok_inv in Hout as (m4 & E4 & Hout).
  apply bind_Ok_inv in Hout as (m5 & E5 & Hout).
  apply bind_Ok_inv in Hout as (m6 & E6 & Hout).
  apply bind_Ok_inv in Hout as (m7 & E7 & Hout).
  assert (Hpre :
            LayerNorm1d.forward self inputs s =
            (if LayerNorm1d.affine self then
               (wp <~ nn.attr (LayerNorm1d.weight self) ;;
                wt <~ nn.data wp ;;
                wv <~ state.lift (torch.view wt [1%Z; 1%Z; (-1)%Z]) ;;
                w <~ state.lift (torch.expand_as wv output) ;;
                bp <~ nn.attr (LayerNorm1d.bias self) ;;
                bt <~ nn.data bp ;;
                bv <~ state.lift (torch.view bt [1%Z; 1%Z; (-1)%Z]) ;;
                b <~ state.lift (torch.expand_as bv output) ;;
                ow <~ state.lift (torch.mul output w) ;;
                state.lift (torch.add ow b))
             else state.ret output) s).
  { unfold LayerNorm1d.forward. rewrite Hs.
    rewrite E1, state_bind_lift_Ok, E2, state_bind_lift_Ok.
    rewrite E3, state_bind_lift_Ok, E4, state_bind_lift_Ok.
    rewrite E5, state_bind_lift_Ok, E6, state_bind_lift_Ok.
    rewrite E7, state_bind_lift_Ok, Hout, state_bind_lift_Ok.
    reflexivity. }
  split.
  - intros Haff. rewrite Hpre, Haff. exists output.
    split; [reflexivity|]. split; assumption.
  - intros Haff wl bl weight bias Hw Hb Hrw Hrb Hws Hbs Hwc Hbc.
    rewrite Hpre, Haff, Hw, Hb.
    destruct (affine_broadcast weight b t f Hws) as (w & Hwe & Hwes & Hwec & Hwev).
    destruct (affine_broadcast bias b t f Hbs) as (bb & Hbe & Hbes & Hbec & Hbev).
    apply bind_Ok_inv in Hwe as (wv & Hwv & Hwe).
    apply bind_Ok_inv in Hbe as (bv & Hbv & Hbe).
    unfold nn.attr.
    rewrite (state_bind_Ok _ _ s s wl eq_refl).
    rewrite (state_bind_Ok _ _ s s weight (data_read _ _ _ Hrw)).
    rewrite Hwv, state_bind_lift_Ok.
    unfold torch.expand_as. rewrite Hos, Hwe, state_bind_lift_Ok.
    rewrite (state_bind_Ok _ _ s s bl eq_refl).
    rewrite (state_bind_Ok _ _ s s bias (data_read _ _ _ Hrb)).
    rewrite Hbv, state_bind_lift_Ok, Hbe, state_bind_lift_Ok.
    unfold torch.mul, torch.add.
    rewrite pointwise_ok by congruence. rewrite state_bind_lift_Ok.
    rewrite pointwise_ok by (simpl; congruence).
    eexists. split; [reflexivity|]. split; [exact Hos|].
    intros i j k Hi Hj Hk. cbn [torch.get].
    rewrite Hov, Hwev, Hbev by assumption. reflexivity.
Qed.

(** The forward pass up to the affine step: the normalised tensor has the
    shape and the device of the input. *)
Lemma LayerNorm1d_forward_prefix (self : LayerNorm1d.t F)
  (inputs : torch.Tensor F) (s : nn.Store F) (b t f : nat) :
  torch.size inputs = [b; t; f] ->
  exists output,
    torch.size output = [b; t; f] /\
    torch.is_cuda output = torch.is_cuda inputs /\
    LayerNorm1d.forward self inputs s =
    (if LayerNorm1d.affine self then
       (wp <~ nn.attr (LayerNorm1d.weight self) ;;
        wt <~ nn.data wp ;;
        wv <~ state.lift (torch.view wt [1%Z; 1%Z; (-1)%Z]) ;;
        w <~ state.lift (torch.expand_as wv output) ;;
        bp <~ nn.attr (LayerNorm1d.bias self) ;;
        bt <~ nn.data bp ;;
        bv <~ state.lift (torch.view bt [1%Z; 1%Z; (-1)%Z]) ;;
        b <~ state.lift (torch.expand_as bv output) ;;
        ow <~ state.lift (torch.mul output w) ;;
        state.lift (torch.add ow b))
     else state.ret output) s.
Proof.
  intros Hs.
  destruct (normalize_steps (LayerNorm1d.eps self) inputs b t f Hs)
    as (output & Hout & Hos & Hoc & _).
  apply bind_Ok_inv in Hout as (m1 & E1 & Hout).
  apply bind_Ok_inv in Hout as (m2 & E2 & Hout).
  apply bind_Ok_inv in Hout as (m3 & E3 & Hout).
  apply bind_Ok_inv in Hout as (m4 & E4 & Hout).
  apply bind_Ok_inv in Hout as (m5 & E5 & Hout).
  apply bind_Ok_inv in Hout as (m6 & E6 & Hout).
  apply bind_Ok_inv in Hout as (m7 & E7 & Hout).
  exists output. split; [exact Hos|]. split; [exact Hoc|].
  unfold LayerNorm1d.forward. rewrite Hs.
  rewrite E1, state_bind_lift_Ok, E2, state_bind_lift_Ok.
  rewrite E3, state_bind_lift_Ok, E4, state_bind_lift_Ok.
  rewrite E5, state_bind_lift_Ok, E6, state_bind_lift_Ok.
  rewrite E7, state_bind_lift_Ok, Hout, state_bind_lift_Ok.
  reflexivity.
Qed.

(** X3. A freshly constructed affine [LayerNorm1d(num_features)] accepts a
    CPU input exactly when it has three dimensions and its last dimension
    is [num_features], or [num_features] is 1 (weight and bias are then
    broadcast over the features): another rank raises [ValueError] at the
    unpacking of [inputs.size()], another feature count raises
    [RuntimeError] at [expand_as]. *)
Theorem LayerNorm1d_forward_feature_count (num_features : nat) (eps : F)
  (inputs : torch.Tensor F) (s s' : nn.Store F) (self : LayerNorm1d.t F) :
  LayerNorm1d.init num_features eps true s = Ok (self, s') ->
  torch.is_cuda inputs = false ->
  (length (torch.size inputs) <> 3 ->
   LayerNorm1d.forward self inputs s' = Raise ValueError) /\
  (forall b t f, torch.size inputs = [b; t; f] ->
     (f = num_features \/ num_features = 1 ->
      exists out, LayerNorm1d.forward self inputs s' = Ok (out, s') /\
                  torch.size out = torch.size inputs) /\
     (f <> num_features -> num_features <> 1 ->
      LayerNorm1d.forward self inputs s' = Raise RuntimeError)).
Proof.
  intros Hinit Hc.
  destruct (LayerNorm1d_init_store num_features eps s)
    as [(self0 & s0 & Hinit0 & _ & _ & Ha & Hw & Hb & Hrw & Hrb & _) _].
  rewrite Hinit in Hinit0. injection Hinit0 as <- <-.
  split.
  - unfold LayerNorm1d.forward.
    destruct (torch.size inputs) as [|b [|t [|f [|? ?]]]]; simpl; intros Hr;
      try reflexivity.
    contradiction.
  - intros b t f Hs.
    destruct (LayerNorm1d_forward_prefix self inputs s' b t f Hs)
      as (output & Hos & Hoc & Hpre).
    rewrite Hpre, Ha, Hw, Hb. clear Hpre.
    unfold nn.attr.
    rewrite (state_bind_Ok _ _ s' s' _ eq_refl).
    rewrite (state_bind_Ok _ _ s' s' _ (data_read _ _ _ Hrw)).
    rewrite (view_11f (full num_features (of_Z 1)) num_features eq_refl).
    rewrite state_bind_lift_Ok.
    unfold torch.expand_as. rewrite Hos. unfold torch.expand.
    cbn [torch.size length Nat.sub Nat.leb andb drop torch.expandable].
    change (drop 0 [b; t; f]) with [b; t; f].
    cbn [torch.expandable].
    change (1 =? 1) with true. rewrite !orb_true_r, !andb_true_r.
    cbn [andb].
    split.
    + intros Hok.
      assert (He : (num_features =? f) || (num_features =? 1) = true).
      { destruct Hok as [->| ->]; [rewrite Nat.eqb_refl|rewrite orb_true_r];
          reflexivity. }
      rewrite He, state_bind_lift_Ok.
      rewrite (state_bind_Ok _ _ s' s' _ eq_refl).
      rewrite (state_bind_Ok _ _ s' s' _ (data_read _ _ _ Hrb)).
      rewrite (view_11f (full num_features (of_Z 0)) num_features eq_refl).
      rewrite state_bind_lift_Ok.
      cbn [torch.size length Nat.sub Nat.leb andb drop torch.expandable].
      change (drop 0 [b; t; f]) with [b; t; f].
      cbn [torch.expandable].
      change (1 =? 1) with true. rewrite !orb_true_r, andb_true_r.
      cbn [andb]. rewrite He, state_bind_lift_Ok.
      unfold torch.mul, torch.add.
      rewrite pointwise_ok by (cbn [torch.size torch.is_cuda full]; congruence).
      rewrite state_bind_lift_Ok.
      rewrite pointwise_ok by (cbn [torch.size torch.is_cuda full]; congruence).
      eexists. split; [reflexivity|]. cbn [torch.size]. congruence.
    + intros Hne Hn1.
      assert (He : (num_features =? f) || (num_features =? 1) = false).
      { apply orb_false_intro; apply Nat.eqb_neq; congruence. }
      rewrite He. reflexivity.
Qed.

End layernorm_more.

Lemma LayerNorm1d_forward_reads_only_witness :
  exists self s' out s'',
    LayerNorm1d.init 2 1%R true empty_store = Ok (self, s') /\
    nn.read 0 s' = Some (full 2 1%R) /\
    nn.read 1 s' = Some (full 2 0%R) /\
    LayerNorm1d.forward self (torch.mkTensor [1; 1; 2] false (fun _ => 3%R)) s'
      = Ok (out, s'') /\
    s'' = s'.
Proof.
  destruct (LayerNorm1d_init_store 2 1%R empty_store)
    as [(self & s' & Hinit & _ & _ & Ha & Hw & Hb & Hrw & Hrb & _) _].
  destruct (proj2 (LayerNorm1d_forward_values self
                     (torch.mkTensor [1; 1; 2] false (fun _ => 3%R))
                     s' 1 1 2 eq_refl)
              Ha _ _ _ _ Hw Hb Hrw Hrb eq_refl eq_refl eq_refl eq_refl)
    as (out0 & Hf & _).
  destruct (LayerNorm1d.forward self
              (torch.mkTensor [1; 1; 2] false (fun _ => 3%R)) s')
    as [[out s'']|e] eqn:E; [|discriminate].
  exists self, s', out, s''.
  split; [exact Hinit|]. split; [exact Hrw|]. split; [exact Hrb|].
  split; [exact E|].
  exact (LayerNorm1d_forward_reads_only _ _ _ _ _ E).
Defined.

Lemma LayerNorm1d_forward_feature_count_witness :
  exists self s',
    LayerNorm1d.init 3 1%R true empty_store = Ok (self, s') /\
    LayerNorm1d.forward self (torch.mkTensor [1; 2; 4] false (fun _ => 3%R)) s'
      = Raise RuntimeError.
Proof.
  destruct (LayerNorm1d_init_store 3 1%R empty_store)
    as [(self & s' & Hinit & _) _].
  exists self, s'. split; [exact Hinit|].
  apply (proj2 (proj2 (LayerNorm1d_forward_feature_count 3 1%R
                         (torch.mkTensor [1; 2; 4] false (fun _ => 3%R))
                         empty_store s' self Hinit eq_refl)
                  1 2 4 eq_refl)); lia.
Defined.

(** ** LayerNorm1d over the reals: what the normalisation achieves *)

Section layernorm_reals.
Context `{Framework R}.
Local Open Scope R_scope.

Lemma sum_list_acc (l : list R) (a : R) :
  fold_left Rplus l a = a + fold_left Rplus l 0.
Proof.
  revert a. induction l as [|x l IH]; intros a; simpl.
  - ring.
  - rewrite (IH (a + x)), (IH (0 + x)). ring.
Qed.

Lemma sum_list_cons (x : R) (l : list R) :
  torch.sum_list (x :: l) = x + torch.sum_list l.
Proof.
  unfold torch.sum_list. simpl. rewrite sum_list_acc.
  change (IZR 0) with 0. ring.
Qed.

Lemma sum_list_nil : torch.sum_list (@nil R) = 0.
Proof. reflexivity. Qed.

Lemma sum_map_scaled {A : Type} (g : A -> R) (c : R) (l : list A) :
  torch.sum_list (List.map (fun u => g u * c) l) =
  torch.sum_list (List.map g l) * c.
Proof.
  induction l as [|x l IH]; simpl List.map.
  - rewrite sum_list_nil. ring.
  - rewrite !sum_list_cons, IH. ring.
Qed.

Lemma sum_map_minus (m : R) (l : list R) :
  torch.sum_list (List.map (fun u => u - m) l) =
  torch.sum_list l - INR (length l) * m.
Proof.
  induction l as [|x l IH].
  - simpl. rewrite sum_list_nil. ring.
  - simpl List.map. rewrite !sum_list_cons, IH.
    change (length (x :: l)) with (S (length l)). rewrite S_INR. ring.
Qed.

Lemma sum_nonneg (l : list R) :
  (forall x, In x l -> 0 <= x) -> 0 <= torch.sum_list l.
Proof.
  induction l as [|x l IH]; intros Hl.
  - rewrite sum_list_nil. lra.
  - rewrite sum_list_cons.
    assert (0 <= x) by (apply Hl; left; reflexivity).
    assert (0 <= torch.sum_list l) by (apply IH; intros y Hy; apply Hl; right; exact Hy).
    lra.
Qed.

Lemma mean_of_R (l : list R) : mean_of l = torch.sum_list l / INR (length l).
Proof. unfold mean_of. simpl. rewrite <- INR_IZR_INZ. reflexivity. Qed.

Lemma variance_nonneg (row : list R) : 0 <= variance_of row.
Proof.
  unfold variance_of. rewrite mean_of_R.
  apply Rmult_le_pos.
  - apply sum_nonneg. intros x Hx. apply in_map_iff in Hx as (u & <- & _).
    simpl. apply pow2_ge_0.
  - destruct (length (List.map _ row)) as [|n].
    + simpl. rewrite Rinv_0. lra.
    + apply Rlt_le, Rinv_0_lt_compat, lt_0_INR. lia.
Qed.

Lemma normalized_R (eps : R) (row : list R) (v : R) :
  normalized eps row v = (v - mean_of row) * / sqrt (variance_of row + eps).
Proof. reflexivity. Qed.

Lemma normalized_row_mean (eps : R) (row : list R) :
  row <> [] -> mean_of (List.map (normalized eps row) row) = 0.
Proof.
  intros Hrow. rewrite mean_of_R.
  rewrite (List.map_ext _ (fun v => (v - mean_of row) * / sqrt (variance_of row + eps)))
    by (intros v; apply normalized_R).
  rewrite (sum_map_scaled (fun v => v - mean_of row)), sum_map_minus.
  rewrite (mean_of_R row), length_map.
  assert (Hn : INR (length row) <> 0).
  { apply not_0_INR. destruct row; [contradiction|discriminate]. }
  replace (torch.sum_list row - INR (length row) * (torch.sum_list row / INR (length row)))
    with 0 by (field; exact Hn).
  unfold Rdiv. ring.
Qed.

Lemma normalized_row_variance (eps : R) (row : list R) :
  row <> [] -> 0 < eps ->
  variance_of (List.map (normalized eps row) row) =
  variance_of row / (variance_of row + eps).
Proof.
  intros Hrow Heps.
  pose proof (variance_nonneg row) as Hv.
  unfold variance_of at 1. rewrite normalized_row_mean by exact Hrow.
  rewrite List.map_map.
  rewrite (List.map_ext _
             (fun v => (fun u => (u - mean_of row) ^ 2) v * / (variance_of row + eps))).
  2:{ intros v.
      change (fpow (fsub (normalized eps row v) 0) 2)
        with ((normalized eps row v - 0) ^ 2).
      rewrite normalized_R.
      set (d := sqrt (variance_of row + eps)). set (a := v - mean_of row).
      transitivity (a ^ 2 * (/ d * / d)); [ring|]. f_equal.
      unfold d. rewrite <- Rinv_mult, sqrt_sqrt by lra. reflexivity. }
  rewrite mean_of_R, sum_map_scaled, length_map.
  change (variance_of row) with
    (mean_of (List.map (fun u => (u - mean_of row) ^ 2) row)) at 2.
  rewrite (mean_of_R (List.map _ row)), length_map.
  unfold Rdiv. ring.
Qed.
Lemma features_of_forward (self : LayerNorm1d.t R) (inputs out : torch.Tensor R)
  (s s' : nn.Store R) (b t f i j : nat) :
  torch.size inputs = [b; t; f] ->
  LayerNorm1d.affine self = false ->
  LayerNorm1d.forward self inputs s = Ok (out, s') ->
  (i < b)%nat -> (j < t)%nat ->
  features out i j f =
  List.map (normalized (LayerNorm1d.eps self) (features inputs i j f))
           (features inputs i j f).
Proof.
  intros Hs Haff Hf Hi Hj.
  destruct (proj1 (LayerNorm1d_forward_values self inputs s b t f Hs) Haff)
    as (out' & Hf' & _ & Hv).
  rewrite Hf in Hf'. injection Hf' as <- _.
  unfold features at 1 3. rewrite List.map_map.
  apply List.map_ext_in. intros k Hk. apply in_seq in Hk.
  apply Hv; lia.
Qed.

(** X4. With [eps > 0], so that no position is divided by zero, the output
    of [LayerNorm1d] without the affine step has, at every (batch, time)
    position, features of mean zero (over the reals, for at least one
    feature). *)
Theorem LayerNorm1d_output_mean_zero (self : LayerNorm1d.t R)
  (inputs out : torch.Tensor R) (s s' : nn.Store R) (b t f i j : nat) :
  torch.size inputs = [b; t; f] -> (0 < f)%nat ->
  LayerNorm1d.affine self = false -> 0 < LayerNorm1d.eps self ->
  LayerNorm1d.forward self inputs s = Ok (out, s') ->
  (i < b)%nat -> (j < t)%nat ->
  mean_of (features out i j f) = 0.
Proof.
  intros Hs Hpos Haff Heps Hf Hi Hj.
  rewrite (features_of_forward self inputs out s s' b t f i j) by assumption.
  apply normalized_row_mean.
  intros Hnil. apply (f_equal (@length R)) in Hnil.
  rewrite length_features in Hnil. simpl in Hnil. lia.
Qed.

(** X5. With [eps > 0] the features of a position leave [LayerNorm1d]
    (without the affine step) with variance [v / (v + eps)], [v] being
    their variance on entry: never negative and always below one. *)
Theorem LayerNorm1d_output_variance (self : LayerNorm1d.t R)
  (inputs out : torch.Tensor R) (s s' : nn.Store R) (b t f i j : nat) :
  torch.size inputs = [b; t; f] -> (0 < f)%nat ->
  LayerNorm1d.affine self = false -> 0 < LayerNorm1d.eps self ->
  LayerNorm1d.forward self inputs s = Ok (out, s') ->
  (i < b)%nat -> (j < t)%nat ->
  let v := variance_of (features inputs i j f) in
  variance_of (features out i j f) = v / (v + LayerNorm1d.eps self) /\
  0 <= variance_of (features out i j f) < 1.
Proof.
  intros Hs Hpos Haff Heps Hf Hi Hj v.
  rewrite (features_of_forward self inputs out s s' b t f i j) by assumption.
  assert (Hrow : features inputs i j f <> []).
  { intros Hnil. apply (f_equal (@length R)) in Hnil.
    rewrite length_features in Hnil. simpl in Hnil. lia. }
  rewrite normalized_row_variance by assumption. fold v.
  pose proof (variance_nonneg (features inputs i j f)) as Hv. fold v in Hv.
  split; [reflexivity|]. split.
  - apply Rmult_le_pos; [exact Hv|]. apply Rlt_le, Rinv_0_lt_compat. lra.
  - apply (Rmult_lt_reg_r (v + LayerNorm1d.eps self)); [lra|].
    unfold Rdiv. rewrite Rmult_assoc, Rinv_l by lra. lra.
Qed.

(** X6. A freshly constructed [LayerNorm1d] (weight one, bias zero) maps a
    CPU input of shape [(b, t, num_features)] to the plain normalisation:
    over the reals the affine step changes nothing. *)
Theorem LayerNorm1d_fresh_forward (num_features : nat) (eps : R)
  (inputs : torch.Tensor R) (s : nn.Store R) (b t : nat) :
  torch.size inputs = [b; t; num_features] ->
  torch.is_cuda inputs = false ->
  exists self s' out,
    LayerNorm1d.init num_features eps true s = Ok (self, s') /\
    LayerNorm1d.forward self inputs s' = Ok (out, s') /\
    torch.size out = [b; t; num_features] /\
    forall i j k, (i < b)%nat -> (j < t)%nat -> (k < num_features)%nat ->
      torch.get out [i; j; k] =
      normalized eps (features inputs i j num_features) (torch.get inputs [i; j; k]).
Proof.
  intros Hs Hc.
  destruct (LayerNorm1d_init_store num_features eps s)
    as [(self & s' & Hinit & He & _ & Ha & Hw & Hb & Hrw & Hrb & _) _].
  destruct (proj2 (LayerNorm1d_forward_values self inputs s' b t num_features Hs)
              Ha _ _ _ _ Hw Hb Hrw Hrb eq_refl eq_refl
              (eq_sym Hc) (eq_sym Hc)) as (out & Hf & Hsz & Hv).
  exists self, s', out. split; [exact Hinit|]. split; [exact Hf|].
  split; [exact Hsz|].
  intros i j k Hi Hj Hk. rewrite (Hv i j k Hi Hj Hk), He.
  simpl. ring.
Qed.

End layernorm_reals.

Lemma LayerNorm1d_output_mean_zero_witness :
  exists out,
    LayerNorm1d.forward (LayerNorm1d.mk 1%R 2 false None None)
      (torch.mkTensor [1; 1; 2] false
         (fun idx => match idx with [_; _; k] => INR k | _ => 0%R end))
      empty_store = Ok (out, empty_store) /\
    mean_of (features out 0 0 2) = 0%R.
Proof.
  destruct (proj1 (LayerNorm1d_forward_values
                     (LayerNorm1d.mk 1%R 2 false None None)
                     (torch.mkTensor [1; 1; 2] false
                        (fun idx => match idx with [_; _; k] => INR k | _ => 0%R end))
                     empty_store 1 1 2 eq_refl) eq_refl) as (out & Hf & _).
  exists out. split; [exact Hf|].
  apply (LayerNorm1d_output_mean_zero
           (LayerNorm1d.mk 1%R 2 false None None)
           (torch.mkTensor [1; 1; 2] false
              (fun idx => match idx with [_; _; k] => INR k | _ => 0%R end))
           out empty_store empty_store 1 1 2 0 0 eq_refl
           ltac:(lia) eq_refl ltac:(simpl; lra) Hf); lia.
Defined.

Lemma LayerNorm1d_output_variance_witness :
  exists out,
    LayerNorm1d.forward (LayerNorm1d.mk 1%R 2 false None None)
      (torch.mkTensor [1; 1; 2] false
         (fun idx => match idx with [_; _; k] => INR k | _ => 0%R end))
      empty_store = Ok (out, empty_store) /\
    (0 <= variance_of (features out 0 0 2) < 1)%R.
Proof.
  destruct (proj1 (LayerNorm1d_forward_values
                     (LayerNorm1d.mk 1%R 2 false None None)
                     (torch.mkTensor [1; 1; 2] false
                        (fun idx => match idx with [_; _; k] => INR k | _ => 0%R end))
                     empty_store 1 1 2 eq_refl) eq_refl) as (out & Hf & _).
  exists out. split; [exact Hf|].
  apply (LayerNorm1d_output_variance
           (LayerNorm1d.mk 1%R 2 false None None)
           (torch.mkTensor [1; 1; 2] false
              (fun idx => match idx with [_; _; k] => INR k | _ => 0%R end))
           out empty_store empty_store 1 1 2 0 0 eq_refl
           ltac:(lia) eq_refl ltac:(simpl; lra) Hf); lia.
Defined.

Lemma LayerNorm1d_fresh_forward_witness :
  exists self s' out,
    LayerNorm1d.init 2 1%R true empty_store = Ok (self, s') /\
    LayerNorm1d.forward self
      (torch.mkTensor [1; 1; 2] false (fun _ => 3%R)) s' = Ok (out, s').
Proof.
  destruct (LayerNorm1d_fresh_forward 2 1%R
              (torch.mkTensor [1; 1; 2] false (fun _ => 3%R)) empty_store 1 1
              eq_refl eq_refl) as (self & s' & out & Hi & Hf & _).
  exists self, s', out. split; assumption.
Defined.

(** ** positional_embedding: errors, device and range *)

Section positional_more.
Context {F : Type} `{Float F} {A : Type}.
Implicit Types (x : torch.Tensor A) (mn mx : F).

Lemma positional_embedding_returns_inv x mn mx (t : torch.Tensor F)
  (batch length channels : nat) :
  torch.size x = [batch; length; channels] -> 0 < channels ->
  positional_embedding x mn mx = Ok t ->
  channels mod 2 = 0 /\ 4 <= channels /\
  exists ratio log_ratio,
    truediv mx mn = Ok ratio /\ math.log ratio = Ok log_ratio.
Proof.
  intros Hs Hpos Ht.
  assert (Hev : channels mod 2 = 0).
  { pose proof (Nat.mod_upper_bound channels 2 ltac:(lia)) as Hb.
    destruct (channels mod 2) as [|[|r]] eqn:E; [reflexivity| |lia].
    rewrite (positional_embedding_odd x mn mx _ _ _ Hs E) in Ht. discriminate. }
  assert (Hne : channels <> 2).
  { intros ->. pose proof (positional_embedding_two_fails x mn mx _ _ Hs) as Hf.
    rewrite Ht in Hf. discriminate. }
  assert (Hge : 4 <= channels).
  { pose proof (Nat.div_mod channels 2 ltac:(lia)). lia. }
  split; [exact Hev|]. split; [exact Hge|].
  unfold positional_embedding in Ht. rewrite Hs in Ht. cbv beta iota zeta in Ht.
  rewrite Hev in Ht. change (negb (0 =? 0)) with false in Ht. cbv iota in Ht.
  apply bind_Ok_inv in Ht as (ratio & Hr & Ht).
  apply bind_Ok_inv in Ht as (lr & Hl & Ht).
  eauto.
Qed.

(** X7. Whenever [positional_embedding] returns for an input with at least
    one channel, the result has the shape and the device of the input and
    is the same for every entry of the batch. *)
Theorem positional_embedding_batch_independent x mn mx (t : torch.Tensor F)
  (batch length channels : nat) :
  torch.size x = [batch; length; channels] -> 0 < channels ->
  positional_embedding x mn mx = Ok t ->
  torch.size t = torch.size x /\
  torch.is_cuda t = torch.is_cuda x /\
  forall b1 b2 p c, b1 < batch -> b2 < batch -> p < length -> c < channels ->
    torch.get t [b1; p; c] = torch.get t [b2; p; c].
Proof.
  intros Hs Hpos Ht.
  destruct (positional_embedding_returns_inv x mn mx t _ _ _ Hs Hpos Ht)
    as (Hev & Hge & ratio & lr & Hr & Hl).
  destruct (positional_embedding_even x mn mx _ _ _ _ _ Hs Hev Hge Hr Hl)
    as (t' & Ht' & Hsz & Hcu & Hv).
  rewrite Ht in Ht'. injection Ht' as <-.
  split; [congruence|]. split; [exact Hcu|].
  intros b1 b2 p c Hb1 Hb2 Hp Hc.
  assert (Hn : channels / 2 + channels / 2 = channels).
  { pose proof (Nat.div_mod channels 2 ltac:(lia)). lia. }
  destruct (Nat.lt_ge_cases c (channels / 2)) as [Hlt|Hle].
  - destruct (Hv b1 p c Hb1 Hp Hlt) as [-> _].
    destruct (Hv b2 p c Hb2 Hp Hlt) as [-> _]. reflexivity.
  - assert (Hi : c - channels / 2 < channels / 2) by lia.
    replace c with (channels / 2 + (c - channels / 2)) by lia.
    destruct (Hv b1 p _ Hb1 Hp Hi) as [_ ->].
    destruct (Hv b2 p _ Hb2 Hp Hi) as [_ ->]. reflexivity.
Qed.

(** X8. With an even channel count the timescales are checked before any
    tensor is built: [min_timescale == 0] raises [ZeroDivisionError], and a
    ratio [max_timescale / min_timescale <= 0] raises [ValueError] from
    [math.log]. *)
Theorem positional_embedding_timescale_errors x mn mx
  (batch length channels : nat) :
  torch.size x = [batch; length; channels] -> channels mod 2 = 0 ->
  (feq0 mn = true -> positional_embedding x mn mx = Raise ZeroDivisionError) /\
  (feq0 mn = false -> fle0 (fdiv mx mn) = true ->
   positional_embedding x mn mx = Raise ValueError).
Proof.
  intros Hs Hev. unfold positional_embedding. rewrite Hs. cbv beta iota zeta.
  rewrite Hev. change (negb (0 =? 0)) with false. cbv iota.
  split.
  - intros Hz. unfold truediv at 1. rewrite Hz. reflexivity.
  - intros Hz Hle. unfold truediv at 1. rewrite Hz, bind_Ok.
    unfold math.log. rewrite Hle. reflexivity.
Qed.

(** X9. [positional_embedding] returns a tensor exactly when its argument
    has three dimensions, the channel count is even and not 2,
    [min_timescale] is not zero and the ratio
    [max_timescale / min_timescale] is positive (stated for at least one
    channel); an argument of another rank raises [ValueError] at the
    unpacking of [x.size()]. *)
Theorem positional_embedding_returns_iff x mn mx :
  (length (torch.size x) <> 3 ->
   positional_embedding x mn mx = Raise ValueError) /\
  (forall batch length channels,
     torch.size x = [batch; length; channels] -> 0 < channels ->
     (is_ok (positional_embedding x mn mx) = true <->
      channels mod 2 = 0 /\ channels <> 2 /\
      feq0 mn = false /\ fle0 (fdiv mx mn) = false)).
Proof.
  split.
  - unfold positional_embedding.
    destruct (torch.size x) as [|b [|t [|f [|? ?]]]]; simpl; intros Hr;
      try reflexivity.
    contradiction.
  - intros batch length channels Hs Hpos. split.
    + intros Hok.
      destruct (positional_embedding x mn mx) as [t|e] eqn:Ht; [|discriminate].
      destruct (positional_embedding_returns_inv x mn mx t _ _ _ Hs Hpos Ht)
        as (Hev & Hge & ratio & lr & Hr & Hl).
      split; [exact Hev|]. split; [lia|].
      unfold truediv in Hr. destruct (feq0 mn); [discriminate|].
      injection Hr as <-. split; [reflexivity|].
      unfold math.log in Hl. destruct (fle0 (fdiv mx mn)); [discriminate|].
      reflexivity.
    + intros (Hev & Hne & Hz & Hle).
      assert (Hge : 4 <= channels).
      { pose proof (Nat.div_mod channels 2 ltac:(lia)). lia. }
      assert (Hr : truediv mx mn = Ok (fdiv mx mn)).
      { unfold truediv. rewrite Hz. reflexivity. }
      assert (Hl : math.log (fdiv mx mn) = Ok (flog (fdiv mx mn))).
      { unfold math.log. rewrite Hle. reflexivity. }
      destruct (positional_embedding_even x mn mx _ _ _ _ _ Hs Hev Hge Hr Hl)
        as (t & -> & _). reflexivity.
Qed.

End positional_more.

Section positional_reals.
Local Open Scope R_scope.

(** X10. Over the reals every value of the positional encoding lies in
    [[-1, 1]], and position 0 is encoded as zeros in the sine half and ones
    in the cosine half, whatever the timescales are. *)
Theorem positional_embedding_range {A : Type} (x : torch.Tensor A) (mn mx : R)
  (t : torch.Tensor R) (batch length channels : nat) :
  torch.size x = [batch; length; channels] -> (0 < channels)%nat ->
  positional_embedding x mn mx = Ok t ->
  forall b p c, (b < batch)%nat -> (p < length)%nat -> (c < channels)%nat ->
    -1 <= torch.get t [b; p; c] <= 1 /\
    (p = 0%nat ->
     torch.get t [b; p; c] = if (c <? channels / 2)%nat then 0 else 1).
Proof.
  intros Hs Hpos Ht b p c Hb Hp Hc.
  destruct (positional_embedding_returns_inv x mn mx t _ _ _ Hs Hpos Ht)
    as (Hev & Hge & ratio & lr & Hr & Hl).
  destruct (positional_embedding_even x mn mx _ _ _ _ _ Hs Hev Hge Hr Hl)
    as (t' & Ht' & _ & _ & Hv).
  rewrite Ht in Ht'. injection Ht' as <-.
  assert (Hn : (channels / 2 + channels / 2 = channels)%nat).
  { pose proof (Nat.div_mod channels 2 ltac:(lia)). lia. }
  destruct (Nat.ltb_spec c (channels / 2)) as [Hlt|Hle].
  - destruct (Hv b p c Hb Hp Hlt) as [-> _]. simpl fsin. split.
    + apply SIN_bound.
    + intros ->. simpl. rewrite Rmult_0_l. apply sin_0.
  - assert (Hi : (c - channels / 2 < channels / 2)%nat) by lia.
    replace c with (channels / 2 + (c - channels / 2))%nat by lia.
    destruct (Hv b p _ Hb Hp Hi) as [_ ->]. simpl fcos. split.
    + apply COS_bound.
    + intros ->. simpl. rewrite Rmult_0_l. apply cos_0.
Qed.

End positional_reals.

Lemma positional_embedding_batch_independent_witness :
  exists t,
    positional_embedding (torch.mkTensor [2; 2; 4] false (fun _ => 0%Z)) 1%R 10000%R
      = Ok t /\
    torch.get t [0; 1; 3] = torch.get t [1; 1; 3].
Proof.
  destruct (positional_embedding_even
              (torch.mkTensor [2; 2; 4] false (fun _ => 0%Z)) 1%R 10000%R 2 2 4
              (10000 / 1)%R (ln (10000 / 1)) eq_refl eq_refl (le_n 4)
              (R_truediv_ok 10000%R 1%R ltac:(lra))
              (R_log_ok (10000 / 1)%R ltac:(lra))) as (t & Ht & _).
  exists t. split; [exact Ht|].
  apply (proj2 (proj2 (positional_embedding_batch_independent
                         (torch.mkTensor [2; 2; 4] false (fun _ => 0%Z))
                         1%R 10000%R t 2 2 4 eq_refl ltac:(lia) Ht))); lia.
Defined.

Lemma positional_embedding_timescale_errors_witness :
  positional_embedding (torch.mkTensor [1; 2; 4] false (fun _ => 0%Z)) 0%R 10000%R
    = Raise ZeroDivisionError /\
  positional_embedding (torch.mkTensor [1; 2; 4] false (fun _ => 0%Z)) 1%R (-5)%R
    = Raise ValueError.
Proof.
  split.
  - apply (proj1 (positional_embedding_timescale_errors
                    (torch.mkTensor [1; 2; 4] false (fun _ => 0%Z)) 0%R 10000%R
                    1 2 4 eq_refl eq_refl)).
    simpl. unfold R_feq0. destruct (Req_dec_T 0 0); [reflexivity|contradiction].
  - apply (proj2 (positional_embedding_timescale_errors
                    (torch.mkTensor [1; 2; 4] false (fun _ => 0%Z)) 1%R (-5)%R
                    1 2 4 eq_refl eq_refl)).
    + simpl. unfold R_feq0. destruct (Req_dec_T 1 0); [lra|reflexivity].
    + simpl. unfold R_fle0. destruct (Rle_dec (-5 / 1) 0); [reflexivity|lra].
Defined.

Lemma positional_embedding_returns_iff_witness :
  positional_embedding (torch.mkTensor [2; 4] false (fun _ => 0%Z)) 1%R 10000%R
    = Raise ValueError /\
  is_ok (positional_embedding (torch.mkTensor [1; 2; 4] false (fun _ => 0%Z))
           1%R 10000%R) = true.
Proof.
  split.
  - apply (proj1 (positional_embedding_returns_iff
                    (torch.mkTensor [2; 4] false (fun _ => 0%Z)) 1%R 10000%R)).
    discriminate.
  - apply (proj2 (proj2 (positional_embedding_returns_iff
                    (torch.mkTensor [1; 2; 4] false (fun _ => 0%Z)) 1%R 10000%R)
                   1 2 4 eq_refl ltac:(lia))).
    split; [reflexivity|]. split; [discriminate|]. split.
    + simpl. unfold R_feq0. destruct (Req_dec_T 1 0); [lra|reflexivity].
    + simpl. unfold R_fle0. destruct (Rle_dec (10000 / 1) 0); [lra|reflexivity].
Defined.

Lemma positional_embedding_range_witness :
  exists t,
    positional_embedding (torch.mkTensor [1; 2; 4] false (fun _ => 0%Z)) 1%R 10000%R
      = Ok t /\
    torch.get t [0; 0; 3] = 1%R.
Proof.
  destruct (positional_embedding_even
              (torch.mkTensor [1; 2; 4] false (fun _ => 0%Z)) 1%R 10000%R 1 2 4
              (10000 / 1)%R (ln (10000 / 1)) eq_refl eq_refl (le_n 4)
              (R_truediv_ok 10000%R 1%R ltac:(lra))
              (R_log_ok (10000 / 1)%R ltac:(lra))) as (t & Ht & _).
  exists t. split; [exact Ht|].
  apply (proj2 (positional_embedding_range
                  (torch.mkTensor [1; 2; 4] false (fun _ => 0%Z)) 1%R 10000%R t
                  1 2 4 eq_refl ltac:(lia) Ht 0 0 3 ltac:(lia) ltac:(lia)
                  ltac:(lia)) eq_refl).
Defined.

(** ** The blocks: masks and structure *)

Section blocks_more.
Context {F : Type} `{Float F} `{Framework F}.

Lemma encoder_set_mask_twice (b : EncoderBlock.t F)
  (m1 m2 : option (torch.Tensor bool)) :
  EncoderBlock.set_mask (EncoderBlock.set_mask b m1) m2 = EncoderBlock.set_mask b m2.
Proof. reflexivity. Qed.

(** X11. [DecoderBlock.set_mask(mask, context_mask)] gives [mask] to the
    self-attention as query and key mask; of the attention over the
    encoder context it never touches the query mask, and it sets the key
    mask only when [context_mask] is not [None]: a key mask set by an
    earlier call stays in place when a later call passes [None]. *)
Theorem decoder_set_mask_context (b : DecoderBlock.t F)
  (mask mask' context_mask : option (torch.Tensor bool))
  (c : torch.Tensor bool) :
  let b1 := DecoderBlock.set_mask b mask context_mask in
  MultiHeadAttention.mask_q (DecoderBlock.masked_attention b1) = mask /\
  MultiHeadAttention.mask_k (DecoderBlock.masked_attention b1) = mask /\
  MultiHeadAttention.mask_q (DecoderBlock.attention b1) =
    MultiHeadAttention.mask_q (DecoderBlock.attention b) /\
  MultiHeadAttention.mask_k (DecoderBlock.attention b1) =
    match context_mask with
    | Some _ => context_mask
    | None => MultiHeadAttention.mask_k (DecoderBlock.attention b)
    end /\
  MultiHeadAttention.mask_k
    (DecoderBlock.attention
       (DecoderBlock.set_mask (DecoderBlock.set_mask b mask (Some c)) mask' None))
    = Some c.
Proof.
  cbv zeta. destruct context_mask; repeat split; reflexivity.
Qed.

Lemma linear_init_fields (in_features out_features : nat) (s s' : nn.Store F)
  (l : nn.Linear.t) :
  Linear_init in_features out_features s = Ok (l, s') ->
  nn.Linear.in_features l = in_features /\
  nn.Linear.out_features l = out_features /\
  nn.Linear.weight l = nn.next_param s /\
  nn.Linear.bias l = S (nn.next_param s) /\
  nn.next_param s' = S (S (nn.next_param s)).
Proof.
  unfold Linear_init, fresh_tensor, nn.new_parameter, state.bind, state.ret.
  intros [= <- <-]. simpl. auto.
Qed.

Lemma encoder_block_init_fields hidden_size num_heads inner_linear
  (weight_norm : bool) (dropout : F) (s s' : nn.Store F) (blk : EncoderBlock.t F) :
  EncoderBlock.init hidden_size num_heads inner_linear weight_norm dropout s
    = Ok (blk, s') ->
  MultiHeadAttention.causal (EncoderBlock.attention blk) = false /\
  MultiHeadAttention.mask_q (EncoderBlock.attention blk) = None /\
  MultiHeadAttention.mask_k (EncoderBlock.attention blk) = None /\
  EncoderBlock.dropout blk = nn.Dropout.mk dropout false /\
  (weight_norm = false ->
     exists ln1 ln2 l1 l2,
       EncoderBlock.lnorm1 blk = Some ln1 /\ EncoderBlock.lnorm2 blk = Some ln2 /\
       Forall (fun ln => LayerNorm1d.num_features ln = hidden_size /\
                         LayerNorm1d.affine ln = true) [ln1; ln2] /\
       EncoderBlock.fc blk =
         [Sequential.LinearLayer l1; Sequential.ReLULayer true;
          Sequential.DropoutLayer (nn.Dropout.mk dropout false);
          Sequential.LinearLayer l2] /\
       nn.Linear.in_features l1 = hidden_size /\
       nn.Linear.out_features l1 = inner_linear /\
       nn.Linear.in_features l2 = inner_linear /\
       nn.Linear.out_features l2 = hidden_size) /\
  (weight_norm = true ->
     EncoderBlock.lnorm1 blk = None /\ EncoderBlock.lnorm2 blk = None /\
     exists w1 w2,
       EncoderBlock.fc blk =
         [Sequential.WeightNormLayer w1; Sequential.ReLULayer true;
          Sequential.DropoutLayer (nn.Dropout.mk dropout false);
          Sequential.WeightNormLayer w2]).
Proof.
  unfold EncoderBlock.init. intros Hi.
  state_inv Hi. rename a into lnorms, Hstep into Hln.
  state_inv Hi. rename a into att, Hstep into Hatt.
  state_inv Hi. rename a into lin1, Hstep into Hl1.
  state_inv Hi. rename a into fc1, Hstep into Hf1.
  state_inv Hi. rename a into lin2, Hstep into Hl2.
  state_inv Hi. rename a into fc2, Hstep into Hf2.
  apply state_ret_inv in Hi as [-> _]. simpl.
  apply attention_init_fields in Hatt as (Hc & Hq & Hk).
  apply linear_init_fields in Hl1 as (Hi1 & Ho1 & _).
  apply linear_init_fields in Hl2 as (Hi2 & Ho2 & _).
  split; [exact Hc|]. split; [exact Hq|]. split; [exact Hk|].
  split; [reflexivity|]. split.
  - intros ->. simpl in Hln, Hf1, Hf2.
    state_inv Hln. rename a into ln1, Hstep into Hn1.
    state_inv Hln. rename a into ln2, Hstep into Hn2.
    apply state_ret_inv in Hln as [-> _].
    apply state_ret_inv in Hf1 as [-> _].
    apply state_ret_inv in Hf2 as [-> _]. simpl.
    apply layernorm_init_fields in Hn1 as (Hf1 & _ & Ha1).
    apply layernorm_init_fields in Hn2 as (Hf2 & _ & Ha2).
    exists ln1, ln2, lin1, lin2.
    repeat (split; [reflexivity|]).
    split; [repeat constructor; assumption|]. auto.
  - intros ->. simpl in Hln, Hf1, Hf2.
    apply state_ret_inv in Hln as [-> _].
    state_inv Hf1. apply state_ret_inv in Hf1 as [-> _].
    state_inv Hf2. apply state_ret_inv in Hf2 as [-> _]. simpl.
    split; [reflexivity|]. split; [reflexivity|]. eauto.
Qed.



End blocks_more.


(** ** Encoder and decoder: construction and forward passes *)

Section replicate_lemmas.
Context {St A : Type}.

Lemma replicateM_length (n : nat) (m : state.M St A) (s s' : St) (l : list A) :
  state.replicateM n m s = Ok (l, s') -> length l = n.
Proof.
  revert s s' l. induction n as [|n IH]; intros s s' l Hr; simpl in Hr.
  - apply state_ret_inv in Hr as [-> _]. reflexivity.
  - state_inv Hr. state_inv Hr. apply state_ret_inv in Hr as [-> _].
    simpl. f_equal. eapply IH. eassumption.
Qed.

Lemma replicateM_Forall (P : A -> Prop) (n : nat) (m : state.M St A)
  (s s' : St) (l : list A) :
  (forall s1 a s2, m s1 = Ok (a, s2) -> P a) ->
  state.replicateM n m s = Ok (l, s') -> Forall P l.
Proof.
  intros HP. revert s s' l. induction n as [|n IH]; intros s s' l Hr; simpl in Hr.
  - apply state_ret_inv in Hr as [-> _]. constructor.
  - state_inv Hr. state_inv Hr. apply state_ret_inv in Hr as [-> _].
    constructor; [eapply HP; eassumption | eapply IH; eassumption].
Qed.

End replicate_lemmas.

Section coders_more.
Context {F : Type} `{Float F} `{Framework F} `{Config}.

Lemma embedding_init_fields (num_embeddings embedding_dim : nat) (padding_idx : Z)
  (s s' : nn.Store F) (e : nn.Embedding.t) :
  Embedding_init num_embeddings embedding_dim padding_idx s = Ok (e, s') ->
  e = nn.Embedding.mk num_embeddings embedding_dim padding_idx (nn.next_param s) /\
  nn.next_param s' = S (nn.next_param s).
Proof.
  unfold Embedding_init, fresh_tensor, nn.new_parameter, state.bind, state.ret.
  intros [= <- <-]. simpl. auto.
Qed.

Lemma encoder_init_fields (vocab_size hidden_size : nat)
  (embedding_size : option nat) (num_layers num_heads inner_linear : nat)
  (mask_symbol : option Z) (weight_norm : bool) (dropout : F)
  (s s' : nn.Store F) (enc : TransformerAttentionEncoder.t F) :
  TransformerAttentionEncoder.init vocab_size hidden_size embedding_size
    num_layers num_heads inner_linear mask_symbol weight_norm dropout s
    = Ok (enc, s') ->
  length (TransformerAttentionEncoder.blocks enc) = num_layers /\
  Forall (fun b =>
            MultiHeadAttention.causal (EncoderBlock.attention b) = false /\
            MultiHeadAttention.mask_q (EncoderBlock.attention b) = None /\
            MultiHeadAttention.mask_k (EncoderBlock.attention b) = None)
         (TransformerAttentionEncoder.blocks enc) /\
  TransformerAttentionEncoder.embedder enc =
    nn.Embedding.mk vocab_size
      (match embedding_size with
       | Some 0 | None => hidden_size
       | Some e => e
       end) PAD (nn.next_param s) /\
  TransformerAttentionEncoder.mask_symbol enc = mask_symbol /\
  TransformerAttentionEncoder.batch_first enc = true /\
  TransformerAttentionEncoder.hidden_size enc = hidden_size /\
  TransformerAttentionEncoder.dropout enc = nn.Dropout.mk dropout true.
Proof.
  unfold TransformerAttentionEncoder.init. cbv zeta. intros Hi.
  state_inv Hi. rename Hstep into He.
  state_inv Hi. rename Hstep into Hb.
  apply state_ret_inv in Hi as [-> _]. simpl.
  apply embedding_init_fields in He as [-> _].
  split; [eapply replicateM_length; eassumption|].
  split.
  - eapply replicateM_Forall; [|eassumption].
    intros st1 b st2 Hinit.
    apply encoder_block_init_fields in Hinit as (Ha & Hq & Hk & _). auto.
  - split; [|auto]. unfold size_or. destruct embedding_size as [[|e]|]; reflexivity.
Qed.

(** X13. A constructed encoder has exactly [num_layers] blocks, each with a
    non-causal attention and no masks yet; its embedding has [vocab_size]
    rows of [embedding_size] columns, or of [hidden_size] columns when
    [embedding_size] is [None] or 0, and pads at [PAD]; the mask symbol is
    the one given and its dropout is in place. *)
Theorem encoder_init_structure (vocab_size hidden_size : nat)
  (embedding_size : option nat) (num_layers num_heads inner_linear : nat)
  (mask_symbol : option Z) (weight_norm : bool) (dropout : F)
  (s s' : nn.Store F) (enc : TransformerAttentionEncoder.t F) :
  TransformerAttentionEncoder.init vocab_size hidden_size embedding_size
    num_layers num_heads inner_linear mask_symbol weight_norm dropout s
    = Ok (enc, s') ->
  length (TransformerAttentionEncoder.blocks enc) = num_layers /\
  Forall (fun b =>
            MultiHeadAttention.causal (EncoderBlock.attention b) = false /\
            MultiHeadAttention.mask_q (EncoderBlock.attention b) = None /\
            MultiHeadAttention.mask_k (EncoderBlock.attention b) = None)
         (TransformerAttentionEncoder.blocks enc) /\
  TransformerAttentionEncoder.embedder enc =
    nn.Embedding.mk vocab_size
      (match embedding_size with
       | Some 0 | None => hidden_size
       | Some e => e
       end) PAD (nn.next_param s) /\
  TransformerAttentionEncoder.mask_symbol enc = mask_symbol /\
  TransformerAttentionEncoder.batch_first enc = true /\
  TransformerAttentionEncoder.hidden_size enc = hidden_size /\
  TransformerAttentionEncoder.dropout enc = nn.Dropout.mk dropout true.
Proof. apply encoder_init_fields. Qed.

Lemma decoder_init_fields (vocab_size hidden_size : nat)
  (embedding_size : option nat) (num_layers num_heads : nat) (dropout : F)
  (inner_linear : nat) (mask_symbol : option Z) (tie_embedding weight_norm : bool)
  (s s' : nn.Store F) (dec : TransformerAttentionDecoder.t F) :
  TransformerAttentionDecoder.init vocab_size hidden_size embedding_size
    num_layers num_heads dropout inner_linear mask_symbol tie_embedding
    weight_norm s = Ok (dec, s') ->
  length (TransformerAttentionDecoder.blocks dec) = num_layers /\
  Forall (fun b =>
            MultiHeadAttention.causal (DecoderBlock.masked_attention b) = true /\
            MultiHeadAttention.causal (DecoderBlock.attention b) = false)
         (TransformerAttentionDecoder.blocks dec) /\
  nn.Linear.in_features (TransformerAttentionDecoder.classifier dec) = hidden_size /\
  nn.Linear.out_features (TransformerAttentionDecoder.classifier dec) = vocab_size /\
  nn.Embedding.num_embeddings (TransformerAttentionDecoder.embedder dec)
    = vocab_size /\
  nn.Embedding.padding_idx (TransformerAttentionDecoder.embedder dec) = PAD /\
  TransformerAttentionDecoder.mask_symbol dec = mask_symbol /\
  (tie_embedding = false ->
   nn.Embedding.weight (TransformerAttentionDecoder.embedder dec)
     = nn.next_param s).
Proof.
  unfold TransformerAttentionDecoder.init. cbv zeta. intros Hi.
  state_inv Hi. rename Hstep into He.
  state_inv Hi. rename Hstep into Hb.
  state_inv Hi. rename Hstep into Hc.
  apply state_ret_inv in Hi as [-> _]. simpl.
  apply embedding_init_fields in He as [-> _].
  apply linear_init_fields in Hc as (Hin & Hout & _).
  split; [eapply replicateM_length; eassumption|].
  split.
  - eapply replicateM_Forall; [|eassumption].
    intros st1 b st2 Hinit.
    apply decoder_block_init_fields in Hinit as (Ha & Hq & _). auto.
  - split; [exact Hin|]. split; [exact Hout|].
    destruct tie_embedding; simpl; repeat split; try reflexivity; discriminate.
Qed.

(** X14. A constructed decoder has exactly [num_layers] blocks, each with a
    causal self-attention and a non-causal attention over the context; its
    classifier maps [hidden_size] features to [vocab_size] scores and its
    embedding has [vocab_size] rows; without [tie_embedding] the embedding
    keeps the parameter it was created with. *)
Theorem decoder_init_structure (vocab_size hidden_size : nat)
  (embedding_size : option nat) (num_layers num_heads : nat) (dropout : F)
  (inner_linear : nat) (mask_symbol : option Z) (tie_embedding weight_norm : bool)
  (s s' : nn.Store F) (dec : TransformerAttentionDecoder.t F) :
  TransformerAttentionDecoder.init vocab_size hidden_size embedding_size
    num_layers num_heads dropout inner_linear mask_symbol tie_embedding
    weight_norm s = Ok (dec, s') ->
  length (TransformerAttentionDecoder.blocks dec) = num_layers /\
  Forall (fun b =>
            MultiHeadAttention.causal (DecoderBlock.masked_attention b) = true /\
            MultiHeadAttention.causal (DecoderBlock.attention b) = false)
         (TransformerAttentionDecoder.blocks dec) /\
  nn.Linear.in_features (TransformerAttentionDecoder.classifier dec) = hidden_size /\
  nn.Linear.out_features (TransformerAttentionDecoder.classifier dec) = vocab_size /\
  nn.Embedding.num_embeddings (TransformerAttentionDecoder.embedder dec)
    = vocab_size /\
  nn.Embedding.padding_idx (TransformerAttentionDecoder.embedder dec) = PAD /\
  TransformerAttentionDecoder.mask_symbol dec = mask_symbol /\
  (tie_embedding = false ->
   nn.Embedding.weight (TransformerAttentionDecoder.embedder dec)
     = nn.next_param s).
Proof. apply decoder_init_fields. Qed.

End coders_more.

Section forward_more.
Context {F : Type} `{Float F} `{Framework F} `{Config}.

(** X15. An encoder whose embeddings have an odd number of channels cannot
    run: once the embedding has been computed the forward pass raises the
    [AssertionError] of [positional_embedding], and no state is returned. *)
Theorem encoder_forward_odd_embedding (self : TransformerAttentionEncoder.t F)
  (inputs : torch.Tensor Z) (s s1 : nn.Store F) (x : torch.Tensor F)
  (b t c : nat) :
  embedding_forward (TransformerAttentionEncoder.embedder self) inputs s
    = Ok (x, s1) ->
  torch.size x = [b; t; c] -> c mod 2 = 1 ->
  TransformerAttentionEncoder.forward self inputs s = Raise AssertionError.
Proof.
  intros He Hs Hodd. unfold TransformerAttentionEncoder.forward.
  rewrite (state_bind_Ok _ _ s s1 x He).
  rewrite (positional_embedding_odd _ _ _ b t c); [reflexivity|exact Hs|exact Hodd].
Qed.

Lemma encoder_forward_blocks (self self' : TransformerAttentionEncoder.t F)
  (inputs : torch.Tensor Z) (st : State.t F) (s s' : nn.Store F) :
  TransformerAttentionEncoder.forward self inputs s = Ok ((st, self'), s') ->
  let padding_mask :=
    match TransformerAttentionEncoder.mask_symbol self with
    | Some m => Some (torch.eq inputs m)
    | None => None
    end in
  State.mask st = padding_mask /\
  self' = TransformerAttentionEncoder.set_blocks self
            (List.map (fun b => EncoderBlock.set_mask b padding_mask)
                      (TransformerAttentionEncoder.blocks self)).
Proof.
  intros Hf padding_mask. unfold TransformerAttentionEncoder.forward in Hf.
  fold padding_mask in Hf.
  do 5 state_inv Hf. destruct a3 as [y blocks'].
  apply state_ret_inv in Hf as [[= -> ->] ->]. simpl.
  pose proof (run_blocks_masks _ _ _ _ _ _ _ Hstep3) as Hb. subst blocks'.
  split; reflexivity.
Qed.

(** X16. The masks of the encoder's blocks are those of the latest
    forward pass: after a second pass the encoder is what the second pass
    alone would have left of the original one, and the returned [State]
    carries the mask of the second input. *)
Theorem encoder_forward_twice (self self1 self2 : TransformerAttentionEncoder.t F)
  (inputs1 inputs2 : torch.Tensor Z) (st1 st2 : State.t F)
  (s s1 s2 : nn.Store F) :
  TransformerAttentionEncoder.forward self inputs1 s = Ok ((st1, self1), s1) ->
  TransformerAttentionEncoder.forward self1 inputs2 s1 = Ok ((st2, self2), s2) ->
  let padding_mask2 :=
    match TransformerAttentionEncoder.mask_symbol self with
    | Some m => Some (torch.eq inputs2 m)
    | None => None
    end in
  State.mask st2 = padding_mask2 /\
  self2 = TransformerAttentionEncoder.set_blocks self
            (List.map (fun b => EncoderBlock.set_mask b padding_mask2)
                      (TransformerAttentionEncoder.blocks self)).
Proof.
  intros Hf1 Hf2 padding_mask2.
  apply encoder_forward_blocks in Hf1 as [_ ->].
  apply encoder_forward_blocks in Hf2 as [Hm ->]. simpl in *.
  split; [exact Hm|].
  unfold TransformerAttentionEncoder.set_blocks. simpl.
  rewrite List.map_map. reflexivity.
Qed.

Lemma decoder_run_blocks_spec (padding_mask : option (torch.Tensor bool))
  (context : State.t F) (get_attention : bool)
  (blocks blocks' : list (DecoderBlock.t F)) (x y : torch.Tensor F)
  (acc scores : list (torch.Tensor F)) (s s' : nn.Store F) :
  TransformerAttentionDecoder.run_blocks padding_mask context get_attention
    blocks x acc s = Ok ((y, scores, blocks'), s') ->
  blocks' = List.map (fun b => DecoderBlock.set_mask b padding_mask
                                 (State.mask context)) blocks /\
  exists new, scores = acc ++ new /\
              length new = if get_attention then length blocks else 0.
Proof.
  revert blocks' x y acc scores s s'.
  induction blocks as [|b rest IH]; intros blocks' x y acc scores s s' Hr;
    simpl in Hr.
  - apply state_ret_inv in Hr as [[= -> -> ->] _]. split; [reflexivity|].
    exists []. rewrite app_nil_r. destruct get_attention; auto.
  - state_inv Hr. state_inv Hr. destruct a0 as [[y1 sc1] rest'].
    apply state_ret_inv in Hr as [[= -> -> ->] _]. simpl in Hstep0.
    apply IH in Hstep0 as (-> & new & -> & Hlen).
    split; [reflexivity|].
    destruct get_attention.
    + exists (snd a :: new). rewrite <- app_assoc. simpl. auto.
    + exists new. simpl. auto.
Qed.

(** X17. A forward pass of the decoder that returns leaves the encoder
    context of the state as it was; without [get_attention] the state is
    returned unchanged, and with it [attention_score] holds one score per
    block; every block leaves the pass with its masks set from the padding
    mask of the input and the mask of the context. *)
Theorem decoder_forward_state (self self' : TransformerAttentionDecoder.t F)
  (inputs : torch.Tensor Z) (state state' : DecoderState.t F)
  (get_attention : bool) (x : torch.Tensor F) (s s' : nn.Store F) :
  TransformerAttentionDecoder.forward self inputs state get_attention s
    = Ok ((x, state', self'), s') ->
  let padding_mask :=
    match TransformerAttentionDecoder.mask_symbol self with
    | Some m => Some (torch.eq inputs m)
    | None => None
    end in
  DecoderState.context state' = DecoderState.context state /\
  (get_attention = false -> state' = state) /\
  (get_attention = true ->
   exists scores, DecoderState.attention_score state' = Some scores /\
                  length scores = length (TransformerAttentionDecoder.blocks self)) /\
  TransformerAttentionDecoder.blocks self' =
    List.map (fun b => DecoderBlock.set_mask b padding_mask
                         (State.mask (DecoderState.context state)))
             (TransformerAttentionDecoder.blocks self).
Proof.
  intros Hf padding_mask. unfold TransformerAttentionDecoder.forward in Hf.
  fold padding_mask in Hf.
  do 6 state_inv Hf. destruct a3 as [[y scores] blocks'].
  apply state_ret_inv in Hf as [[= -> -> ->] ->]. simpl.
  apply decoder_run_blocks_spec in Hstep3 as (-> & new & -> & Hlen).
  destruct get_attention; simpl.
  - split; [reflexivity|]. split; [discriminate|]. split; [eauto|reflexivity].
  - split; [reflexivity|]. split; [reflexivity|]. split; [discriminate|reflexivity].
Qed.

(** X18. When the context carries no mask, a forward pass of the decoder
    does not reset the key masks of the attention over the context: every
    block keeps the key mask it had before the pass. *)
Theorem decoder_forward_keeps_context_mask
  (self self' : TransformerAttentionDecoder.t F)
  (inputs : torch.Tensor Z) (state state' : DecoderState.t F)
  (get_attention : bool) (x : torch.Tensor F) (s s' : nn.Store F) :
  TransformerAttentionDecoder.forward self inputs state get_attention s
    = Ok ((x, state', self'), s') ->
  State.mask (DecoderState.context state) = None ->
  List.map (fun b => MultiHeadAttention.mask_k (DecoderBlock.attention b))
           (TransformerAttentionDecoder.blocks self') =
  List.map (fun b => MultiHeadAttention.mask_k (DecoderBlock.attention b))
           (TransformerAttentionDecoder.blocks self).
Proof.
  intros Hf Hnone. unfold TransformerAttentionDecoder.forward in Hf.
  do 6 state_inv Hf. destruct a3 as [[y scores] blocks'].
  apply state_ret_inv in Hf as [[= -> -> ->] ->]. simpl.
  apply decoder_run_blocks_spec in Hstep3 as (-> & _).
  rewrite List.map_map. apply List.map_ext. intros b.
  rewrite Hnone. reflexivity.
Qed.

End forward_more.

Lemma encoder_init_structure_witness :
  exists (enc : TransformerAttentionEncoder.t R) (s' : nn.Store R),
    TransformerAttentionEncoder.init 10 4 None 2 1 8 (Some 0%Z) false 0%R
      empty_store = Ok (enc, s') /\
    length (TransformerAttentionEncoder.blocks enc) = 2.
Proof.
  assert (Hok : is_ok (TransformerAttentionEncoder.init 10 4 None 2 1 8
                         (Some 0%Z) false 0%R empty_store) = true)
    by (vm_compute; reflexivity).
  destruct (TransformerAttentionEncoder.init 10 4 None 2 1 8 (Some 0%Z) false
              0%R empty_store) as [[enc s']|e] eqn:E; [|discriminate].
  exists enc, s'. split; [reflexivity|].
  exact (proj1 (encoder_init_structure _ _ _ _ _ _ _ _ _ _ _ _ E)).
Defined.

Lemma decoder_init_structure_witness :
  exists (dec : TransformerAttentionDecoder.t R) (s' : nn.Store R),
    TransformerAttentionDecoder.init 10 4 None 2 1 0%R 8 (Some 0%Z) false false
      empty_store = Ok (dec, s') /\
    length (TransformerAttentionDecoder.blocks dec) = 2.
Proof.
  assert (Hok : is_ok (TransformerAttentionDecoder.init 10 4 None 2 1 0%R 8
                         (Some 0%Z) false false empty_store) = true)
    by (vm_compute; reflexivity).
  destruct (TransformerAttentionDecoder.init 10 4 None 2 1 0%R 8 (Some 0%Z)
              false false empty_store) as [[dec s']|e] eqn:E; [|discriminate].
  exists dec, s'. split; [reflexivity|].
  exact (proj1 (decoder_init_structure _ _ _ _ _ _ _ _ _ _ _ _ _ E)).
Defined.

Lemma encoder_forward_odd_embedding_witness :
  TransformerAttentionEncoder.forward example_odd_encoder example_inputs empty_store
    = Raise AssertionError.
Proof.
  apply (encoder_forward_odd_embedding example_odd_encoder example_inputs
           empty_store empty_store
           (torch.mkTensor [1; 2; 3] false (fun _ => 0%R)) 1 2 3);
    reflexivity.
Defined.

(** The example encoder returns on the example input, whatever mask its
    block holds and whatever the store is. *)
Lemma example_encoder_forward_any (m : option (torch.Tensor bool)) (s : nn.Store R) :
  exists st self',
    TransformerAttentionEncoder.forward
      (TransformerAttentionEncoder.set_blocks example_encoder
         [EncoderBlock.set_mask example_block m]) example_inputs s
      = Ok ((st, self'), s).
Proof.
  unfold TransformerAttentionEncoder.forward.
  rewrite (state_bind_Ok _ _ s s _ eq_refl).
  set (x := torch.mul_ _ _).
  destruct (positional_embedding_even x 1%R 10000%R 1 2 4 (10000 / 1)%R
              (ln (10000 / 1)) eq_refl eq_refl (le_n 4)
              (R_truediv_ok 10000%R 1%R ltac:(lra))
              (R_log_ok (10000 / 1)%R ltac:(lra)))
    as (pe & Hpe & Hsz & Hcuda & _).
  change (of_Z 1) with 1%R. change (of_Z 10000) with 10000%R.
  rewrite Hpe, state_bind_lift_Ok.
  unfold torch.add. rewrite pointwise_ok by (rewrite ?Hsz, ?Hcuda; reflexivity).
  rewrite state_bind_lift_Ok.
  eexists. eexists. reflexivity.
Qed.

Lemma encoder_forward_twice_witness :
  exists st1 self1 st2 self2,
    TransformerAttentionEncoder.forward example_encoder example_inputs empty_store
      = Ok ((st1, self1), empty_store) /\
    TransformerAttentionEncoder.forward self1
      (torch.mkTensor [1; 2] false (fun _ => 0%Z)) empty_store
      = Ok ((st2, self2), empty_store) /\
    State.mask st2 = Some (torch.eq (torch.mkTensor [1; 2] false (fun _ => 0%Z)) 0).
Proof.
  destruct (example_encoder_forward_any None empty_store) as (st1 & self1 & E1).
  change (TransformerAttentionEncoder.set_blocks example_encoder
            [EncoderBlock.set_mask example_block None]) with example_encoder in E1.
  pose proof (proj2 (encoder_forward_blocks _ _ _ _ _ _ E1)) as Hself1.
  simpl in Hself1.
  assert (E2 : exists st2 self2,
             TransformerAttentionEncoder.forward self1
               (torch.mkTensor [1; 2] false (fun _ => 0%Z)) empty_store
             = Ok ((st2, self2), empty_store)).
  { rewrite Hself1.
    unfold TransformerAttentionEncoder.forward.
    rewrite (state_bind_Ok _ _ empty_store empty_store _ eq_refl).
    set (x := torch.mul_ _ _).
    destruct (positional_embedding_even x 1%R 10000%R 1 2 4 (10000 / 1)%R
                (ln (10000 / 1)) eq_refl eq_refl (le_n 4)
                (R_truediv_ok 10000%R 1%R ltac:(lra))
                (R_log_ok (10000 / 1)%R ltac:(lra)))
      as (pe & Hpe & Hsz & Hcuda & _).
    change (of_Z 1) with 1%R. change (of_Z 10000) with 10000%R.
    rewrite Hpe, state_bind_lift_Ok.
    unfold torch.add. rewrite pointwise_ok by (rewrite ?Hsz, ?Hcuda; reflexivity).
    rewrite state_bind_lift_Ok.
    eexists. eexists. reflexivity. }
  destruct E2 as (st2 & self2 & E2).
  exists st1, self1, st2, self2. split; [exact E1|]. split; [exact E2|].
  exact (proj1 (encoder_forward_twice _ _ _ _ _ _ _ _ _ _ E1 E2)).
Defined.

Lemma example_decoder_forward_returns (get_attention : bool) :
  exists x state' self' s',
    TransformerAttentionDecoder.forward example_decoder example_inputs
      example_decoder_state get_attention empty_store
      = Ok ((x, state', self'), s').
Proof.
  unfold TransformerAttentionDecoder.forward.
  rewrite (state_bind_Ok _ _ empty_store empty_store _ eq_refl).
  set (x := torch.mul_ _ _).
  destruct (positional_embedding_even x 1%R 10000%R 1 2 4 (10000 / 1)%R
              (ln (10000 / 1)) eq_refl eq_refl (le_n 4)
              (R_truediv_ok 10000%R 1%R ltac:(lra))
              (R_log_ok (10000 / 1)%R ltac:(lra)))
    as (pe & Hpe & Hsz & Hcuda & _).
  change (of_Z 1) with 1%R. change (of_Z 10000) with 10000%R.
  rewrite Hpe, state_bind_lift_Ok.
  unfold torch.add. rewrite pointwise_ok by (rewrite ?Hsz, ?Hcuda; reflexivity).
  rewrite state_bind_lift_Ok.
  eexists. eexists. eexists. eexists. reflexivity.
Qed.

Lemma decoder_forward_state_witness :
  exists x state' self' s' scores,
    TransformerAttentionDecoder.forward example_decoder example_inputs
      example_decoder_state true empty_store = Ok ((x, state', self'), s') /\
    DecoderState.attention_score state' = Some scores /\
    length scores = 1.
Proof.
  destruct (example_decoder_forward_returns true) as (x & state' & self' & s' & E).
  destruct (proj1 (proj2 (proj2 (decoder_forward_state _ _ _ _ _ _ _ _ _ E)))
              eq_refl) as (scores & Hsc & Hlen).
  exists x, state', self', s', scores. split; [exact E|]. split; assumption.
Defined.

Lemma example_masked_decoder_forward_returns :
  exists x state' self' s',
    TransformerAttentionDecoder.forward example_masked_decoder example_inputs
      example_decoder_state false empty_store
      = Ok ((x, state', self'), s').
Proof.
  unfold TransformerAttentionDecoder.forward.
  rewrite (state_bind_Ok _ _ empty_store empty_store _ eq_refl).
  set (x := torch.mul_ _ _).
  destruct (positional_embedding_even x 1%R 10000%R 1 2 4 (10000 / 1)%R
              (ln (10000 / 1)) eq_refl eq_refl (le_n 4)
              (R_truediv_ok 10000%R 1%R ltac:(lra))
              (R_log_ok (10000 / 1)%R ltac:(lra)))
    as (pe & Hpe & Hsz & Hcuda & _).
  change (of_Z 1) with 1%R. change (of_Z 10000) with 10000%R.
  rewrite Hpe, state_bind_lift_Ok.
  unfold torch.add. rewrite pointwise_ok by (rewrite ?Hsz, ?Hcuda; reflexivity).
  rewrite state_bind_lift_Ok.
  eexists. eexists. eexists. eexists. reflexivity.
Qed.

Lemma decoder_forward_keeps_context_mask_witness :
  exists x state' self' s',
    TransformerAttentionDecoder.forward example_masked_decoder example_inputs
      example_decoder_state false empty_store = Ok ((x, state', self'), s') /\
    List.map (fun b => MultiHeadAttention.mask_k (DecoderBlock.attention b))
             (TransformerAttentionDecoder.blocks self')
      = [Some example_context_mask].
Proof.
  destruct example_masked_decoder_forward_returns as (x & state' & self' & s' & E).
  exists x, state', self', s'. split; [exact E|].
  exact (decoder_forward_keeps_context_mask _ _ _ _ _ _ _ _ _ E eq_refl).
Defined.

(** ** Transformer: the option dictionaries, and untied parameters *)

Section transformer_more.
Context {F : Type} `{Float F} `{Framework F} `{Config}.

Lemma setdefault_keeps (k k' : string) (v v' : pyval F) (d : gmap string (pyval F)) :
  d !! k = Some v -> setdefault k' v' d !! k = Some v.
Proof.
  intros Hk. unfold setdefault. destruct (d !! k') eqn:E; [exact Hk|].
  rewrite lookup_insert_ne; [exact Hk|]. intros ->. congruence.
Qed.

Lemma check_keys_unknown (allowed : list string) (k : string) (v : pyval F)
  (d : gmap string (pyval F)) :
  d !! k = Some v -> k ∉ allowed -> check_keys allowed d = Raise TypeError.
Proof.
  intros Hk Hnot. unfold check_keys.
  rewrite bool_decide_eq_false_2; [reflexivity|].
  intros Hsub. apply Hnot.
  assert (Hin : k ∈ dom d) by (apply elem_of_dom; eauto).
  apply Hsub in Hin. apply elem_of_list_to_set in Hin. exact Hin.
Qed.

Lemma encoder_call_layers (kwargs : gmap string (pyval F)) (s s' : nn.Store F)
  (enc : TransformerAttentionEncoder.t F) :
  TransformerAttentionEncoder.call kwargs s = Ok (enc, s') ->
  range_length (optional "num_layers" (PyInt 6) kwargs)
    = Ok (length (TransformerAttentionEncoder.blocks enc)).
Proof.
  unfold TransformerAttentionEncoder.call. intros Hc.
  do 9 state_inv Hc.
  apply state_lift_inv in Hstep3 as [Hn _].
  apply encoder_init_fields in Hc as (Hlen & _).
  rewrite Hn, Hlen. reflexivity.
Qed.

Lemma decoder_call_layers (kwargs : gmap string (pyval F)) (s s' : nn.Store F)
  (dec : TransformerAttentionDecoder.t F) :
  TransformerAttentionDecoder.call kwargs s = Ok (dec, s') ->
  range_length (optional "num_layers" (PyInt 6) kwargs)
    = Ok (length (TransformerAttentionDecoder.blocks dec)).
Proof.
  unfold TransformerAttentionDecoder.call. intros Hc.
  do 9 state_inv Hc.
  apply state_lift_inv in Hstep3 as [Hn _].
  apply decoder_init_fields in Hc as (Hlen & _).
  rewrite Hn, Hlen. reflexivity.
Qed.

(** X19. An option given in the [encoder] or [decoder] dictionary takes
    precedence over the argument of [Transformer]: the encoder and the
    decoder have as many blocks as [range] of the [num_layers] entry of
    their own dictionary has elements (none for a negative entry), and
    [num_layers] blocks when it has no such entry. *)
Theorem transformer_options_precedence (vocab_size hidden_size : nat)
  (embedding_size : option nat) (num_layers num_heads inner_linear : nat)
  (dropout : F) (tie_embedding : bool)
  (encoder decoder : option (gmap string (pyval F))) (weight_norm : bool)
  (s s' : nn.Store F) (m : Transformer.t F) :
  Transformer.init vocab_size hidden_size embedding_size num_layers num_heads
    inner_linear dropout tie_embedding encoder decoder weight_norm s
    = Ok (m, s') ->
  (forall z, default ∅ encoder !! "num_layers" = Some (PyInt z) ->
   length (TransformerAttentionEncoder.blocks (Transformer.encoder m)) = Z.to_nat z) /\
  (forall z, default ∅ decoder !! "num_layers" = Some (PyInt z) ->
   length (TransformerAttentionDecoder.blocks (Transformer.decoder m)) = Z.to_nat z) /\
  (default ∅ encoder !! "num_layers" = None ->
   length (TransformerAttentionEncoder.blocks (Transformer.encoder m)) = num_layers) /\
  (default ∅ decoder !! "num_layers" = None ->
   length (TransformerAttentionDecoder.blocks (Transformer.decoder m)) = num_layers).
Proof.
  intros Hinit. unfold Transformer.init in Hinit. cbv zeta in Hinit.
  state_inv Hinit. rename Hstep into Henc.
  state_inv Hinit. rename Hstep into Hdec.
  apply state_ret_inv in Hinit as [-> _].
  apply encoder_call_layers in Henc. apply decoder_call_layers in Hdec.
  unfold optional in Henc, Hdec.
  rewrite !setdefault_lookup_ne in Henc by discriminate.
  rewrite setdefault_lookup_eq in Henc.
  rewrite !setdefault_lookup_ne in Henc by discriminate.
  rewrite !setdefault_lookup_ne in Hdec by discriminate.
  rewrite setdefault_lookup_eq in Hdec.
  rewrite !setdefault_lookup_ne in Hdec by discriminate.
  simpl in Henc, Hdec.
  assert (Hlen_e :
    length (TransformerAttentionEncoder.blocks
              (Transformer.encoder
                 (Transformer.mk true
                    (if tie_embedding
                     then TransformerAttentionEncoder.set_embedder a
                            (nn.Embedding.set_weight
                               (nn.Linear.weight
                                  (TransformerAttentionDecoder.classifier a0))
                               (TransformerAttentionEncoder.embedder a))
                     else a) a0)))
    = length (TransformerAttentionEncoder.blocks a))
    by (destruct tie_embedding; reflexivity).
  rewrite Hlen_e. simpl.
  split; [|split; [|split]].
  - intros z Hz. rewrite Hz in Henc. simpl in Henc. congruence.
  - intros z Hz. rewrite Hz in Hdec. simpl in Hdec. congruence.
  - intros Hn. rewrite Hn in Henc. simpl in Henc.
    rewrite Nat2Z.id in Henc. congruence.
  - intros Hn. rewrite Hn in Hdec. simpl in Hdec.
    rewrite Nat2Z.id in Hdec. congruence.
Qed.

(** X20. An entry of the [encoder] dictionary whose key is no parameter of
    [TransformerAttentionEncoder] (such as ['tie_embedding']) makes
    [Transformer] raise [TypeError]: no model is constructed. *)
Theorem transformer_unknown_encoder_option (vocab_size hidden_size : nat)
  (embedding_size : option nat) (num_layers num_heads inner_linear : nat)
  (dropout : F) (tie_embedding : bool)
  (encoder decoder : option (gmap string (pyval F))) (weight_norm : bool)
  (s : nn.Store F) (k : string) (v : pyval F) :
  default ∅ encoder !! k = Some v ->
  k ∉ TransformerAttentionEncoder.keys ->
  Transformer.init vocab_size hidden_size embedding_size num_layers num_heads
    inner_linear dropout tie_embedding encoder decoder weight_norm s
    = Raise TypeError.
Proof.
  intros Hk Hnot. unfold Transformer.init. cbv zeta.
  unfold state.bind at 1. unfold TransformerAttentionEncoder.call.
  unfold state.bind at 1.
  erewrite check_keys_unknown; [reflexivity| |exact Hnot].
  do 8 apply setdefault_keeps. exact Hk.
Qed.

End transformer_more.

Section allocation.
Context {F : Type} `{Float F} `{Framework F} `{Config}.
Hypothesis Halloc : allocating_framework.

Lemma layernorm_init_next (n : nat) (eps : F) (affine : bool)
  (s s' : nn.Store F) (l : LayerNorm1d.t F) :
  LayerNorm1d.init n eps affine s = Ok (l, s') ->
  nn.next_param s <= nn.next_param s'.
Proof.
  destruct affine.
  - destruct (LayerNorm1d_init_store n eps s)
      as [(self & s1 & Hi & _ & _ & _ & _ & _ & _ & _ & Hn & _) _].
    rewrite Hi. intros [= _ <-]. lia.
  - rewrite (proj2 (LayerNorm1d_init_store n eps s)). intros [= _ <-]. lia.
Qed.

Lemma wn_func_next (weight_norm : bool) (l : nn.Linear.t) (s s' : nn.Store F)
  (layer : Sequential.Layer F) :
  Sequential.wn_func weight_norm l s = Ok (layer, s') ->
  nn.next_param s <= nn.next_param s'.
Proof.
  unfold Sequential.wn_func. destruct weight_norm; intros Hw.
  - state_inv Hw. apply state_ret_inv in Hw as [_ ->].
    eapply (proj2 Halloc). eassumption.
  - apply state_ret_inv in Hw as [_ ->]. lia.
Qed.

Lemma attention_next input_size output_size num_heads (dropout : F)
  (causal weight_norm : bool) (s s' : nn.Store F)
  (a : MultiHeadAttention.t F AttentionImpl) :
  MultiHeadAttention_init input_size output_size num_heads dropout causal
    weight_norm s = Ok (a, s') ->
  nn.next_param s <= nn.next_param s'.
Proof.
  unfold MultiHeadAttention_init. intros Hi. state_inv Hi.
  apply state_ret_inv in Hi as [_ ->]. eapply (proj1 Halloc). eassumption.
Qed.

Lemma decoder_block_init_next hidden_size num_heads inner_linear
  (weight_norm : bool) (dropout : F) (s s' : nn.Store F) (blk : DecoderBlock.t F) :
  DecoderBlock.init hidden_size num_heads inner_linear weight_norm dropout s
    = Ok (blk, s') ->
  nn.next_param s <= nn.next_param s'.
Proof.
  unfold DecoderBlock.init. intros Hi.
  state_inv Hi. rename Hstep into Hln, s0 into sa.
  state_inv Hi. apply attention_next in Hstep.
  state_inv Hi. apply attention_next in Hstep0.
  state_inv Hi. apply linear_init_fields in Hstep1 as (_ & _ & _ & _ & Hl1).
  state_inv Hi. apply wn_func_next in Hstep1.
  state_inv Hi. apply linear_init_fields in Hstep2 as (_ & _ & _ & _ & Hl2).
  state_inv Hi. apply wn_func_next in Hstep2.
  apply state_ret_inv in Hi as [_ ->].
  assert (nn.next_param s <= nn.next_param sa).
  { destruct weight_norm; simpl in Hln.
    - apply state_ret_inv in Hln as [_ ->]. lia.
    - state_inv Hln. apply layernorm_init_next in Hstep3.
      state_inv Hln. apply layernorm_init_next in Hstep4.
      state_inv Hln. apply layernorm_init_next in Hstep5.
      apply state_ret_inv in Hln as [_ ->]. lia. }
  lia.
Qed.

Lemma replicateM_next {A : Type} (n : nat) (m : nn.M F A) (s s' : nn.Store F)
  (l : list A) :
  (forall s1 a s2, m s1 = Ok (a, s2) -> nn.next_param s1 <= nn.next_param s2) ->
  state.replicateM n m s = Ok (l, s') ->
  nn.next_param s <= nn.next_param s'.
Proof.
  intros Hm. revert s s' l. induction n as [|n IH]; intros s s' l Hr; simpl in Hr.
  - apply state_ret_inv in Hr as [_ ->]. lia.
  - state_inv Hr. state_inv Hr. apply state_ret_inv in Hr as [_ ->].
    apply Hm in Hstep. apply IH in Hstep0. lia.
Qed.

(** X21. When the constructors of the attention and weight-norm modules
    only ever create parameters, a decoder constructed with
    [tie_embedding=False] has two different parameters for its embedding
    weight and its classifier weight: an update of one is not seen through
    the other. *)
Theorem decoder_untied_parameters (vocab_size hidden_size : nat)
  (embedding_size : option nat) (num_layers num_heads : nat) (dropout : F)
  (inner_linear : nat) (mask_symbol : option Z) (weight_norm : bool)
  (s s' : nn.Store F) (dec : TransformerAttentionDecoder.t F) :
  TransformerAttentionDecoder.init vocab_size hidden_size embedding_size
    num_layers num_heads dropout inner_linear mask_symbol false weight_norm s
    = Ok (dec, s') ->
  let embedding := nn.Embedding.weight (TransformerAttentionDecoder.embedder dec) in
  let classifier := nn.Linear.weight (TransformerAttentionDecoder.classifier dec) in
  embedding < classifier /\
  forall t (st : nn.Store F),
    nn.read embedding (nn.update classifier t st) = nn.read embedding st.
Proof.
  unfold TransformerAttentionDecoder.init. cbv zeta. intros Hi.
  state_inv Hi. rename Hstep into He, s0 into sa.
  state_inv Hi. rename Hstep into Hb, s0 into sb.
  state_inv Hi. rename Hstep into Hc.
  apply state_ret_inv in Hi as [-> _]. simpl.
  apply embedding_init_fields in He as [-> Hna].
  apply linear_init_fields in Hc as (_ & _ & Hw & _).
  apply replicateM_next in Hb;
    [|intros st1 blk st2; apply decoder_block_init_next].
  simpl. rewrite Hw.
  assert (Hlt : nn.next_param s < nn.next_param sb) by lia.
  split; [exact Hlt|].
  intros t st. unfold nn.read, nn.update. simpl.
  apply lookup_insert_ne. lia.
Qed.

End allocation.

Lemma transformer_options_precedence_witness :
  exists (m : Transformer.t R) (s' : nn.Store R),
    Transformer.init 10 4 None 3 1 8 0%R true
      (Some {[ "num_layers"%string := PyInt (-1) ]}) None false empty_store
      = Ok (m, s') /\
    length (TransformerAttentionEncoder.blocks (Transformer.encoder m)) = 0 /\
    length (TransformerAttentionDecoder.blocks (Transformer.decoder m)) = 3.
Proof.
  assert (Hok : is_ok (Transformer.init 10 4 None 3 1 8 0%R true
                         (Some {[ "num_layers"%string := PyInt (-1) ]}) None false
                         empty_store) = true)
    by (vm_compute; reflexivity).
  destruct (Transformer.init 10 4 None 3 1 8 0%R true
              (Some {[ "num_layers"%string := PyInt (-1) ]}) None false empty_store)
    as [[m s']|e] eqn:E; [|discriminate].
  exists m, s'. split; [reflexivity|].
  destruct (transformer_options_precedence _ _ _ _ _ _ _ _ _ _ _ _ _ _ E)
    as (He & _ & _ & Hd).
  split.
  - apply (He (-1)%Z). simpl. apply lookup_singleton_eq.
  - apply Hd. reflexivity.
Defined.

Lemma transformer_unknown_encoder_option_witness :
  Transformer.init 10 4 None 3 1 8 0%R true
    (Some {[ "tie_embedding"%string := PyBool true ]}) None false empty_store
    = Raise TypeError.
Proof.
  apply (transformer_unknown_encoder_option 10 4 None 3 1 8 0%R true
           (Some {[ "tie_embedding"%string := PyBool true ]}) None false
           empty_store "tie_embedding" (PyBool true)).
  - vm_compute. reflexivity.
  - unfold TransformerAttentionEncoder.keys.
    rewrite !not_elem_of_cons. repeat (split; [discriminate|]).
    apply not_elem_of_nil.
Defined.

Lemma identity_framework_allocates :
  @allocating_framework R identity_Framework.
Proof.
  split.
  - intros * Hi. simpl in Hi. unfold state.ret in Hi. injection Hi as _ <-. lia.
  - intros * Hi. simpl in Hi. unfold state.ret in Hi. injection Hi as _ <-. lia.
Qed.

Lemma decoder_untied_parameters_witness :
  exists (dec : TransformerAttentionDecoder.t R) (s' : nn.Store R),
    TransformerAttentionDecoder.init 10 4 None 2 1 0%R 8 (Some 0%Z) false false
      empty_store = Ok (dec, s') /\
    nn.Embedding.weight (TransformerAttentionDecoder.embedder dec) <
    nn.Linear.weight (TransformerAttentionDecoder.classifier dec).
Proof.
  assert (Hok : is_ok (TransformerAttentionDecoder.init 10 4 None 2 1 0%R 8
                         (Some 0%Z) false false empty_store) = true)
    by (vm_compute; reflexivity).
  destruct (TransformerAttentionDecoder.init 10 4 None 2 1 0%R 8 (Some 0%Z)
              false false empty_store) as [[dec s']|e] eqn:E; [|discriminate].
  exists dec, s'. split; [reflexivity|].
  exact (proj1 (decoder_untied_parameters identity_framework_allocates
                  _ _ _ _ _ _ _ _ _ _ _ _ E)).
Defined.
